(** * Energy tracker: period, tariff, limit and consumption rules

  A shallow embedding of the Express route handlers of the household
  energy-consumption tracker (tariffs, limits, consumption records,
  reports, admin) together with the properties its specification states.

  Conventions.
  - A JavaScript [Date] is the integer number of milliseconds since the
    epoch ([getTime()]); all dates handled here are far inside the range in
    which double arithmetic on such integers is exact.
  - A JavaScript number is an IEEE 754 binary64 value, taken from
    [SpecFloat] with [prec = 53] and [emax = 1024].
  - A database table is the list of its rows; a handler is a function from
    the table(s) and the request to a response and the new table(s).
    Requests are handled one after the other.
  - What a [DATEONLY] attribute of the model layer makes of a value that is
    not a valid [YYYY-MM-DD] text is a parameter of the handlers that write
    such attributes ([Sequelize.Dateonly]). *)

From Stdlib Require Import ZArith List String Ascii Bool Lia SpecFloat.
From Stdlib Require DecimalString.
Import ListNotations.

Local Open Scope string_scope.
Local Open Scope Z_scope.

(* ================================================================== *)
(** ** The calendar of ECMAScript [Date] (UTC only) *)
(* ================================================================== *)

Module JSDate.

Definition msPerDay : Z := 86400000.

(** [DayFromYear], [InLeapYear] as in the language definition. *)
Definition DayFromYear (y : Z) : Z :=
  365 * (y - 1970) + (y - 1969) / 4 - (y - 1901) / 100 + (y - 1601) / 400.

Definition InLeapYear (y : Z) : bool :=
  (y mod 4 =? 0) && (negb (y mod 100 =? 0) || (y mod 400 =? 0)).

Definition leapDays (y : Z) : Z := if InLeapYear y then 1 else 0.

Definition DaysInYear (y : Z) : Z := 365 + leapDays y.

(** Day within the year on which month [m] (0 = January) starts; 12 gives
    the length of the year. *)
Definition monthStart (y m : Z) : Z :=
  match m with
  | 0 => 0
  | 1 => 31
  | 2 => 59 + leapDays y
  | 3 => 90 + leapDays y
  | 4 => 120 + leapDays y
  | 5 => 151 + leapDays y
  | 6 => 181 + leapDays y
  | 7 => 212 + leapDays y
  | 8 => 243 + leapDays y
  | 9 => 273 + leapDays y
  | 10 => 304 + leapDays y
  | 11 => 334 + leapDays y
  | _ => 365 + leapDays y
  end.

Definition daysInMonth (y m : Z) : Z := monthStart y (m + 1) - monthStart y m.

(** [YearFromTime]: the largest [y] with [DayFromYear y <= d], found from
    the estimate [d / 365.2425] corrected by at most one. *)
Definition YearFromDay (d : Z) : Z :=
  let y0 := 1970 + (400 * d) / 146097 in
  if d <? DayFromYear y0 then y0 - 1
  else if DayFromYear (y0 + 1) <=? d then y0 + 1
  else y0.

Definition DayWithinYear (d : Z) : Z := d - DayFromYear (YearFromDay d).

Definition MonthFromDay (d : Z) : Z :=
  let y := YearFromDay d in
  let w := DayWithinYear d in
  if w <? monthStart y 1 then 0
  else if w <? monthStart y 2 then 1
  else if w <? monthStart y 3 then 2
  else if w <? monthStart y 4 then 3
  else if w <? monthStart y 5 then 4
  else if w <? monthStart y 6 then 5
  else if w <? monthStart y 7 then 6
  else if w <? monthStart y 8 then 7
  else if w <? monthStart y 9 then 8
  else if w <? monthStart y 10 then 9
  else if w <? monthStart y 11 then 10
  else 11.

Definition DateFromDay (d : Z) : Z :=
  DayWithinYear d - monthStart (YearFromDay d) (MonthFromDay d) + 1.

(** [MakeDay]: months outside 0..11 carry into the year, days outside the
    month carry into the neighbouring months. *)
Definition MakeDay (year month date : Z) : Z :=
  let ym := year + month / 12 in
  let mn := month mod 12 in
  DayFromYear ym + monthStart ym mn + date - 1.

(** [Date.UTC(y, m, d)]: a year 0..99 means 1900 + year. *)
Definition UTC (y m d : Z) : Z :=
  let yr := if (0 <=? y) && (y <=? 99) then 1900 + y else y in
  msPerDay * MakeDay yr m d.

Definition Day (t : Z) : Z := t / msPerDay.

Definition getUTCFullYear (t : Z) : Z := YearFromDay (Day t).
Definition getUTCMonth (t : Z) : Z := MonthFromDay (Day t).
Definition getUTCDate (t : Z) : Z := DateFromDay (Day t).

End JSDate.

Import JSDate.

(* ================================================================== *)
(** ** Strings *)
(* ================================================================== *)

Module JSString.

(** [String(n)] for an integer [n]. *)
Definition ofZ (n : Z) : string :=
  DecimalString.NilZero.string_of_int (Z.to_int n).

(** [s.padStart(2, '0')]. *)
Definition padStart2 (s : string) : string :=
  match s with
  | EmptyString => "00"
  | String c EmptyString => String "0" (String c EmptyString)
  | _ => s
  end.

(** The class [\d] of a regular expression. *)
Definition isDigit (c : ascii) : bool :=
  let n := Z.of_N (N_of_ascii c) in (48 <=? n) && (n <=? 57).

Definition digitVal (c : ascii) : Z := Z.of_N (N_of_ascii c) - 48.

(** [Number(s)] for a non-empty string of decimal digits; [None] stands
    for the other strings (on most of which [Number] gives [NaN]). *)
Fixpoint digitsFrom (acc : Z) (s : string) : option Z :=
  match s with
  | EmptyString => Some acc
  | String c r =>
      if isDigit c then digitsFrom (10 * acc + digitVal c) r else None
  end.

Definition digitsValue (s : string) : option Z :=
  match s with
  | EmptyString => None
  | _ => digitsFrom 0 s
  end.

(** [s.split('-')]. *)
Fixpoint splitDash (s : string) : list string :=
  match s with
  | EmptyString => [EmptyString]
  | String c r =>
      if Ascii.eqb c "-" then EmptyString :: splitDash r
      else match splitDash r with
           | p :: ps => String c p :: ps
           | [] => [String c EmptyString]
           end
  end.

(** [a > b], [a < b], [a <= b] on strings: by code units. *)
Definition gt (a b : string) : bool := String.ltb b a.
Definition lt (a b : string) : bool := String.ltb a b.
Definition le (a b : string) : bool := String.leb a b.
Definition ge (a b : string) : bool := String.leb b a.

End JSString.

(* ================================================================== *)
(** ** Date and period utilities of the limits routes *)
(* ================================================================== *)

Module Period.

Import JSString.

(** A [Date] object: its time value, [None] for an invalid date. *)
Definition date := option Z.

(** [/^\d{4}-\d{2}-\d{2}$/.test(s)] *)
Definition isoPattern (s : string) : bool :=
  match s with
  | String y1 (String y2 (String y3 (String y4 (String h1
      (String m1 (String m2 (String h2 (String d1 (String d2
        EmptyString))))))))) =>
      isDigit y1 && isDigit y2 && isDigit y3 && isDigit y4 &&
      Ascii.eqb h1 "-" && isDigit m1 && isDigit m2 &&
      Ascii.eqb h2 "-" && isDigit d1 && isDigit d2
  | _ => false
  end.

(** [const [y, m, d] = s.split('-').map(Number)] when the first three
    pieces are groups of digits; [None] otherwise.  The handlers parse a
    string only after [isoPattern] has accepted it. *)
Definition splitYMD (s : string) : option (Z * Z * Z) :=
  match map digitsValue (splitDash s) with
  | Some y :: Some m :: Some d :: _ => Some (y, m, d)
  | _ => None
  end.

Definition isValidISODate (s : string) : bool :=
  if negb (isoPattern s) then false
  else match splitYMD s with
       | Some (y, m, d) =>
           let dt := UTC y (m - 1) d in
           (getUTCFullYear dt =? y) &&
           (getUTCMonth dt =? m - 1) &&
           (getUTCDate dt =? d)
       | None => false
       end.

Definition isAfter (dateA dateB : string) : bool := gt dateA dateB.

Definition pad2 (n : Z) : string := padStart2 (ofZ n).

(** [parseDateUTC] on the texts its callers pass, which [isValidISODate]
    has accepted: three groups of digits.  No date is given to any other
    text. *)
Definition parseDateUTC (s : string) : date :=
  match splitYMD s with
  | Some (y, m, d) => Some (UTC y (m - 1) d)
  | None => None
  end.

Definition formatDateUTC (dt : date) : string :=
  match dt with
  | Some t =>
      let y := getUTCFullYear t in
      let m := pad2 (getUTCMonth t + 1) in
      let d := pad2 (getUTCDate t) in
      ofZ y ++ "-" ++ m ++ "-" ++ d
  | None => "NaN-NaN-NaN"
  end.

Definition addDaysUTC (dt : date) (days : Z) : date :=
  match dt with
  | Some t => Some (t + days * 24 * 60 * 60 * 1000)
  | None => None
  end.

Definition addMonthsUTC (dt : date) (months : Z) : date :=
  match dt with
  | Some t =>
      let y := getUTCFullYear t in
      let m := getUTCMonth t in
      let d := getUTCDate t in
      let targetMonthIndex := m + months in
      let ty := y + targetMonthIndex / 12 in
      let tm := Z.rem (Z.rem targetMonthIndex 12 + 12) 12 in
      let lastDay := getUTCDate (UTC ty (tm + 1) 0) in
      let day := Z.min d lastDay in
      Some (UTC ty tm day)
  | None => None
  end.

Definition addYearsUTC (dt : date) (years : Z) : date :=
  addMonthsUTC dt (years * 12).

(** [null] is [None]. *)
Definition calcAutoPeriodEnd (periodType startStr : string) : option string :=
  let startDt := parseDateUTC startStr in
  if String.eqb periodType "week" then
    Some (formatDateUTC (addDaysUTC startDt 6))
  else if String.eqb periodType "month" then
    let next := addMonthsUTC startDt 1 in
    Some (formatDateUTC (addDaysUTC next (-1)))
  else if String.eqb periodType "year" then
    let next := addYearsUTC startDt 1 in
    Some (formatDateUTC (addDaysUTC next (-1)))
  else None.

(** *** The month rule in words: one month later, clamped, minus a day *)

(** A calendar date: year, month 1..12, day of the month. *)
Definition civil : Type := Z * Z * Z.

Definition monthLength (y m : Z) : Z := daysInMonth y (m - 1).

(** One month later, the day of the month clamped to the length of the
    target month. *)
Definition plusOneMonthClamped (c : civil) : civil :=
  let '(y, m, d) := c in
  let '(ty, tm) := if m =? 12 then (y + 1, 1) else (y, m + 1) in
  (ty, tm, Z.min d (monthLength ty tm)).

(** The calendar day before. *)
Definition dayBefore (c : civil) : civil :=
  let '(y, m, d) := c in
  if 1 <? d then (y, m, d - 1)
  else if 1 <? m then (y, m - 1, monthLength y (m - 1))
  else (y - 1, 12, 31).

Definition formatCivil (c : civil) : string :=
  let '(y, m, d) := c in ofZ y ++ "-" ++ pad2 m ++ "-" ++ pad2 d.

End Period.

(* ================================================================== *)
(** ** Numbers and request values *)
(* ================================================================== *)

Module JSNumber.

(** binary64 *)
Definition prec : Z := 53.
Definition emax : Z := 1024.

Definition number : Type := spec_float.

Definition NaN : number := S754_nan.

(** The number nearest to the integer [z]. *)
Definition ofInt (z : Z) : number := binary_normalize prec emax z 0 false.

(** The number nearest to the rational [n / d]. *)
Definition ofRatio (n : Z) (d : positive) : number :=
  match n with
  | Z0 => S754_zero false
  | Zpos p => SFdiv prec emax (S754_finite false p 0) (S754_finite false d 0)
  | Zneg p => SFdiv prec emax (S754_finite true p 0) (S754_finite false d 0)
  end.

(** The number nearest to [m * 10^e10]. *)
Definition ofDecimal (m : Z) (e10 : Z) : number :=
  match e10 with
  | Zneg p => ofRatio m (Pos.pow 10 p)
  | _ => ofInt (m * 10 ^ e10)
  end.

Definition neg (x : number) : number := SFopp x.
Definition mul (x y : number) : number := SFmul prec emax x y.
Definition div (x y : number) : number := SFdiv prec emax x y.
Definition add (x y : number) : number := SFadd prec emax x y.
Definition sub (x y : number) : number := SFsub prec emax x y.

(** [x < y], [x <= y], [x > y], [x >= y], [x === y]: all false on NaN. *)
Definition lt (x y : number) : bool := SFltb x y.
Definition le (x y : number) : bool := SFleb x y.
Definition gt (x y : number) : bool := SFltb y x.
Definition ge (x y : number) : bool := SFleb y x.
Definition eq (x y : number) : bool := SFeqb x y.

(** [Number.isFinite(x)] *)
Definition isFinite (x : number) : bool :=
  match x with
  | S754_zero _ | S754_finite _ _ _ => true
  | _ => false
  end.

(** [Number.isInteger(x)] *)
Definition isInteger (x : number) : bool :=
  match x with
  | S754_zero _ => true
  | S754_finite _ m e =>
      if 0 <=? e then true else (Zpos m) mod 2 ^ (- e) =? 0
  | _ => false
  end.

(** The integer part of a finite number (towards zero). *)
Definition truncate (x : number) : Z :=
  match x with
  | S754_finite s m e =>
      let a := if 0 <=? e then Zpos m * 2 ^ e else Zpos m / 2 ^ (- e) in
      if s then - a else a
  | _ => 0
  end.

(** [Math.max(x, y)] *)
Definition max (x y : number) : number :=
  match x, y with
  | S754_nan, _ | _, S754_nan => S754_nan
  | S754_zero sx, S754_zero sy => S754_zero (sx && sy)
  | _, _ => if SFltb x y then y else x
  end.

(** *** Decimal digits *)

Definition digitChar (d : Z) : ascii := ascii_of_N (Z.to_N (48 + d)).

(** The decimal digits of a positive integer, most significant first. *)
Fixpoint digitsFuel (fuel : nat) (n : Z) (acc : string) : string :=
  match fuel with
  | O => acc
  | S f =>
      let acc' := String (digitChar (n mod 10)) acc in
      if n <? 10 then acc' else digitsFuel f (n / 10) acc'
  end.

Definition digitsOf (n : Z) : string :=
  digitsFuel (S (Z.to_nat (Z.log2 n))) n EmptyString.

Fixpoint zeros (k : nat) : string :=
  match k with
  | O => EmptyString
  | S k' => String "0" (zeros k')
  end.

(** [n] written with [k] digits after the point ([n] counts units of
    [10^-k]). *)
Definition fixedDigits (n : Z) (k : nat) : string :=
  let ds := digitsOf n in
  let ds := zeros (S k - String.length ds) ++ ds in
  let ip := (String.length ds - k)%nat in
  match k with
  | O => ds
  | _ => String.substring 0 ip ds ++ "." ++ String.substring ip k ds
  end.

(** The integer nearest to [m * 2^e * 10^k], the larger one on a tie. *)
Definition roundScaled (m : positive) (e : Z) (k : nat) : Z :=
  let p := Zpos m * 10 ^ Z.of_nat k in
  if 0 <=? e then p * 2 ^ e
  else (2 * p + 2 ^ (- e)) / (2 * 2 ^ (- e)).

(** *** [Number::toString]: the shortest digits that read back as [x] *)

(** A positive rational [num / den]. *)
Definition ratOf (m : positive) (e : Z) : Z * Z :=
  if 0 <=? e then (Zpos m * 2 ^ e, 1) else (Zpos m, 2 ^ (- e)).

(** The least [j >= 1] with [num * 10^j >= den], searched up to [fuel]. *)
Fixpoint leadingZeros (fuel : nat) (num den : Z) (j : Z) : Z :=
  match fuel with
  | O => j
  | S f => if den <=? num * 10 ^ j then j else leadingZeros f num den (j + 1)
  end.

(** [n] with [10^(n-1) <= num/den < 10^n]. *)
Definition decimalExponent (num den : Z) : Z :=
  if den <=? num then Z.of_nat (String.length (digitsOf (num / den)))
  else 1 - leadingZeros 400 num den 1.

(** [num/den * 10^p] rounded down. *)
Definition scaleFloor (num den p : Z) : Z :=
  if 0 <=? p then (num * 10 ^ p) / den else num / (den * 10 ^ (- p)).

(** Distance of [s * 10^(-p)] from [num/den], as a numerator over the
    common denominator. *)
Definition distance (num den p s : Z) : Z :=
  if 0 <=? p then Z.abs (s * den - num * 10 ^ p)
  else Z.abs (s * den * 10 ^ (- p) - num).

(** The digits [s] of length [k] and the exponent [n'] with
    [10^(k-1) <= s < 10^k] for which [s * 10^(n'-k)] reads back as
    [x = m * 2^e], if [k] digits suffice.  Here [10^(n-1) <= x < 10^n]; the
    candidate above [x] may be [10^k], which is the digit 1 followed by
    zeros with the exponent [n + 1] (so 1e23, whose double lies below
    [10^23], is written with the one digit 1). *)
Definition digitsOfLength (m : positive) (e : Z) (n : Z) (k : Z)
  : option (Z * Z) :=
  let '(num, den) := ratOf m e in
  let p := k - n in
  let lo := scaleFloor num den p in
  let hi := lo + 1 in
  let x := S754_finite false m e in
  let reads (s : Z) : bool :=
    (10 ^ (k - 1) <=? s) && (s <=? 10 ^ k) &&
    match SFcompare (ofDecimal s (- p)) x with Some Eq => true | _ => false end
  in
  let digits (s : Z) : Z * Z :=
    if s =? 10 ^ k then (10 ^ (k - 1), n + 1) else (s, n) in
  match reads lo, reads hi with
  | true, false => Some (digits lo)
  | false, true => Some (digits hi)
  | true, true =>
      match distance num den p lo ?= distance num den p hi with
      | Lt => Some (digits lo)
      | Gt => Some (digits hi)
      | Eq => Some (digits (if Z.even lo then lo else hi))
      end
  | false, false => None
  end.

(** The least [k] for which [k] digits suffice, with the digits and the
    exponent. *)
Fixpoint shortest (fuel : nat) (m : positive) (e : Z) (n : Z) (k : Z)
  : Z * Z * Z :=
  match fuel with
  | O => (roundScaled m e 0, k, n)
  | S f =>
      match digitsOfLength m e n k with
      | Some (s, n') => (s, k, n')
      | None => shortest f m e n (k + 1)
      end
  end.

Definition toStringPos (m : positive) (e : Z) : string :=
  let '(num, den) := ratOf m e in
  let '(s, k, n) := shortest 17 m e (decimalExponent num den) 1 in
  let ds := digitsOf s in
  if (k <=? n) && (n <=? 21) then ds ++ zeros (Z.to_nat (n - k))
  else if (0 <? n) && (n <=? 21) then
    String.substring 0 (Z.to_nat n) ds ++ "." ++
    String.substring (Z.to_nat n) (Z.to_nat (k - n)) ds
  else if (-6 <? n) && (n <=? 0) then
    "0." ++ zeros (Z.to_nat (- n)) ++ ds
  else
    let ex := n - 1 in
    let exs := (if ex <? 0 then "-" else "+") ++ digitsOf (Z.abs ex) in
    match k with
    | 1 => ds ++ "e" ++ exs
    | _ => String.substring 0 1 ds ++ "." ++
           String.substring 1 (Z.to_nat (k - 1)) ds ++ "e" ++ exs
    end.

(** [String(x)] *)
Definition toString (x : number) : string :=
  match x with
  | S754_nan => "NaN"
  | S754_zero _ => "0"
  | S754_infinity s => if s then "-Infinity" else "Infinity"
  | S754_finite s m e => (if s then "-" else "") ++ toStringPos m e
  end.

(** [x.toFixed(k)] *)
Definition toFixed (x : number) (k : nat) : string :=
  match x with
  | S754_nan => "NaN"
  | S754_infinity s => if s then "-Infinity" else "Infinity"
  | S754_zero _ => fixedDigits 0 k
  | S754_finite s m e =>
      if (0 <=? e) && (10 ^ 21 <=? Zpos m * 2 ^ e) then toString x
      else (if s then "-" else "") ++ fixedDigits (roundScaled m e k) k
  end.

(** *** [Number(s)] on strings *)

Definition isWhite (c : ascii) : bool :=
  let n := Z.of_N (N_of_ascii c) in
  ((9 <=? n) && (n <=? 13)) || (n =? 32) || (n =? 160).

Fixpoint trimStart (s : string) : string :=
  match s with
  | String c r => if isWhite c then trimStart r else s
  | EmptyString => s
  end.

Fixpoint trimEnd (s : string) : string :=
  match s with
  | String c r =>
      match trimEnd r with
      | EmptyString => if isWhite c then EmptyString else String c EmptyString
      | r' => String c r'
      end
  | EmptyString => s
  end.

Definition trim (s : string) : string := trimEnd (trimStart s).

(** Leading decimal digits: their value, their number and the rest. *)
Fixpoint takeDigits (s : string) (acc : Z) (cnt : Z) : Z * Z * string :=
  match s with
  | String c r =>
      if JSString.isDigit c
      then takeDigits r (10 * acc + JSString.digitVal c) (cnt + 1)
      else (acc, cnt, s)
  | EmptyString => (acc, cnt, s)
  end.

Definition hexVal (c : ascii) : option Z :=
  let n := Z.of_N (N_of_ascii c) in
  if (48 <=? n) && (n <=? 57) then Some (n - 48)
  else if (65 <=? n) && (n <=? 70) then Some (n - 55)
  else if (97 <=? n) && (n <=? 102) then Some (n - 87)
  else None.

(** A non-empty string of digits in [base] (2, 8 or 16). *)
Fixpoint radixDigits (base : Z) (s : string) (acc : Z) : option Z :=
  match s with
  | EmptyString => Some acc
  | String c r =>
      match hexVal c with
      | Some d => if d <? base then radixDigits base r (base * acc + d)
                  else None
      | None => None
      end
  end.

Definition radixLiteral (base : Z) (s : string) : number :=
  match s with
  | EmptyString => NaN
  | _ => match radixDigits base s 0 with
         | Some v => ofInt v
         | None => NaN
         end
  end.

(** The optional exponent part and the end of the literal. *)
Definition exponentPart (s : string) : option Z :=
  match s with
  | EmptyString => Some 0
  | String c r =>
      if Ascii.eqb c "e" || Ascii.eqb c "E" then
        let '(sg, r') :=
          match r with
          | String "+" r' => (1, r')
          | String "-" r' => (-1, r')
          | _ => (1, r)
          end in
        match takeDigits r' 0 0 with
        | (v, cnt, EmptyString) => if 0 <? cnt then Some (sg * v) else None
        | _ => None
        end
      else None
  end.

(** An unsigned decimal literal. *)
Definition unsignedDecimal (sign : bool) (s : string) : number :=
  if String.eqb s "Infinity" then S754_infinity sign
  else
    let '(ip, ic, r1) := takeDigits s 0 0 in
    let '(fp, fc, r2) :=
      match r1 with
      | String "." r => takeDigits r ip 0
      | _ => (ip, 0, r1)
      end in
    if (ic + fc =? 0) then NaN
    else match exponentPart r2 with
         | Some ex =>
             if fp =? 0 then S754_zero sign
             else ofDecimal (if sign then - fp else fp) (ex - fc)
         | None => NaN
         end.

(** [Number(s)] for a string [s]. *)
Definition ofString (s : string) : number :=
  match trim s with
  | EmptyString => S754_zero false
  | String "+" r => unsignedDecimal false r
  | String "-" r => unsignedDecimal true r
  | String "0" (String "x" r) | String "0" (String "X" r) => radixLiteral 16 r
  | String "0" (String "o" r) | String "0" (String "O" r) => radixLiteral 8 r
  | String "0" (String "b" r) | String "0" (String "B" r) => radixLiteral 2 r
  | t => unsignedDecimal false t
  end.

End JSNumber.

(** A value of a JSON request body, or of a column read from the
    database.  Arrays and objects are not represented. *)
Inductive JsVal : Type :=
| JUndefined
| JNull
| JBool (b : bool)
| JNum (n : JSNumber.number)
| JStr (s : string).

Module JS.

Import JSNumber.

(** [Number(v)] *)
Definition ToNumber (v : JsVal) : number :=
  match v with
  | JUndefined => NaN
  | JNull => S754_zero false
  | JBool b => if b then ofInt 1 else S754_zero false
  | JNum n => n
  | JStr s => ofString s
  end.

(** [Boolean(v)], the truth value used by [!v], [v || w] and [if (v)]. *)
Definition ToBoolean (v : JsVal) : bool :=
  match v with
  | JUndefined | JNull => false
  | JBool b => b
  | JNum n => match n with
              | S754_zero _ | S754_nan => false
              | _ => true
              end
  | JStr s => negb (String.eqb s "")
  end.

(** [String(v)] *)
Definition ToString (v : JsVal) : string :=
  match v with
  | JUndefined => "undefined"
  | JNull => "null"
  | JBool b => if b then "true" else "false"
  | JNum n => toString n
  | JStr s => s
  end.

(** [v == null] *)
Definition isNullish (v : JsVal) : bool :=
  match v with
  | JUndefined | JNull => true
  | _ => false
  end.

(** [v === undefined] *)
Definition isUndefined (v : JsVal) : bool :=
  match v with
  | JUndefined => true
  | _ => false
  end.

(** [v === true], [v === false] *)
Definition isTrue (v : JsVal) : bool :=
  match v with
  | JBool true => true
  | _ => false
  end.

Definition isFalse (v : JsVal) : bool :=
  match v with
  | JBool false => true
  | _ => false
  end.

(** [v || w] *)
Definition or (v w : JsVal) : JsVal := if ToBoolean v then v else w.

(** [v ?? w] *)
Definition coalesce (v w : JsVal) : JsVal := if isNullish v then w else v.

(** An [id] column compared with a number in a [where] clause. *)
Definition idIs (id : Z) (n : number) : bool := eq n (ofInt id).

End JS.

(* ================================================================== *)
(** ** The model layer: [DATEONLY] attributes *)
(* ================================================================== *)

Module Sequelize.

Import JS.

(** A value written to a [DATEONLY] attribute, in a row or in a [where]
    clause, goes through [moment(value).format('YYYY-MM-DD')], and the
    database keeps a date.  A text that is a valid [YYYY-MM-DD] date comes
    back as it is.  What becomes of any other value depends on the parsers
    of moment and of the [Date] constructor of the engine and on the
    database, none of which is code of this repository: it is taken as a
    parameter, which gives the text kept, or [None] when the call throws. *)
Definition Dateonly : Type := JsVal -> option string.

Definition dateText (other : Dateonly) (s : string) : option string :=
  if Period.isValidISODate s then Some s else other (JStr s).

(** The same for a value of any type; [null] is kept by an attribute that
    allows it and refused by one that does not. *)
Definition dateValue (other : Dateonly) (allowNull : bool) (v : JsVal)
  : option JsVal :=
  match v with
  | JNull => if allowNull then Some JNull else None
  | JStr s => option_map JStr (dateText other s)
  | _ => option_map JStr (other v)
  end.

(** Two behaviours the parameter can have.  The first takes nothing but
    valid ISO dates.  The second also reads a year, a month and a day
    written without their leading zeros and keeps the date when its year is
    one that [isValidISODate] accepts. *)
Definition isoOnly : Dateonly := fun _ => None.

Definition pad4 (n : Z) : string :=
  let ds := JSString.ofZ n in
  JSNumber.zeros (4 - String.length ds) ++ ds.

Definition padsYear : Dateonly :=
  fun v =>
    match v with
    | JStr s =>
        match Period.splitYMD s with
        | Some (y, m, d) =>
            let t := pad4 y ++ "-" ++ Period.pad2 m ++ "-" ++ Period.pad2 d in
            if Period.isValidISODate t then Some t else None
        | None => None
        end
    | _ => None
    end.

End Sequelize.

(* ================================================================== *)
(** ** Tariff routes *)
(* ================================================================== *)

Module Tariffs.

Import JS.

(** A row of [tariffs].  The name and the price are the values the
    handlers hand to the model layer; the two dates are what the
    [DATEONLY] attributes keep of them. *)
Record Tariff : Type := mkTariff {
  id : Z;
  user_id : Z;
  tariff_name : JsVal;
  price_per_kwh : JsVal;
  valid_from : JsVal;
  valid_to : JsVal;
  is_active : bool
}.

Inductive Body : Type :=
| Message (message : string)
| Row (row : Tariff)
| InternalError.

Record Response : Type := mkResponse { status : Z; body : Body }.

(** A request after [auth]: the caller [req.user.id], the value of
    [todayISO()] when it is handled, the path parameter read as an integer
    and the fields of the JSON body ([JUndefined] for a missing one). *)
Record Request : Type := mkRequest {
  user : Z;
  today : string;
  param_id : Z;
  b_tariff_name : JsVal;
  b_price_per_kwh : JsVal;
  b_valid_from : JsVal;
  b_valid_to : JsVal;
  b_is_active : JsVal
}.

Definition isAfter (dateA dateB : JsVal) : bool :=
  JSString.gt (ToString dateA) (ToString dateB).

Definition isDateInRange (date : string) (validFrom validTo : JsVal) : bool :=
  let d := date in
  let from := if ToBoolean validFrom then Some (ToString validFrom) else None in
  let to := if ToBoolean validTo then Some (ToString validTo) else None in
  if match from with
     | Some f => negb (String.eqb f "") && JSString.lt d f
     | None => false
     end then false
  else if match to with
          | Some t => negb (String.eqb t "") && JSString.gt d t
          | None => false
          end then false
  else true.

Record Check : Type := mkCheck { ok : bool; message : string }.

Definition assertCanBeActiveNow (today : string) (validFrom validTo : JsVal)
  : Check :=
  if negb (isDateInRange today validFrom validTo) then
    mkCheck false
      ("Tariff cannot be active now. Today (" ++ today ++
       ") is outside the tariff validity range.")
  else mkCheck true "".

(** [Tariff.findOne({ where: { id, user_id } })] *)
Definition findOne (rows : list Tariff) (i u : Z) : option Tariff :=
  find (fun t => (id t =? i) && (user_id t =? u)) rows.

(** The key given to a created row.  The database gives a key that no row
    has; the model takes the one after the largest key in the table, which
    keeps no trace of the rows deleted from it. *)
Definition nextId (rows : list Tariff) : Z :=
  1 + fold_right Z.max 0 (map id rows).

Definition setActive (t : Tariff) (a : bool) : Tariff :=
  mkTariff (id t) (user_id t) (tariff_name t) (price_per_kwh t)
           (valid_from t) (valid_to t) a.

(** [Tariff.update({ is_active: false },
       { where: { user_id, id: { [Op.ne]: keep } } })] *)
Definition deactivateOthers (u keep : Z) (rows : list Tariff) : list Tariff :=
  map (fun t => if (user_id t =? u) && negb (id t =? keep)
                then setActive t false else t) rows.

(** [row.update(...)]: the row with the key of [r] becomes [r]. *)
Definition updateRow (r : Tariff) (rows : list Tariff) : list Tariff :=
  map (fun t => if id t =? id r then r else t) rows.

(** [POST /api/tariffs].  A call of the model layer that throws ends in
    [next(e)]: the answer is 500 and the transaction writes nothing. *)
Definition post (other : Sequelize.Dateonly) (rows : list Tariff)
  (req : Request) : Response * list Tariff :=
  let tariff_name := b_tariff_name req in
  let price_per_kwh := b_price_per_kwh req in
  let valid_from := b_valid_from req in
  let valid_to := b_valid_to req in
  let is_active := b_is_active req in
  if negb (ToBoolean tariff_name) || isNullish price_per_kwh
     || negb (ToBoolean valid_from) then
    (mkResponse 400
       (Message "tariff_name, price_per_kwh, valid_from are required"), rows)
  else if ToBoolean valid_to && isAfter valid_from valid_to then
    (mkResponse 400 (Message "valid_from cannot be after valid_to"), rows)
  else
    let makeActive := negb (isFalse is_active) in
    let check :=
      assertCanBeActiveNow (today req) valid_from (or valid_to JNull) in
    if makeActive && negb (ok check) then
      (mkResponse 400 (Message (message check)), rows)
    else
      match Sequelize.dateValue other false valid_from,
            Sequelize.dateValue other true (or valid_to JNull) with
      | Some from, Some to =>
          let newRow :=
            mkTariff (nextId rows) (user req) tariff_name price_per_kwh
                     from to makeActive in
          let rows1 := (rows ++ [newRow])%list in
          let rows2 :=
            if makeActive then deactivateOthers (user req) (id newRow) rows1
            else rows1 in
          (mkResponse 201 (Row newRow), rows2)
      | _, _ => (mkResponse 500 InternalError, rows)
      end.

(** [PATCH /api/tariffs/:id] *)
Definition patch (other : Sequelize.Dateonly) (rows : list Tariff)
  (req : Request) : Response * list Tariff :=
  match findOne rows (param_id req) (user req) with
  | None => (mkResponse 404 (Message "not found"), rows)
  | Some row =>
      let tariff_name := b_tariff_name req in
      let price_per_kwh := b_price_per_kwh req in
      let valid_from := b_valid_from req in
      let valid_to := b_valid_to req in
      let is_active := b_is_active req in
      let nextValidFrom := coalesce valid_from (Tariffs.valid_from row) in
      let nextValidTo :=
        if isUndefined valid_to then Tariffs.valid_to row
        else or valid_to JNull in
      if ToBoolean nextValidTo && isAfter nextValidFrom nextValidTo then
        (mkResponse 400 (Message "valid_from cannot be after valid_to"), rows)
      else
        let nextIsActive :=
          if isUndefined is_active then Tariffs.is_active row
          else ToBoolean is_active in
        let check :=
          assertCanBeActiveNow (today req) nextValidFrom nextValidTo in
        if nextIsActive && negb (ok check) then
          (mkResponse 400 (Message (message check)), rows)
        else
          match Sequelize.dateValue other false nextValidFrom,
                Sequelize.dateValue other true nextValidTo with
          | Some from, Some to =>
              let rows1 :=
                if isTrue is_active
                then deactivateOthers (user req) (id row) rows
                else rows in
              let updated :=
                mkTariff (id row) (user_id row)
                         (coalesce tariff_name (Tariffs.tariff_name row))
                         (coalesce price_per_kwh (Tariffs.price_per_kwh row))
                         from to nextIsActive in
              (mkResponse 200 (Row updated), updateRow updated rows1)
          | _, _ => (mkResponse 500 InternalError, rows)
          end
  end.

(** [POST /api/tariffs/:id/activate] *)
Definition activate (rows : list Tariff) (req : Request)
  : Response * list Tariff :=
  match findOne rows (param_id req) (user req) with
  | None => (mkResponse 404 (Message "not found"), rows)
  | Some row =>
      if is_active row then (mkResponse 200 (Row row), rows)
      else
        let check :=
          assertCanBeActiveNow (today req) (valid_from row) (valid_to row) in
        if negb (ok check) then
          (mkResponse 400 (Message (message check)), rows)
        else
          let rows1 := deactivateOthers (user req) (id row) rows in
          let updated := setActive row true in
          (mkResponse 200 (Row updated), updateRow updated rows1)
  end.

(** The tariffs of user [u] that are active. *)
Definition activeOf (u : Z) (rows : list Tariff) : list Tariff :=
  filter (fun t => (user_id t =? u) && is_active t) rows.

End Tariffs.

(* ================================================================== *)
(** ** Limit routes *)
(* ================================================================== *)

Module Limits.

Import JS JSNumber Period.

Definition PERIOD_TYPES : list string := ["week"; "month"; "year"; "custom"].

(** [PERIOD_TYPES.has(s)] *)
Definition isPeriodType (s : string) : bool :=
  existsb (String.eqb s) PERIOD_TYPES.

Definition toNumber (value : JsVal) : number :=
  let n := ToNumber value in
  if isFinite n then n else NaN.

(** A row of [limits]. *)
Record Limit : Type := mkLimit {
  id : Z;
  user_id : Z;
  limit_kwh : string;
  period_type : string;
  period_start : string;
  period_end : string;
  alert_enabled : bool;
  alert_threshold_percent : Z
}.

(** The body of [GET /api/limits/:id/progress]. *)
Record ProgressBody : Type := mkProgress {
  p_limit_id : Z;
  p_period_type : string;
  p_period_start : string;
  p_period_end : string;
  p_limit_kwh : string;
  p_used_kwh : string;
  p_percent_used : option number;
  p_alert_enabled : bool;
  p_alert_threshold_percent : number;
  p_threshold_reached : bool;
  p_limit_exceeded : bool
}.

Inductive Body : Type :=
| Message (message : string)
| EndMismatch (message : string) (expected_period_end : string)
| Overlapping (message : string) (existing_limit_id : Z)
| Row (row : Limit)
| Progress (p : ProgressBody)
| InternalError.

Record Response : Type := mkResponse { status : Z; body : Body }.

(** A request after [auth]: the caller, the path parameter and the fields
    of the JSON body ([JUndefined] for a missing one). *)
Record Request : Type := mkRequest {
  user : Z;
  param_id : Z;
  b_limit_kwh : JsVal;
  b_period_type : JsVal;
  b_period_start : JsVal;
  b_period_end : JsVal;
  b_alert_enabled : JsVal;
  b_alert_threshold_percent : JsVal
}.

(** The outcome of [resolvePeriodEndOrFail]: either the response already
    sent (the function then returns [null]) or the resolved end. *)
Definition resolvePeriodEndOrFail
  (type start : string) (endFromBody endFromDb : JsVal)
  : Response + string :=
  if String.eqb type "custom" then
    let end_ :=
      if negb (isUndefined endFromBody)
      then ToString (or endFromBody (JStr ""))
      else ToString (or endFromDb (JStr "")) in
    if negb (isValidISODate end_) then
      inl (mkResponse 400
             (Message "period_end is required for custom and must be YYYY-MM-DD"))
    else if isAfter start end_ then
      inl (mkResponse 400 (Message "period_start cannot be after period_end"))
    else inr end_
  else
    match calcAutoPeriodEnd type start with
    | None =>
        inl (mkResponse 400
               (Message "period_type must be one of: week, month, year, custom"))
    | Some autoEnd =>
        if negb (isUndefined endFromBody) then
          let provided := ToString (or endFromBody (JStr "")) in
          if negb (isValidISODate provided) then
            inl (mkResponse 400 (Message "period_end must be YYYY-MM-DD"))
          else if negb (String.eqb provided autoEnd) then
            inl (mkResponse 400
                   (EndMismatch
                      ("period_end is auto-calculated for period_type=" ++
                       type ++ ". Expected " ++ autoEnd)
                      autoEnd))
          else inr autoEnd
        else inr autoEnd
    end.

(** [null] is [None]. *)
Definition decimalString (value : JsVal) (digits : nat) : option string :=
  let n := toNumber value in
  if negb (isFinite n) then None else Some (toFixed n digits).

Definition parseBool (v : JsVal) : option bool :=
  match v with
  | JBool b => Some b
  | JNum n =>
      if eq n (ofInt 1) || eq n (ofInt 0) then Some (ToBoolean v) else None
  | JStr s =>
      if String.eqb s "true" then Some true
      else if String.eqb s "false" then Some false
      else if String.eqb s "1" then Some true
      else if String.eqb s "0" then Some false
      else None
  | _ => None
  end.

(** The inclusive overlap test of the [where] clause. *)
Definition overlaps (l : Limit) (start end_ : string) : bool :=
  JSString.le (period_start l) end_ && JSString.ge (period_end l) start.

(** [Limit.findOne({ where })] with the clause built by
    [findOverlappingLimit]; [excludeId] is [None] when not given. *)
Definition findOverlappingLimit
  (rows : list Limit) (userId : Z) (periodType start end_ : string)
  (excludeId : option Z) : option Limit :=
  find (fun l =>
          (user_id l =? userId) &&
          String.eqb (period_type l) periodType &&
          overlaps l start end_ &&
          match excludeId with
          | Some x => negb (id l =? x)
          | None => true
          end) rows.

(** [Limit.findOne({ where: { id, user_id } })] *)
Definition findOne (rows : list Limit) (i u : Z) : option Limit :=
  find (fun l => (id l =? i) && (user_id l =? u)) rows.

(** The key given to a created row.  The database gives a key that no row
    has; the model takes the one after the largest key in the table, which
    keeps no trace of the rows deleted from it. *)
Definition nextId (rows : list Limit) : Z :=
  1 + fold_right Z.max 0 (map id rows).

(** [row.update(...)]: the row with the key of [r] becomes [r]. *)
Definition updateRow (r : Limit) (rows : list Limit) : list Limit :=
  map (fun l => if id l =? id r then r else l) rows.

(** The values a handler has once all its checks on the request have
    passed and before it looks for an overlapping limit. *)
Record Candidate : Type := mkCandidate {
  c_type : string;
  c_start : string;
  c_end : string;
  c_limit : string;
  c_alert_enabled : bool;
  c_threshold : number
}.

(** [POST /api/limits], up to the overlap query. *)
Definition checkPost (req : Request) : Response + Candidate :=
  let type := ToString (or (b_period_type req) (JStr "")) in
  if negb (isPeriodType type) then
    inl (mkResponse 400
           (Message "period_type must be one of: week, month, year, custom"))
  else
    let start := ToString (or (b_period_start req) (JStr "")) in
    if negb (isValidISODate start) then
      inl (mkResponse 400 (Message "period_start must be YYYY-MM-DD"))
    else
      match resolvePeriodEndOrFail type start (b_period_end req) JUndefined with
      | inl sent => inl sent
      | inr end_ =>
          let limitStr := decimalString (b_limit_kwh req) 3 in
          match limitStr with
          | None =>
              inl (mkResponse 400 (Message "limit_kwh must be a positive number"))
          | Some limitStr =>
              if le (toNumber (JStr limitStr)) (ofInt 0) then
                inl (mkResponse 400
                       (Message "limit_kwh must be a positive number"))
              else
                let alertEnabledParsed :=
                  if isUndefined (b_alert_enabled req) then Some true
                  else parseBool (b_alert_enabled req) in
                match alertEnabledParsed with
                | None =>
                    inl (mkResponse 400 (Message "alert_enabled must be boolean"))
                | Some alertEnabledParsed =>
                    let thresholdRaw :=
                      if isUndefined (b_alert_threshold_percent req)
                      then ofInt 80
                      else ToNumber (b_alert_threshold_percent req) in
                    if negb (isInteger thresholdRaw)
                       || lt thresholdRaw (ofInt 1)
                       || gt thresholdRaw (ofInt 100) then
                      inl (mkResponse 400
                             (Message "alert_threshold_percent must be integer 1..100"))
                    else
                      inr (mkCandidate type start end_ limitStr
                             alertEnabledParsed thresholdRaw)
                end
          end
      end.

(** [POST /api/limits].  The start and the end are written to [DATEONLY]
    attributes, in the overlap query and in the row; a call of the model
    layer that throws ends in [next(e)]: the answer is 500 and nothing is
    written. *)
Definition post (other : Sequelize.Dateonly) (rows : list Limit)
  (req : Request) : Response * list Limit :=
  match checkPost req with
  | inl sent => (sent, rows)
  | inr c =>
      match Sequelize.dateText other (c_start c),
            Sequelize.dateText other (c_end c) with
      | Some start, Some end_ =>
          match findOverlappingLimit rows (user req) (c_type c) start end_
                  None with
          | Some overlap =>
              (mkResponse 409
                 (Overlapping "Overlapping limit exists for this period_type"
                    (id overlap)), rows)
          | None =>
              let created :=
                mkLimit (nextId rows) (user req) (c_limit c) (c_type c)
                        start end_ (c_alert_enabled c)
                        (truncate (c_threshold c)) in
              (mkResponse 201 (Row created), (rows ++ [created])%list)
          end
      | _, _ => (mkResponse 500 InternalError, rows)
      end
  end.

(** [PATCH /api/limits/:id], from the row found up to the overlap query. *)
Definition checkPatch (row : Limit) (req : Request) : Response + Candidate :=
  let nextType :=
    if isUndefined (b_period_type req) then period_type row
    else ToString (or (b_period_type req) (JStr "")) in
  if negb (isPeriodType nextType) then
    inl (mkResponse 400
           (Message "period_type must be one of: week, month, year, custom"))
  else
    let nextStart :=
      if isUndefined (b_period_start req) then period_start row
      else ToString (or (b_period_start req) (JStr "")) in
    if negb (isValidISODate nextStart) then
      inl (mkResponse 400 (Message "period_start must be YYYY-MM-DD"))
    else
      match resolvePeriodEndOrFail nextType nextStart (b_period_end req)
              (JStr (period_end row)) with
      | inl sent => inl sent
      | inr nextEnd =>
          let nextLimitStr :=
            if isUndefined (b_limit_kwh req) then Some (limit_kwh row)
            else decimalString (b_limit_kwh req) 3 in
          match nextLimitStr with
          | None =>
              inl (mkResponse 400 (Message "limit_kwh must be a positive number"))
          | Some nextLimitStr =>
              if le (toNumber (JStr nextLimitStr)) (ofInt 0) then
                inl (mkResponse 400
                       (Message "limit_kwh must be a positive number"))
              else
                let nextAlertEnabled :=
                  if isUndefined (b_alert_enabled req)
                  then parseBool (JBool (alert_enabled row))
                  else parseBool (b_alert_enabled req) in
                match nextAlertEnabled with
                | None =>
                    inl (mkResponse 400 (Message "alert_enabled must be boolean"))
                | Some nextAlertEnabled =>
                    let nextThreshold :=
                      if isUndefined (b_alert_threshold_percent req)
                      then ofInt (alert_threshold_percent row)
                      else ToNumber (b_alert_threshold_percent req) in
                    if negb (isInteger nextThreshold)
                       || lt nextThreshold (ofInt 1)
                       || gt nextThreshold (ofInt 100) then
                      inl (mkResponse 400
                             (Message "alert_threshold_percent must be integer 1..100"))
                    else
                      inr (mkCandidate nextType nextStart nextEnd nextLimitStr
                             nextAlertEnabled nextThreshold)
                end
          end
      end.

(** [PATCH /api/limits/:id] *)
Definition patch (other : Sequelize.Dateonly) (rows : list Limit)
  (req : Request) : Response * list Limit :=
  match findOne rows (param_id req) (user req) with
  | None => (mkResponse 404 (Message "not found"), rows)
  | Some row =>
      match checkPatch row req with
      | inl sent => (sent, rows)
      | inr c =>
          match Sequelize.dateText other (c_start c),
                Sequelize.dateText other (c_end c) with
          | Some start, Some end_ =>
              match findOverlappingLimit rows (user req) (c_type c) start
                      end_ (Some (param_id req)) with
              | Some overlap =>
                  (mkResponse 409
                     (Overlapping
                        "Overlapping limit exists for this period_type"
                        (id overlap)), rows)
              | None =>
                  let updated :=
                    mkLimit (id row) (user_id row) (c_limit c) (c_type c)
                            start end_ (c_alert_enabled c)
                            (truncate (c_threshold c)) in
                  (mkResponse 200 (Row updated), updateRow updated rows)
              end
          | _, _ => (mkResponse 500 InternalError, rows)
          end
      end
  end.

(** [GET /api/limits/:id/progress]; [sum] is what
    [ConsumptionRecord.sum('consumption_kwh', ...)] returns for the caller's
    records dated inside the period ([JNull] when there is none). *)
Definition progress (rows : list Limit) (sum : JsVal) (req : Request)
  : Response :=
  match findOne rows (param_id req) (user req) with
  | None => mkResponse 404 (Message "not found")
  | Some limit =>
      let start := period_start limit in
      let end_ := period_end limit in
      let used := ToNumber (or sum (JNum (ofInt 0))) in
      let limitKwh := toNumber (JStr (limit_kwh limit)) in
      let percent :=
        if isFinite limitKwh && gt limitKwh (ofInt 0)
        then Some (mul (div used limitKwh) (ofInt 100))
        else None in
      let threshold :=
        ToNumber (or (JNum (ofInt (alert_threshold_percent limit)))
                     (JNum (ofInt 80))) in
      let alertEnabled := alert_enabled limit in
      let thresholdReached :=
        alertEnabled &&
        match percent with Some p => ge p threshold | None => false end in
      let exceeded :=
        match percent with Some p => ge p (ofInt 100) | None => false end in
      mkResponse 200
        (Progress
           (mkProgress (id limit) (period_type limit) start end_
              (limit_kwh limit) (toFixed used 3)
              (match percent with
               | Some p => Some (ofString (toFixed p 2))
               | None => None
               end)
              alertEnabled threshold thresholdReached exceeded))
  end.

End Limits.

(* ================================================================== *)
(** ** The limits report *)
(* ================================================================== *)

Module Reports.

Import JS JSNumber.

Definition toNumber (value : JsVal) (fallback : number) : number :=
  let n := ToNumber value in
  if isFinite n then n else fallback.

(** A row of the report query, as the database driver returns it. *)
Record RawRow : Type := mkRawRow {
  r_id : JsVal;
  r_period_type : JsVal;
  r_period_start : JsVal;
  r_period_end : JsVal;
  r_limit_kwh : JsVal;
  r_alert_enabled : JsVal;
  r_alert_threshold_percent : JsVal;
  r_used_kwh : JsVal
}.

Record LimitItem : Type := mkLimitItem {
  id : number;
  period_type : string;
  period_start : string;
  period_end : string;
  limit_kwh : number;
  used_kwh : number;
  remaining_kwh : number;
  percent_used : number;
  alert_enabled : bool;
  alert_threshold_percent : number;
  threshold_reached : bool;
  limit_exceeded : bool;
  status : string
}.

(** The percentage of the limit that is used, as [normalizeLimitRow]
    computes it. *)
Definition percentOf (r : RawRow) : number :=
  let limitKwh := toNumber (r_limit_kwh r) (ofInt 0) in
  let usedKwh := toNumber (r_used_kwh r) (ofInt 0) in
  if gt limitKwh (ofInt 0) then mul (div usedKwh limitKwh) (ofInt 100)
  else ofInt 0.

Definition normalizeLimitRow (r : RawRow) : LimitItem :=
  let limitKwh := toNumber (r_limit_kwh r) (ofInt 0) in
  let usedKwh := toNumber (r_used_kwh r) (ofInt 0) in
  let alertEnabled := ToBoolean (r_alert_enabled r) in
  let threshold :=
    ToNumber (or (r_alert_threshold_percent r) (JNum (ofInt 80))) in
  let percent := percentOf r in
  let limitExceeded := ge percent (ofInt 100) in
  let thresholdReached :=
    negb limitExceeded && alertEnabled && ge percent threshold in
  let status :=
    if limitExceeded then "limit_exceeded"
    else if thresholdReached then "threshold_reached"
    else "ok" in
  mkLimitItem
    (ToNumber (r_id r))
    (ToString (r_period_type r))
    (ToString (r_period_start r))
    (ToString (r_period_end r))
    (ofString (toFixed limitKwh 3))
    (ofString (toFixed usedKwh 3))
    (ofString (toFixed (max (ofInt 0) (sub limitKwh usedKwh)) 3))
    (ofString (toFixed percent 2))
    alertEnabled
    (if isFinite threshold then threshold else ofInt 80)
    thresholdReached
    limitExceeded
    status.

End Reports.

(* ================================================================== *)
(** ** Consumption routes *)
(* ================================================================== *)

Module Consumption.

Import JS JSNumber.

Definition toNumber (value : JsVal) : number :=
  let n := ToNumber value in
  if isFinite n then n else NaN.

(** [null] is [None]. *)
Definition decimalString (value : JsVal) (digits : nat) : option string :=
  let n := toNumber value in
  if negb (isFinite n) then None else Some (toFixed n digits).

(** A row of [appliances]. *)
Record Appliance : Type := mkAppliance {
  a_id : Z;
  a_user_id : Z;
  estimated_power : JsVal
}.

(** A row of [consumption_records]; [appliance_id] and [notes] may be
    null. *)
Record ConsumptionRecord : Type := mkRecord {
  id : Z;
  user_id : Z;
  appliance_id : option Z;
  consumption_kwh : string;
  applied_price_per_kwh : string;
  cost : string;
  record_date : string;
  notes : JsVal
}.

(** The tables the handlers read; only [records] is written. *)
Record Tables : Type := mkTables {
  tariffs : list Tariffs.Tariff;
  appliances : list Appliance;
  records : list ConsumptionRecord
}.

Inductive Body : Type :=
| Message (message : string)
| ManyActive (message : string) (active_tariff_ids : list Z)
| Row (row : ConsumptionRecord)
| InternalError.

Record Response : Type := mkResponse { status : Z; body : Body }.

(** A request after [auth]. *)
Record Request : Type := mkRequest {
  user : Z;
  param_id : Z;
  b_appliance_id : JsVal;
  b_consumption_kwh : JsVal;
  b_usage_hours : JsVal;
  b_record_date : JsVal;
  b_notes : JsVal
}.

(** Rows ordered by [id] descending. *)
Fixpoint insertDesc (t : Tariffs.Tariff) (l : list Tariffs.Tariff)
  : list Tariffs.Tariff :=
  match l with
  | [] => [t]
  | h :: r =>
      if Tariffs.id h <=? Tariffs.id t then t :: l else h :: insertDesc t r
  end.

Definition orderByIdDesc (l : list Tariffs.Tariff) : list Tariffs.Tariff :=
  fold_right insertDesc [] l.

Inductive TariffCheck : Type :=
| NO_ACTIVE
| MANY_ACTIVE (ids : list Z)
| ActiveTariff (tariff : Tariffs.Tariff).

Definition getActiveTariffStrict (ts : list Tariffs.Tariff) (userId : Z)
  : TariffCheck :=
  let rows :=
    firstn 2
      (orderByIdDesc
         (filter (fun t => (Tariffs.user_id t =? userId) && Tariffs.is_active t)
                 ts)) in
  match rows with
  | [] => NO_ACTIVE
  | [t] => ActiveTariff t
  | _ => MANY_ACTIVE (map Tariffs.id rows)
  end.

(** [Appliance.findOne({ where: { id: Number(appliance_id), user_id } })] *)
Definition findAppliance (aps : list Appliance) (n : number) (u : Z)
  : option Appliance :=
  find (fun a => idIs (a_id a) n && (a_user_id a =? u)) aps.

(** The same query as the handlers make it.  The statement compares [id]
    with the number as JavaScript writes it; [NaN] and the infinities are
    no SQL literal, so the database refuses the statement and the call
    throws: [None]. *)
Definition queryAppliance (aps : list Appliance) (n : number) (u : Z)
  : option (option Appliance) :=
  if isFinite n then Some (findAppliance aps n u) else None.

(** What [resolveApplianceForUser] resolves to; [QueryFailed] when its
    query throws. *)
Inductive ApplianceChoice : Type :=
| Keep
| Chosen (appliance : option Appliance)
| ApplianceError (error : string)
| QueryFailed.

Definition resolveApplianceForUser
  (aps : list Appliance) (userId : Z) (appliance_id : JsVal)
  : ApplianceChoice :=
  match appliance_id with
  | JUndefined => Keep
  | JNull => Chosen None
  | _ =>
      match queryAppliance aps (ToNumber appliance_id) userId with
      | None => QueryFailed
      | Some None => ApplianceError "appliance not found"
      | Some (Some ap) => Chosen (Some ap)
      end
  end.

(** The result of [computeKwh]: [{ error }] or [{ kwh }]. *)
Definition computeKwh
  (consumption_kwh usage_hours : JsVal) (appliance : option Appliance)
  : string + number :=
  if negb (isNullish consumption_kwh) then
    let kwh := toNumber consumption_kwh in
    if negb (isFinite kwh) || le kwh (ofInt 0)
    then inl "consumption_kwh must be a positive number"
    else inr kwh
  else if negb (isNullish usage_hours) then
    let hours := toNumber usage_hours in
    if negb (isFinite hours) || le hours (ofInt 0)
    then inl "usage_hours must be a positive number"
    else
      match appliance with
      | None => inl "usage_hours requires appliance_id"
      | Some ap =>
          let power := toNumber (estimated_power ap) in
          if negb (isFinite power) || le power (ofInt 0)
          then inl "appliance.estimated_power must be set (>0) to calculate kWh from usage_hours"
          else inr (mul power hours)
      end
  else inl "Provide consumption_kwh OR usage_hours (with appliance_id)".

Definition findOne (rows : list ConsumptionRecord) (i u : Z)
  : option ConsumptionRecord :=
  find (fun r => (id r =? i) && (user_id r =? u)) rows.

(** The key given to a created row.  The database gives a key that no row
    has; the model takes the one after the largest key in the table, which
    keeps no trace of the rows deleted from it. *)
Definition nextId (rows : list ConsumptionRecord) : Z :=
  1 + fold_right Z.max 0 (map id rows).

Definition updateRow (r : ConsumptionRecord) (rows : list ConsumptionRecord)
  : list ConsumptionRecord :=
  map (fun x => if id x =? id r then r else x) rows.

(** [Number(s)] of a string that may be [null]. *)
Definition numberOfNullable (s : option string) : number :=
  match s with
  | Some s => toNumber (JStr s)
  | None => toNumber JNull
  end.

Definition noActiveTariff : Response :=
  mkResponse 400
    (Message "No active tariff. Please create a tariff and set it as active.").

Definition manyActiveTariffs (ids : list Z) : Response :=
  mkResponse 409
    (ManyActive
       "More than one active tariff found. Please leave only one active tariff."
       ids).

(** The three decimal strings written to a record: kWh, price and cost. *)
Definition priced (kwh price : number)
  : option string * option string * option string :=
  let kwhStr := decimalString (JNum kwh) 3 in
  let priceStr := decimalString (JNum price) 4 in
  let costStr :=
    decimalString
      (JNum (mul (numberOfNullable kwhStr) (numberOfNullable priceStr))) 4 in
  (kwhStr, priceStr, costStr).

(** [POST /api/consumption].  A call of the model layer that throws ends
    in [next(e)] and the answer is 500: the appliance query for a number
    that is not finite, and the creation of a row one of whose three decimal
    columns would be null. *)
Definition post (db : Tables) (req : Request)
  : Response * list ConsumptionRecord :=
  let rows := records db in
  let consumption_kwh := b_consumption_kwh req in
  let usage_hours := b_usage_hours req in
  let hasKwh := negb (isNullish consumption_kwh) in
  let hasHours := negb (isNullish usage_hours) in
  if hasKwh && hasHours then
    (mkResponse 400
       (Message "Provide either consumption_kwh or usage_hours, not both"), rows)
  else
    let date := ToString (or (b_record_date req) (JStr "")) in
    if negb (Period.isValidISODate date) then
      (mkResponse 400 (Message "record_date is required (YYYY-MM-DD)"), rows)
    else
      match getActiveTariffStrict (tariffs db) (user req) with
      | NO_ACTIVE => (noActiveTariff, rows)
      | MANY_ACTIVE ids => (manyActiveTariffs ids, rows)
      | ActiveTariff activeTariff =>
          let lookup : Response + option Appliance :=
            if negb (isNullish (b_appliance_id req))
            then
              match queryAppliance (appliances db)
                      (ToNumber (b_appliance_id req)) (user req) with
              | None => inl (mkResponse 500 InternalError)
              | Some None =>
                  inl (mkResponse 404 (Message "appliance not found"))
              | Some (Some ap) => inr (Some ap)
              end
            else inr None in
          match lookup with
          | inl sent => (sent, rows)
          | inr appliance =>
              match computeKwh consumption_kwh usage_hours appliance with
              | inl error => (mkResponse 400 (Message error), rows)
              | inr kwh =>
                  let price := toNumber (Tariffs.price_per_kwh activeTariff) in
                  if negb (isFinite price) || lt price (ofInt 0) then
                    (mkResponse 400
                       (Message "Active tariff price_per_kwh is invalid"), rows)
                  else
                    match priced kwh price with
                    | (Some kwhStr, Some priceStr, Some costStr) =>
                        let created :=
                          mkRecord (nextId rows) (user req)
                            (match appliance with
                             | Some ap => Some (a_id ap)
                             | None => None
                             end)
                            kwhStr priceStr costStr date
                            (or (b_notes req) JNull) in
                        (mkResponse 201 (Row created),
                         (rows ++ [created])%list)
                    | _ => (mkResponse 500 InternalError, rows)
                    end
              end
          end
      end.

(** [PATCH /api/consumption/:id] *)
Definition patch (db : Tables) (req : Request)
  : Response * list ConsumptionRecord :=
  let rows := records db in
  match findOne rows (param_id req) (user req) with
  | None => (mkResponse 404 (Message "not found"), rows)
  | Some row =>
      let consumption_kwh := b_consumption_kwh req in
      let usage_hours := b_usage_hours req in
      let hasKwh := negb (isNullish consumption_kwh) in
      let hasHours := negb (isNullish usage_hours) in
      if hasKwh && hasHours then
        (mkResponse 400
           (Message "Provide either consumption_kwh or usage_hours, not both"),
         rows)
      else
        let nextDate :=
          if isNullish (b_record_date req) then record_date row
          else ToString (b_record_date req) in
        if negb (Period.isValidISODate nextDate) then
          (mkResponse 400 (Message "record_date must be YYYY-MM-DD"), rows)
        else
          match getActiveTariffStrict (tariffs db) (user req) with
          | NO_ACTIVE => (noActiveTariff, rows)
          | MANY_ACTIVE ids => (manyActiveTariffs ids, rows)
          | ActiveTariff activeTariff =>
              let continue (nextApplianceId : option Z)
                           (appliance : option Appliance) :=
                let kwhChoice : Response + number :=
                  if negb (isNullish consumption_kwh) then
                    let k := toNumber consumption_kwh in
                    if negb (isFinite k) || le k (ofInt 0) then
                      inl (mkResponse 400
                             (Message "consumption_kwh must be a positive number"))
                    else inr k
                  else if negb (isNullish usage_hours) then
                    match computeKwh JUndefined usage_hours appliance with
                    | inl error => inl (mkResponse 400 (Message error))
                    | inr kwh => inr kwh
                    end
                  else inr (toNumber (JStr (Consumption.consumption_kwh row))) in
                match kwhChoice with
                | inl sent => (sent, rows)
                | inr nextKwh =>
                    if negb (isFinite nextKwh) || le nextKwh (ofInt 0) then
                      (mkResponse 400
                         (Message "consumption_kwh must be a positive number"),
                       rows)
                    else
                      let price :=
                        toNumber (Tariffs.price_per_kwh activeTariff) in
                      if negb (isFinite price) || lt price (ofInt 0) then
                        (mkResponse 400
                           (Message "Active tariff price_per_kwh is invalid"),
                         rows)
                      else
                        match priced nextKwh price with
                        | (Some kwhStr, Some priceStr, Some costStr) =>
                            let updated :=
                              mkRecord (id row) (user_id row)
                                nextApplianceId kwhStr priceStr costStr
                                nextDate
                                (if isUndefined (b_notes req)
                                 then notes row
                                 else or (b_notes req) JNull) in
                            (mkResponse 200 (Row updated),
                             updateRow updated rows)
                        | _ => (mkResponse 500 InternalError, rows)
                        end
                end in
              match resolveApplianceForUser (appliances db) (user req)
                      (b_appliance_id req) with
              | ApplianceError error =>
                  (mkResponse 404 (Message error), rows)
              | QueryFailed => (mkResponse 500 InternalError, rows)
              | Keep =>
                  continue (appliance_id row)
                    (match appliance_id row with
                     | Some aid =>
                         findAppliance (appliances db) (ofInt aid) (user req)
                     | None => None
                     end)
              | Chosen appliance =>
                  continue
                    (match appliance with
                     | Some ap => Some (a_id ap)
                     | None => None
                     end)
                    appliance
              end
          end
  end.

End Consumption.

(* ================================================================== *)
(** ** Admin routes, behind [auth] and [requireAdmin] *)
(* ================================================================== *)

Module Admin.

Import JS JSNumber.

(** A row of [users]. *)
Record User : Type := mkUser {
  id : Z;
  email : string;
  role : string;
  is_blocked : bool
}.

(** The [details] of an audit record, before [JSON.stringify]. *)
Inductive Details : Type :=
| RoleChange (from to : string) (email : string)
| BlockChange (from to : bool) (email : string).

(** A row of [audit_logs]. *)
Record AuditLog : Type := mkAuditLog {
  admin_id : Z;
  action : string;
  target_user_id : option Z;
  details : option Details
}.

Record Tables : Type := mkTables {
  users : list User;
  audit_logs : list AuditLog
}.

Inductive Body : Type :=
| Message (message : string)
| Row (row : User).

Record Response : Type := mkResponse { status : Z; body : Body }.

(** A request: [token] is the [userId] of the payload when the
    [Authorization] header carries a bearer token that verifies, and [None]
    otherwise; [param_id] is the text of the path parameter. *)
Record Request : Type := mkRequest {
  token : option Z;
  bearer : bool;
  param_id : string;
  b_role : JsVal;
  b_is_blocked : JsVal
}.

(** [req.user] *)
Record Caller : Type := mkCaller { c_id : Z; c_role : string }.

Definition ROLES : list string := ["user"; "admin"].

Definition isRole (s : string) : bool := existsb (String.eqb s) ROLES.

Definition parseBool (v : JsVal) : option bool :=
  match v with
  | JBool b => Some b
  | JNum n =>
      if eq n (ofInt 1) || eq n (ofInt 0) then Some (ToBoolean v) else None
  | JStr s =>
      if String.eqb s "true" then Some true
      else if String.eqb s "false" then Some false
      else if String.eqb s "1" then Some true
      else if String.eqb s "0" then Some false
      else None
  | _ => None
  end.

(** [User.findByPk(id)] *)
Definition findByPk (us : list User) (i : Z) : option User :=
  find (fun u => id u =? i) us.

(** [User.findByPk(id)] for a number [id]. *)
Definition findByNumber (us : list User) (n : number) : option User :=
  find (fun u => idIs (id u) n) us.

Definition countActiveAdmins (us : list User) : Z :=
  Z.of_nat
    (List.length
       (filter (fun u => String.eqb (role u) "admin" && negb (is_blocked u)) us)).

(** [row.update(...)]: the row with the key of [r] becomes [r]. *)
Definition updateRow (r : User) (us : list User) : list User :=
  map (fun u => if id u =? id r then r else u) us.

(** [writeAudit]; the code logs and ignores a failure of the write, which
    is not represented. *)
Definition writeAudit (caller : Caller) (action : string)
  (targetUserId : option Z) (detailsObj : option Details)
  (logs : list AuditLog) : list AuditLog :=
  (logs ++ [mkAuditLog (c_id caller) action targetUserId detailsObj])%list.

(** The middleware [auth]: the response sent, or [req.user]. *)
Definition auth (db : Tables) (req : Request) : Response + Caller :=
  if negb (bearer req) then inl (mkResponse 401 (Message "Unauthorized"))
  else
    match token req with
    | None => inl (mkResponse 401 (Message "Invalid token"))
    | Some userId =>
        match findByPk (users db) userId with
        | None => inl (mkResponse 401 (Message "Unauthorized"))
        | Some user =>
            if is_blocked user
            then inl (mkResponse 403 (Message "User is blocked"))
            else inr (mkCaller (id user) (role user))
        end
    end.

(** The middleware [requireAdmin]. *)
Definition requireAdmin (caller : Caller) : option Response :=
  if negb (String.eqb (c_role caller) "admin")
  then Some (mkResponse 403 (Message "Admin only"))
  else None.

(** The handler of [PATCH /api/admin/users/:id/role]. *)
Definition roleHandler (db : Tables) (caller : Caller) (req : Request)
  : Response * Tables :=
  let idn := ofString (param_id req) in
  if negb (isInteger idn) || le idn (ofInt 0) then
    (mkResponse 400 (Message "invalid id"), db)
  else
    let nextRole := trim (ToString (or (b_role req) (JStr ""))) in
    if negb (isRole nextRole) then
      (mkResponse 400 (Message "role must be user or admin"), db)
    else if eq idn (ofInt (c_id caller)) && negb (String.eqb nextRole "admin")
    then (mkResponse 400 (Message "cannot change own role"), db)
    else
      match findByNumber (users db) idn with
      | None => (mkResponse 404 (Message "not found"), db)
      | Some user =>
          if String.eqb (role user) "admin"
             && negb (String.eqb nextRole "admin")
             && (countActiveAdmins (users db) <=? 1)
          then
            (mkResponse 409
               (Message "cannot remove role from the last active admin"), db)
          else
            let prevRole := role user in
            let updated :=
              mkUser (id user) (email user) nextRole (is_blocked user) in
            let logs :=
              writeAudit caller "USER_ROLE_CHANGE" (Some (id user))
                (Some (RoleChange prevRole nextRole (email user)))
                (audit_logs db) in
            (mkResponse 200 (Row updated),
             mkTables (updateRow updated (users db)) logs)
      end.

(** The handler of [PATCH /api/admin/users/:id/block]. *)
Definition blockHandler (db : Tables) (caller : Caller) (req : Request)
  : Response * Tables :=
  let idn := ofString (param_id req) in
  if negb (isInteger idn) || le idn (ofInt 0) then
    (mkResponse 400 (Message "invalid id"), db)
  else
    match parseBool (b_is_blocked req) with
    | None => (mkResponse 400 (Message "is_blocked must be boolean"), db)
    | Some parsed =>
        if parsed && eq idn (ofInt (c_id caller)) then
          (mkResponse 400 (Message "cannot block own account"), db)
        else
          match findByNumber (users db) idn with
          | None => (mkResponse 404 (Message "not found"), db)
          | Some user =>
              if parsed && String.eqb (role user) "admin"
                 && (countActiveAdmins (users db) <=? 1)
              then
                (mkResponse 409
                   (Message "cannot block the last active admin"), db)
              else
                let prevBlocked := is_blocked user in
                let updated :=
                  mkUser (id user) (email user) (role user) parsed in
                let logs :=
                  writeAudit caller
                    (if parsed then "USER_BLOCK" else "USER_UNBLOCK")
                    (Some (id user))
                    (Some (BlockChange prevBlocked parsed (email user)))
                    (audit_logs db) in
                (mkResponse 200 (Row updated),
                 mkTables (updateRow updated (users db)) logs)
          end
    end.

(** A route of the admin router: [auth], then [requireAdmin], then the
    handler. *)
Definition route
  (handler : Tables -> Caller -> Request -> Response * Tables)
  (db : Tables) (req : Request) : Response * Tables :=
  match auth db req with
  | inl sent => (sent, db)
  | inr caller =>
      match requireAdmin caller with
      | Some sent => (sent, db)
      | None => handler db caller req
      end
  end.

Definition patchRole : Tables -> Request -> Response * Tables :=
  route roleHandler.

Definition patchBlock : Tables -> Request -> Response * Tables :=
  route blockHandler.

End Admin.

(* ================================================================== *)
(** ** Invariants and sample data *)
(* ================================================================== *)

Module TariffProps.

Import Tariffs.

(** At most one tariff of a user is active: two active rows of the same
    user are the same row. *)
Definition AtMostOneActive (rows : list Tariff) : Prop :=
  forall a b, In a rows -> In b rows ->
    user_id a = user_id b -> is_active a = true -> is_active b = true ->
    id a = id b.

(** User 7 with an active day tariff and an inactive night tariff. *)
Definition twoTariffs : list Tariff :=
  [ mkTariff 1 7 (JStr "day") (JStr "4.3200") (JStr "2025-01-01") JNull true;
    mkTariff 2 7 (JStr "night") (JStr "2.1000") (JStr "2025-01-01") JNull
      false ].

(** [PATCH /api/tariffs/2] with the body [{ "is_active": 1 }]. *)
Definition patchIsActiveOne : Request :=
  mkRequest 7 "2025-06-01" 2 JUndefined JUndefined JUndefined JUndefined
    (JNum (JSNumber.ofInt 1)).

(** [POST /api/tariffs] without [is_active]. *)
Definition postWeekend : Request :=
  mkRequest 7 "2025-06-01" 0 (JStr "weekend") (JNum (JSNumber.ofInt 5))
    (JStr "2025-01-01") JUndefined JUndefined.

(** The tariff that [postWeekend] creates next to [twoTariffs]. *)
Definition weekend : Tariff :=
  mkTariff 3 7 (JStr "weekend") (JNum (JSNumber.ofInt 5)) (JStr "2025-01-01")
    JNull true.

(** [POST /api/tariffs] on 2025-06-01 for a tariff valid from 2026-01-01,
    with [is_active] the boolean [false] and with [is_active] the number
    0. *)
Definition postNextYearOff : Request :=
  mkRequest 7 "2025-06-01" 0 (JStr "next") (JNum (JSNumber.ofInt 6))
    (JStr "2026-01-01") JUndefined (JBool false).

Definition postNextYearZero : Request :=
  mkRequest 7 "2025-06-01" 0 (JStr "next") (JNum (JSNumber.ofInt 6))
    (JStr "2026-01-01") JUndefined (JNum (JSNumber.ofInt 0)).

Definition nextYear : Tariff :=
  mkTariff 3 7 (JStr "next") (JNum (JSNumber.ofInt 6)) (JStr "2026-01-01")
    JNull false.

(** [POST /api/tariffs] with [valid_from] written 2026-9-1 and [is_active]
    the boolean [false], and the tariff it creates when the attribute reads
    such a text. *)
Definition postUnpadded : Request :=
  mkRequest 7 "2025-06-01" 0 (JStr "autumn") (JNum (JSNumber.ofInt 6))
    (JStr "2026-9-1") JUndefined (JBool false).

Definition autumn : Tariff :=
  mkTariff 1 7 (JStr "autumn") (JNum (JSNumber.ofInt 6)) (JStr "2026-09-01")
    JNull false.

End TariffProps.

Module LimitProps.

Import JS JSNumber Limits.

(** The ranges of two rows intersect (both ends included). *)
Definition intersect (a b : Limit) : bool :=
  overlaps a (period_start b) (period_end b).

(** The table has a key, and no two limits of a user and period type have
    intersecting ranges. *)
Definition Disjoint (rows : list Limit) : Prop :=
  NoDup (map id rows) /\
  forall a b, In a rows -> In b rows -> id a <> id b ->
    user_id a = user_id b -> period_type a = period_type b ->
    intersect a b = false.

Definition overlapMessage : string :=
  "Overlapping limit exists for this period_type".

(** The period type, start and supplied end a [POST] works with. *)
Definition postType (req : Request) : string :=
  ToString (or (b_period_type req) (JStr "")).

Definition postStart (req : Request) : string :=
  ToString (or (b_period_start req) (JStr "")).

Definition suppliedEnd (req : Request) : string :=
  ToString (or (b_period_end req) (JStr "")).

(** The period type and start a [PATCH] of [row] works with. *)
Definition patchType (row : Limit) (req : Request) : string :=
  if isUndefined (b_period_type req) then period_type row
  else ToString (or (b_period_type req) (JStr "")).

Definition patchStart (row : Limit) (req : Request) : string :=
  if isUndefined (b_period_start req) then period_start row
  else ToString (or (b_period_start req) (JStr "")).

Definition mismatchMessage (type autoEnd : string) : string :=
  "period_end is auto-calculated for period_type=" ++ type ++
  ". Expected " ++ autoEnd.

(** What a handler answers to a supplied end, given the computed one. *)
Definition EndChecked (success : Z) (type provided autoEnd : string)
  (rows : list Limit) (out : Response * list Limit) : Prop :=
  (status (fst out) = success -> provided = autoEnd) /\
  (provided <> autoEnd ->
   status (fst out) = 400 /\ snd out = rows /\
   (Period.isValidISODate provided = true ->
    body (fst out) = EndMismatch (mismatchMessage type autoEnd) autoEnd) /\
   (Period.isValidISODate provided = false ->
    body (fst out) = Message "period_end must be YYYY-MM-DD")).




(** A month limit of user 7 covering 2025-12-15 .. 2026-01-10. *)
Definition existingMonth : Limit :=
  mkLimit 1 7 "100.000" "month" "2025-12-15" "2026-01-10" true 80.

(** [POST /api/limits] for the week from 2025-12-29. *)
Definition postWeek : Request :=
  mkRequest 7 0 (JNum (ofInt 20)) (JStr "week") (JStr "2025-12-29")
    (JStr "2026-01-04") JUndefined JUndefined.

(** [POST /api/limits] for the month from 2025-12-01: collides with
    [existingMonth]. *)
Definition postDecember : Request :=
  mkRequest 7 0 (JNum (ofInt 50)) (JStr "month") (JStr "2025-12-01")
    JUndefined JUndefined JUndefined.

(** [POST /api/limits] for the week from 0998-12-28, whose computed end
    is written 999-01-03, and for the week after it. *)
Definition postWeek998 : Request :=
  mkRequest 7 0 (JNum (ofInt 20)) (JStr "week") (JStr "0998-12-28")
    JUndefined JUndefined JUndefined.

Definition postWeek999 : Request :=
  mkRequest 7 0 (JNum (ofInt 20)) (JStr "week") (JStr "0999-01-04")
    JUndefined JUndefined JUndefined.

Definition week998 : Limit :=
  mkLimit 1 7 "20.000" "week" "0998-12-28" "0999-01-03" true 80.

Definition week999 : Limit :=
  mkLimit 2 7 "20.000" "week" "0999-01-04" "0999-01-10" true 80.

(** A month limit of user 7 for February 2026, the [PATCH] that moves it
    to 2025-12-20, and the [PATCH] of [existingMonth] that changes nothing
    but its amount, with the limit it writes. *)
Definition february : Limit :=
  mkLimit 2 7 "50.000" "month" "2026-02-01" "2026-02-28" true 80.

Definition patchToDecember : Request :=
  mkRequest 7 2 JUndefined JUndefined (JStr "2025-12-20") JUndefined
    JUndefined JUndefined.

Definition patchAmount : Request :=
  mkRequest 7 1 (JNum (ofInt 120)) JUndefined JUndefined JUndefined
    JUndefined JUndefined.

Definition raisedMonth : Limit :=
  mkLimit 1 7 "120.000" "month" "2025-12-15" "2026-01-14" true 80.

(** The week that [postWeek] creates next to [existingMonth]. *)
Definition createdWeek : Limit :=
  mkLimit 2 7 "20.000" "week" "2025-12-29" "2026-01-04" true 80.

(** [POST /api/limits] for January 2026 with a malformed [period_end]. *)
Definition postMalformedEnd : Request :=
  mkRequest 7 0 (JNum (ofInt 50)) (JStr "month") (JStr "2026-01-01")
    (JStr "2026-01-32") JUndefined JUndefined.


End LimitProps.

Module ReportProps.

Import JS JSNumber Reports.



End ReportProps.

Module ConsumptionProps.

Import JS JSNumber Consumption.

(** The date a [PATCH] of [row] works with. *)
Definition patchDate (row : ConsumptionRecord) (req : Request) : string :=
  if isNullish (b_record_date req) then record_date row
  else ToString (b_record_date req).

(** A [PATCH] gets as far as looking up the active tariff: the record
    exists and is the caller's, the body does not give both
    [consumption_kwh] and [usage_hours], and the date is valid. *)
Definition reachesTariffLookup (db : Tables) (req : Request) : Prop :=
  exists row,
    findOne (records db) (param_id req) (user req) = Some row /\
    (isNullish (b_consumption_kwh req) || isNullish (b_usage_hours req)) = true /\
    Period.isValidISODate (patchDate row req) = true.

(** The cost written with the strings [kwh] and [price]. *)
Definition costOf (kwh price : string) : string :=
  toFixed (mul (toNumber (JStr kwh)) (toNumber (JStr price))) 4.

(** The energy a request records: the kWh it gives or, when it gives none,
    its hours times the power of the appliance of the caller it names. *)
Definition energyOf (db : Tables) (req : Request) (kwh : number) : Prop :=
  (isNullish (b_consumption_kwh req) = false /\
   kwh = ToNumber (b_consumption_kwh req)) \/
  (isNullish (b_consumption_kwh req) = true /\
   exists ap,
     In ap (appliances db) /\ a_user_id ap = user req /\
     eq (ToNumber (b_appliance_id req)) (ofInt (a_id ap)) = true /\
     kwh = mul (ToNumber (estimated_power ap))
             (ToNumber (b_usage_hours req))).

(** User 7 with one active tariff priced 4.32 and no record yet. *)
Definition oneTariff : Tables :=
  mkTables
    [Tariffs.mkTariff 1 7 (JStr "day") (JNum (ofDecimal 432 (-2)))
       (JStr "2025-01-01") JNull true]
    [] [].

(** [POST /api/consumption] with [consumption_kwh = 3.5]. *)
Definition postThreeAndHalf : Request :=
  mkRequest 7 0 JUndefined (JNum (ofDecimal 35 (-1))) JUndefined
    (JStr "2025-12-14") JUndefined.

Definition firstRecord : ConsumptionRecord :=
  mkRecord 1 7 None "3.500" "4.3200" "15.1200" "2025-12-14" JNull.

(** The same user after the price of the active tariff became 5. *)
Definition repriced : Tables :=
  mkTables
    [Tariffs.mkTariff 1 7 (JStr "day") (JNum (ofInt 5))
       (JStr "2025-01-01") JNull true]
    [] [firstRecord].

(** [PATCH /api/consumption/1] changing only the notes. *)
Definition patchNotes : Request :=
  mkRequest 7 1 JUndefined JUndefined JUndefined JUndefined (JStr "evening").

(** [firstRecord] after [patchNotes]: repriced at 5. *)
Definition repricedRecord : ConsumptionRecord :=
  mkRecord 1 7 None "3.500" "5.0000" "17.5000" "2025-12-14" (JStr "evening").

End ConsumptionProps.

Module AdminProps.

Import JS JSNumber Admin.

(** A non-blocked admin. *)
Definition activeAdmin (u : User) : bool :=
  String.eqb (role u) "admin" && negb (is_blocked u).

(** The request addresses the user [u]. *)
Definition targets (db : Tables) (req : Request) (u : User) : Prop :=
  findByNumber (users db) (ofString (param_id req)) = Some u.

(** The role the request asks for is not [admin]. *)
Definition demotes (req : Request) : Prop :=
  String.eqb (trim (ToString (or (b_role req) (JStr "")))) "admin" = false.

(** The request asks to block. *)
Definition blocks (req : Request) : Prop :=
  parseBool (b_is_blocked req) = Some true.

(** The request passes [auth] and [requireAdmin]. *)
Definition admitted (db : Tables) (req : Request) : Prop :=
  exists caller, auth db req = inr caller /\ requireAdmin caller = None.

(** The request is answered 401 or 403 by the middleware. *)
Definition turnedAway (out : Response * Tables) : Prop :=
  status (fst out) = 401 \/ status (fst out) = 403.

(** One admin, not blocked. *)
Definition soleAdmin : Tables :=
  mkTables [mkUser 1 "root@example.org" "admin" false;
            mkUser 2 "user@example.org" "user" false] [].

(** The sole admin asks to block the account 1 (its own). *)
Definition blockSoleAdmin : Request :=
  mkRequest (Some 1) true "1" JUndefined (JBool true).

(** The sole admin asks to make the account 1 (its own) a plain user. *)
Definition demoteSoleAdmin : Request :=
  mkRequest (Some 1) true "1" (JStr "user") JUndefined.

(** An admin that is not blocked and one that is. *)
Definition blockedColleague : Tables :=
  mkTables [mkUser 1 "root@example.org" "admin" false;
            mkUser 2 "old@example.org" "admin" true] [].

(** Admin 1 asks to make the blocked admin 2 a plain user. *)
Definition demoteColleague : Request :=
  mkRequest (Some 1) true "2" (JStr "user") JUndefined.

End AdminProps.

(* ================================================================== *)
(** ** Query strings *)
(* ================================================================== *)

Module Query.

(** A value of [req.query]: absent, or a text.  Repeated and bracketed
    parameters, which the query parser turns into arrays and objects, are
    not represented. *)
Definition param : Type := option string.

(** [v ? String(v) : null] *)
Definition textOrNull (v : param) : option string :=
  match v with
  | Some s => if String.eqb s "" then None else Some s
  | None => None
  end.

(** [v != null && String(v).trim() !== ''] *)
Definition hasText (v : param) : bool :=
  match v with
  | Some s => negb (String.eqb (JSNumber.trim s) "")
  | None => false
  end.

(** The truth value of [v]. *)
Definition truthy (v : param) : bool :=
  match v with
  | Some s => negb (String.eqb s "")
  | None => false
  end.

(** [s.split(sep)] for a separator of one code unit. *)
Fixpoint split (sep : ascii) (s : string) : list string :=
  match s with
  | EmptyString => [EmptyString]
  | String c r =>
      if Ascii.eqb c sep then EmptyString :: split sep r
      else match split sep r with
           | p :: ps => String c p :: ps
           | [] => [String c EmptyString]
           end
  end.

(** [items.join(sep)] *)
Fixpoint join (sep : string) (items : list string) : string :=
  match items with
  | [] => EmptyString
  | [x] => x
  | x :: r => x ++ sep ++ join sep r
  end.

End Query.

(* ================================================================== *)
(** ** Report routes: periods, filters, totals and CSV fields *)
(* ================================================================== *)

Module ReportRoutes.

Import JS JSNumber Period Query.

(** [isValidISODate], [isAfter] and [parseDateUTC] of the report routes are
    the functions of the limit routes, word for word. *)

Definition daysInclusive (dateFrom dateTo : string) : Z :=
  match parseDateUTC dateFrom, parseDateUTC dateTo with
  | Some a, Some b =>
      let diff := b - a in
      if diff <? 0 then 0 else diff / (24 * 60 * 60 * 1000) + 1
  | _, _ => 0
  end.

Record Query : Type := mkQuery {
  date_from : param;
  date_to : param;
  q_period_type : param;
  q_ids : param;
  q_status : param
}.

Record Totals : Type := mkTotals {
  limits_count : Z;
  ok_count : Z;
  threshold_reached_count : Z;
  limit_exceeded_count : Z;
  total_limit_kwh : number;
  total_used_kwh : number
}.

Record Filters : Type := mkFilters {
  f_period_type : option (list string);
  f_ids : option (list number);
  f_status : option (list string);
  f_period : option (string * string)
}.

Inductive Body : Type :=
| Message (message : string)
| LimitsReport (filters : Filters) (totals : Totals)
    (items : list Reports.LimitItem).

Record Response : Type := mkResponse { status : Z; body : Body }.

(** [requirePeriod]: the response sent (the function then returns
    [null]), or the period. *)
Definition requirePeriod (q : Query) : Response + (string * string) :=
  match textOrNull (date_from q), textOrNull (date_to q) with
  | Some dateFrom, Some dateTo =>
      if negb (isValidISODate dateFrom) then
        inl (mkResponse 400 (Message "date_from must be YYYY-MM-DD"))
      else if negb (isValidISODate dateTo) then
        inl (mkResponse 400 (Message "date_to must be YYYY-MM-DD"))
      else if isAfter dateFrom dateTo then
        inl (mkResponse 400 (Message "date_from cannot be after date_to"))
      else inr (dateFrom, dateTo)
  | _, _ =>
      inl (mkResponse 400
             (Message "date_from and date_to are required (YYYY-MM-DD)"))
  end.

Definition PERIOD_TYPES : list string := ["week"; "month"; "year"; "custom"].

Definition LIMIT_STATUSES : list string :=
  ["ok"; "threshold_reached"; "limit_exceeded"].

Definition has (set : list string) (s : string) : bool :=
  existsb (String.eqb s) set.

Definition parseCsvList (value : string) : list string :=
  filter (fun s => negb (String.eqb s "")) (map trim (split "," value)).

Definition parseIdsList (value : string) : list number :=
  let items := parseCsvList value in
  let ids :=
    filter (fun n => isInteger n && gt n (ofInt 0)) (map ofString items) in
  match ids with
  | [] => []
  | _ => ids
  end.

(** [optionalPeriod]: what it sends through [res], if anything, and what
    it returns ([None] for [null]). *)
Definition optionalPeriod (q : Query)
  : option Response * option (string * string) :=
  let hasFrom := hasText (date_from q) in
  let hasTo := hasText (date_to q) in
  if negb hasFrom && negb hasTo then (None, None)
  else if negb hasFrom || negb hasTo then
    (Some (mkResponse 400
             (Message "date_from and date_to must be provided together (YYYY-MM-DD)")),
     None)
  else
    match date_from q, date_to q with
    | Some dateFrom, Some dateTo =>
        if negb (isValidISODate dateFrom) then
          (Some (mkResponse 400 (Message "date_from must be YYYY-MM-DD")), None)
        else if negb (isValidISODate dateTo) then
          (Some (mkResponse 400 (Message "date_to must be YYYY-MM-DD")), None)
        else if isAfter dateFrom dateTo then
          (Some (mkResponse 400 (Message "date_from cannot be after date_to")),
           None)
        else (None, Some (dateFrom, dateTo))
    | _, _ => (None, None)
    end.

(** The replacements of the report query. *)
Record Where : Type := mkWhere {
  w_userId : Z;
  w_types : option (list string);
  w_ids : option (list number);
  w_period : option (string * string)
}.

(** The database as the report sees it: the rows [sequelize.query] returns
    for the statement built from the replacements. *)
Definition Database : Type := Where -> list Reports.RawRow.

(** [list && list.length ? list : nothing]: a filter is added to the
    statement only for a list that is given and not empty. *)
Definition given {A : Type} (l : option (list A)) : option (list A) :=
  match l with
  | Some (x :: r) => Some (x :: r)
  | _ => None
  end.

Definition count (st : string) (items : list Reports.LimitItem) : Z :=
  Z.of_nat
    (List.length (filter (fun i => String.eqb (Reports.status i) st) items)).

Definition fetchLimitsReportData
  (db : Database) (userId : Z) (types : option (list string))
  (statuses : option (list string)) (ids : option (list number))
  (period : option (string * string))
  : Totals * list Reports.LimitItem :=
  let rows := db (mkWhere userId (given types) (given ids) period) in
  let items := map Reports.normalizeLimitRow rows in
  let items :=
    match statuses with
    | Some (s :: r) => filter (fun it => has (s :: r) (Reports.status it)) items
    | _ => items
    end in
  let totals :=
    mkTotals
      (Z.of_nat (List.length items))
      (count "ok" items)
      (count "threshold_reached" items)
      (count "limit_exceeded" items)
      (ofString
         (toFixed
            (fold_left
               (fun a i => add a (Reports.toNumber (JNum (Reports.limit_kwh i))
                                    (ofInt 0)))
               items (ofInt 0)) 3))
      (ofString
         (toFixed
            (fold_left
               (fun a i => add a (Reports.toNumber (JNum (Reports.used_kwh i))
                                    (ofInt 0)))
               items (ofInt 0)) 3)) in
  (totals, items).

(** [GET /api/reports/limits] for the caller [userId]: the response sent,
    [None] when the handler returns without sending one. *)
Definition limits (db : Database) (userId : Z) (q : Query) : option Response :=
  let types :=
    match textOrNull (q_period_type q) with
    | Some v => Some (parseCsvList v)
    | None => None
    end in
  if match types with
     | Some ts => existsb (fun t => negb (has PERIOD_TYPES t)) ts
     | None => false
     end then
    Some (mkResponse 400
            (Message "period_type must be week, month, year, custom (comma-separated allowed)"))
  else
    let ids :=
      match textOrNull (q_ids q) with
      | Some v => Some (parseIdsList v)
      | None => None
      end in
    if truthy (q_ids q) &&
       match ids with
       | Some (_ :: _) => false
       | _ => true
       end then
      Some (mkResponse 400
              (Message "ids must be comma-separated positive integers"))
    else
      let statuses :=
        match textOrNull (q_status q) with
        | Some v => Some (parseCsvList v)
        | None => None
        end in
      if match statuses with
         | Some ss => existsb (fun s => negb (has LIMIT_STATUSES s)) ss
         | None => false
         end then
        Some (mkResponse 400
                (Message "status must be ok, threshold_reached, limit_exceeded (comma-separated allowed)"))
      else
        let '(sent, period) := optionalPeriod q in
        match period with
        | None =>
            if truthy (date_from q) || truthy (date_to q) then sent
            else
              let '(totals, items) :=
                fetchLimitsReportData db userId types statuses ids None in
              Some (mkResponse 200
                      (LimitsReport (mkFilters types ids statuses None)
                         totals items))
        | Some p =>
            let '(totals, items) :=
              fetchLimitsReportData db userId types statuses ids (Some p) in
            Some (mkResponse 200
                    (LimitsReport (mkFilters types ids statuses (Some p))
                       totals items))
        end.

(** *** CSV fields *)

Definition quote : ascii := ascii_of_nat 34.
Definition LF : ascii := ascii_of_nat 10.
Definition CR : ascii := ascii_of_nat 13.

Fixpoint allDigits (s : string) : bool :=
  match s with
  | EmptyString => true
  | String c r => JSString.isDigit c && allDigits r
  end.

(** The text after the leading digits of [s], and whether there is at
    least one. *)
Fixpoint afterDigits (s : string) : bool * string :=
  match s with
  | String c r =>
      if JSString.isDigit c then (true, snd (afterDigits r)) else (false, s)
  | EmptyString => (false, s)
  end.

(** [/^-?\d+(\.\d+)?$/.test(s)] *)
Definition isDecimalText (s : string) : bool :=
  let s :=
    match s with
    | String "-" r => r
    | _ => s
    end in
  let '(some, rest) := afterDigits s in
  some &&
  match rest with
  | EmptyString => true
  | String "." f => negb (String.eqb f "") && allDigits f
  | _ => false
  end.

(** [s.replace('.', ',')]: the first point only. *)
Fixpoint replacePoint (s : string) : string :=
  match s with
  | EmptyString => EmptyString
  | String c r =>
      if Ascii.eqb c "." then String "," r else String c (replacePoint r)
  end.

Definition excelNormalize (value : JsVal) : string :=
  if isNullish value then ""
  else
    let s := ToString value in
    if isDecimalText s then replacePoint s else s.

(** The test of the class made of the semicolon, the double quote, the
    line feed and the carriage return. *)
Fixpoint needsQuotes (s : string) : bool :=
  match s with
  | EmptyString => false
  | String c r =>
      Ascii.eqb c ";" || Ascii.eqb c quote || Ascii.eqb c LF ||
      Ascii.eqb c CR || needsQuotes r
  end.

(** Every double quote of [s] written twice (the global [replace]). *)
Fixpoint doubleQuotes (s : string) : string :=
  match s with
  | EmptyString => EmptyString
  | String c r =>
      if Ascii.eqb c quote then String quote (String quote (doubleQuotes r))
      else String c (doubleQuotes r)
  end.

Definition csvEscape (value : JsVal) : string :=
  let s := excelNormalize value in
  if needsQuotes s then String quote (doubleQuotes s ++ String quote "")
  else s.

End ReportRoutes.

Module PeriodProps.

Import Period.

(** One year later, the day of the month clamped to the length of the
    target month (29 February becomes 28 February). *)
Definition plusOneYearClamped (c : civil) : civil :=
  let '(y, m, d) := c in (y + 1, m, Z.min d (monthLength (y + 1) m)).

(** The period types whose end is computed. *)
Definition computed (type : string) : Prop :=
  type = "week" \/ type = "month" \/ type = "year".

(** The numbers of days a period of the type can have. *)
Definition lengthOf (type : string) (n : Z) : Prop :=
  (type = "week" /\ n = 7) \/
  (type = "month" /\ 28 <= n <= 31) \/
  (type = "year" /\ 365 <= n <= 366).

End PeriodProps.

Module DateTextProps.

(** The decimal digits. *)
Definition digits10 : list Z := [0; 1; 2; 3; 4; 5; 6; 7; 8; 9].

(** The text of four digits and the text of two. *)
Definition four (a b c d : Z) : string :=
  String (JSNumber.digitChar a) (String (JSNumber.digitChar b)
    (String (JSNumber.digitChar c) (String (JSNumber.digitChar d) ""))).

Definition two (a b : Z) : string :=
  String (JSNumber.digitChar a) (String (JSNumber.digitChar b) "").

(** A number that orders dates as the calendar does. *)
Definition dateKey (y m d : Z) : Z := y * 10000 + m * 100 + d.

(** The years written with three digits. *)
Definition threeDigitYears : list Z := map Z.of_nat (seq 100 900).

End DateTextProps.

Module ReportRouteProps.

Import JS JSNumber Query ReportRoutes.

(** The text has no code unit [c]. *)
Fixpoint free (c : ascii) (s : string) : bool :=
  match s with
  | EmptyString => true
  | String x r => negb (Ascii.eqb x c) && free c r
  end.

(** An item as [parseCsvList] returns it: not empty, without a comma and
    without white space at either end. *)
Definition clean (s : string) : Prop :=
  s <> "" /\ free "," s = true /\ trim s = s.

(** The query has no filter on the period type, the ids or the status. *)
Definition unfiltered (q : ReportRoutes.Query) : Prop :=
  q_period_type q = None /\ q_ids q = None /\ q_status q = None.

(** Both dates are absent or blank, and one of them is a text that is not
    empty. *)
Definition blankDates (q : ReportRoutes.Query) : Prop :=
  hasText (date_from q) = false /\ hasText (date_to q) = false /\
  truthy (date_from q) || truthy (date_to q) = true.

End ReportRouteProps.

(* ================================================================== *)
(** ** Admin routes: listings and statistics *)
(* ================================================================== *)

Module AdminQueries.

Import JS JSNumber Query Admin.

(** [Math.min(x, y)] *)
Definition min (x y : number) : number :=
  match x, y with
  | S754_nan, _ | _, S754_nan => S754_nan
  | S754_zero sx, S754_zero sy => S754_zero (sx || sy)
  | _, _ => if SFltb y x then y else x
  end.

(** The page size of a listing, from [req.query.limit]. *)
Definition pageLimit (v : param) : number :=
  let limitRaw :=
    match v with
    | Some s => ofString s
    | None => ofInt 50
    end in
  if isFinite limitRaw then min (max (ofInt 1) limitRaw) (ofInt 200)
  else ofInt 50.

(** The first row of a listing, from [req.query.offset]. *)
Definition pageOffset (v : param) : number :=
  let offsetRaw :=
    match v with
    | Some s => ofString s
    | None => ofInt 0
    end in
  if isFinite offsetRaw then max (ofInt 0) offsetRaw else ofInt 0.

Record UsersQuery : Type := mkUsersQuery {
  q_q : param;
  q_role : param;
  q_is_blocked : param;
  q_limit : param;
  q_offset : param
}.

(** The [where] clause of [GET /api/admin/users]; [w_email] is the text
    put between the two percent signs of the [LIKE] pattern. *)
Record UsersWhere : Type := mkUsersWhere {
  w_email : option string;
  w_role : option string;
  w_is_blocked : option bool
}.

(** The call of [findAndCountAll] a listing makes. *)
Record Page (W : Type) : Type := mkPage {
  p_where : W;
  p_limit : number;
  p_offset : number
}.

Arguments mkPage {W}.
Arguments p_where {W}.
Arguments p_limit {W}.
Arguments p_offset {W}.

(** [GET /api/admin/users], up to the query it makes. *)
Definition getUsers (query : UsersQuery) : Response + Page UsersWhere :=
  let q :=
    match q_q query with
    | Some s => trim s
    | None => ""
    end in
  let role :=
    match q_role query with
    | Some s => Some (trim s)
    | None => None
    end in
  let limit := pageLimit (q_limit query) in
  let offset := pageOffset (q_offset query) in
  if match role with
     | Some r => negb (String.eqb r "") && negb (isRole r)
     | None => false
     end then
    inl (mkResponse 400 (Message "role must be user or admin"))
  else
    let email := if String.eqb q "" then None else Some q in
    let role :=
      match role with
      | Some r => if String.eqb r "" then None else Some r
      | None => None
      end in
    match q_is_blocked query with
    | Some raw =>
        match parseBool (JStr raw) with
        | None => inl (mkResponse 400 (Message "is_blocked must be boolean"))
        | Some parsed =>
            inr (mkPage (mkUsersWhere email role (Some parsed)) limit offset)
        end
    | None => inr (mkPage (mkUsersWhere email role None) limit offset)
    end.

Record AuditQuery : Type := mkAuditQuery {
  a_admin_id : param;
  a_limit : param;
  a_offset : param
}.

(** [GET /api/admin/audit-logs], up to the query it makes; the [where]
    clause is the [admin_id] asked for, if any. *)
Definition getAuditLogs (query : AuditQuery) : Response + Page (option number) :=
  let adminIdStr :=
    match a_admin_id query with
    | Some s => trim s
    | None => ""
    end in
  let adminIdRaw :=
    if String.eqb adminIdStr "" then None else Some (ofString adminIdStr) in
  let limit := pageLimit (a_limit query) in
  let offset := pageOffset (a_offset query) in
  match adminIdRaw with
  | Some n =>
      if negb (isInteger n) || le n (ofInt 0) then
        inl (mkResponse 400 (Message "admin_id must be positive integer"))
      else inr (mkPage (Some n) limit offset)
  | None => inr (mkPage None limit offset)
  end.

Record Stats : Type := mkStats {
  accounts_total : Z;
  accounts_blocked_total : Z;
  users_total : Z;
  users_blocked_total : Z;
  admins_total : Z;
  admins_blocked_total : Z
}.

(** [User.count({ where })] *)
Definition count (where_ : User -> bool) (us : list User) : Z :=
  Z.of_nat (List.length (filter where_ us)).

(** The body of [GET /api/admin/stats]. *)
Definition getStats (us : list User) : Stats :=
  mkStats
    (count (fun _ => true) us)
    (count (fun u => is_blocked u) us)
    (count (fun u => String.eqb (role u) "user") us)
    (count (fun u => String.eqb (role u) "user" && is_blocked u) us)
    (count (fun u => String.eqb (role u) "admin") us)
    (count (fun u => String.eqb (role u) "admin" && is_blocked u) us).

End AdminQueries.

Module AdminTableProps.

Import JS JSNumber Admin AdminProps AdminQueries.

(** The table has a key and every role is one of [ROLES]. *)
Definition WellFormed (us : list User) : Prop :=
  NoDup (map id us) /\ Forall (fun u => isRole (role u) = true) us.

(** [lo <= x <= hi] on numbers. *)
Definition between (lo hi x : number) : Prop :=
  isFinite x = true /\ le lo x = true /\ le x hi = true.

(** The page asked for is within the bounds of a listing. *)
Definition bounded {W : Type} (p : Page W) : Prop :=
  between (ofInt 1) (ofInt 200) (p_limit p) /\
  isFinite (p_offset p) = true /\ le (ofInt 0) (p_offset p) = true.

(** What an audit record says about the change from [target] to
    [updated]. *)
Definition describes (action : string) (details : Details)
  (target updated : User) : Prop :=
  (action = "USER_ROLE_CHANGE" /\
   details = RoleChange (role target) (role updated) (email target) /\
   is_blocked updated = is_blocked target) \/
  (action = (if is_blocked updated then "USER_BLOCK" else "USER_UNBLOCK") /\
   details = BlockChange (is_blocked target) (is_blocked updated)
               (email target) /\
   role updated = role target).

(** What a role or block route leaves behind: nothing is written and the
    answer is not 200, or an admitted caller has rewritten the addressed
    row, keeping its key and e-mail, and one audit record describing the
    change was added. *)
Definition Audited (db : Tables) (req : Request) (out : Response * Tables)
  : Prop :=
  (status (fst out) <> 200 /\ snd out = db) \/
  (exists caller target updated action details,
     auth db req = inr caller /\ requireAdmin caller = None /\
     targets db req target /\
     id updated = id target /\ email updated = email target /\
     describes action details target updated /\
     out = (mkResponse 200 (Row updated),
            mkTables (updateRow updated (users db))
              (audit_logs db ++
               [mkAuditLog (c_id caller) action (Some (id target))
                  (Some details)])%list)).

(** The outcome of a handler of the role and block routes: nothing is
    written, or one row is rewritten and one audit record is added.  When
    the row is the caller's own, it stays an admin that is not blocked. *)
Inductive Outcome (db : Tables) (caller : Caller) (req : Request)
  : Response * Tables -> Prop :=
| Refused resp :
    status resp <> 200 -> Outcome db caller req (resp, db)
| Written target updated action details :
    targets db req target ->
    id updated = id target -> email updated = email target ->
    isRole (role updated) = true \/ role updated = role target ->
    describes action details target updated ->
    (eq (ofString (param_id req)) (ofInt (c_id caller)) = true ->
     activeAdmin updated = true \/ activeAdmin target = false) ->
    Outcome db caller req
      (mkResponse 200 (Row updated),
       mkTables (updateRow updated (users db))
         (audit_logs db ++
          [mkAuditLog (c_id caller) action (Some (id target))
             (Some details)])%list).

End AdminTableProps.

(* ================================================================== *)
(** ** Listing and deleting tariffs, limits and consumption records *)
(* ================================================================== *)

(** The answer of a [DELETE] route: [NoContent] is the status 204 without
    a body, [NotFound] the status 404 with a message. *)
Inductive Deleted : Type :=
| NoContent
| NotFound (message : string).

Module TariffRoutes.

Import JS Tariffs.

(** [GET /api/tariffs]: the caller's tariffs, the newest first. *)
Definition get (rows : list Tariff) (user : Z) : list Tariff :=
  Consumption.orderByIdDesc (filter (fun t => user_id t =? user) rows).

(** [row.destroy()]: the row with the key of [row] is removed. *)
Definition destroy (row : Tariff) (rows : list Tariff) : list Tariff :=
  filter (fun t => negb (id t =? id row)) rows.

(** [DELETE /api/tariffs/:id] *)
Definition delete (rows : list Tariff) (req : Request)
  : Deleted * list Tariff :=
  match findOne rows (param_id req) (user req) with
  | None => (NotFound "not found", rows)
  | Some row => (NoContent, destroy row rows)
  end.

End TariffRoutes.

Module LimitRoutes.

Import JS Period Query Limits.

Inductive Listing : Type :=
| Refused (status : Z) (message : string)
| Rows (rows : list Limit).

(** The order [[['period_start', 'DESC'], ['id', 'DESC']]]: [a] is not
    after [b]. *)
Definition precedes (a b : Limit) : bool :=
  JSString.gt (period_start a) (period_start b) ||
  (String.eqb (period_start a) (period_start b) && (id b <=? id a)).

Fixpoint insert (x : Limit) (l : list Limit) : list Limit :=
  match l with
  | [] => [x]
  | h :: r => if precedes x h then x :: l else h :: insert x r
  end.

Definition order (l : list Limit) : list Limit := fold_right insert [] l.

(** The [where] clause of the listing. *)
Definition selected (user : Z) (periodType date : option string) (l : Limit)
  : bool :=
  (user_id l =? user) &&
  match periodType with
  | Some t => String.eqb (period_type l) t
  | None => true
  end &&
  match date with
  | Some d => JSString.le (period_start l) d && JSString.ge (period_end l) d
  | None => true
  end.

(** [GET /api/limits] with the query parameters [period_type] and
    [date]. *)
Definition get (rows : list Limit) (user : Z) (period_type date : param)
  : Listing :=
  let periodType := textOrNull period_type in
  let date := textOrNull date in
  if match periodType with
     | Some t => negb (isPeriodType t)
     | None => false
     end then
    Refused 400 "period_type must be one of: week, month, year, custom"
  else if match date with
          | Some d => negb (isValidISODate d)
          | None => false
          end then
    Refused 400 "date must be YYYY-MM-DD"
  else Rows (order (filter (selected user periodType date) rows)).

Definition destroy (row : Limit) (rows : list Limit) : list Limit :=
  filter (fun l => negb (id l =? id row)) rows.

(** [DELETE /api/limits/:id] *)
Definition delete (rows : list Limit) (req : Request)
  : Deleted * list Limit :=
  match findOne rows (param_id req) (user req) with
  | None => (NotFound "not found", rows)
  | Some row => (NoContent, destroy row rows)
  end.

End LimitRoutes.

Module ConsumptionRoutes.

Import JS Period Query Consumption.

Inductive Listing : Type :=
| Refused (status : Z) (message : string)
| Rows (rows : list ConsumptionRecord).

(** The order [[['record_date', 'DESC'], ['id', 'DESC']]]. *)
Definition precedes (a b : ConsumptionRecord) : bool :=
  JSString.gt (record_date a) (record_date b) ||
  (String.eqb (record_date a) (record_date b) && (id b <=? id a)).

Fixpoint insert (x : ConsumptionRecord) (l : list ConsumptionRecord)
  : list ConsumptionRecord :=
  match l with
  | [] => [x]
  | h :: r => if precedes x h then x :: l else h :: insert x r
  end.

Definition order (l : list ConsumptionRecord) : list ConsumptionRecord :=
  fold_right insert [] l.

(** The [where] clause of the listing. *)
Definition selected (user : Z) (dateFrom dateTo : option string)
  (r : ConsumptionRecord) : bool :=
  (user_id r =? user) &&
  match dateFrom, dateTo with
  | Some f, Some t =>
      JSString.ge (record_date r) f && JSString.le (record_date r) t
  | Some f, None => JSString.ge (record_date r) f
  | None, Some t => JSString.le (record_date r) t
  | None, None => true
  end.

(** [GET /api/consumption] with the query parameters [date_from] and
    [date_to]. *)
Definition get (rows : list ConsumptionRecord) (user : Z)
  (date_from date_to : param) : Listing :=
  let dateFrom := textOrNull date_from in
  let dateTo := textOrNull date_to in
  if match dateFrom with
     | Some f => negb (isValidISODate f)
     | None => false
     end then
    Refused 400 "date_from must be YYYY-MM-DD"
  else if match dateTo with
          | Some t => negb (isValidISODate t)
          | None => false
          end then
    Refused 400 "date_to must be YYYY-MM-DD"
  else if match dateFrom, dateTo with
          | Some f, Some t => isAfter f t
          | _, _ => false
          end then
    Refused 400 "date_from cannot be after date_to"
  else Rows (order (filter (selected user dateFrom dateTo) rows)).

Definition destroy (row : ConsumptionRecord) (rows : list ConsumptionRecord)
  : list ConsumptionRecord :=
  filter (fun r => negb (id r =? id row)) rows.

(** [DELETE /api/consumption/:id] *)
Definition delete (rows : list ConsumptionRecord) (req : Request)
  : Deleted * list ConsumptionRecord :=
  match findOne rows (param_id req) (user req) with
  | None => (NotFound "not found", rows)
  | Some row => (NoContent, destroy row rows)
  end.

End ConsumptionRoutes.

Module TableProps.

Import JS.

(** The tariff table has a key and at most one active tariff per user. *)
Definition TariffsOk (rows : list Tariffs.Tariff) : Prop :=
  NoDup (map Tariffs.id rows) /\ TariffProps.AtMostOneActive rows.

(** The rows of the users other than [u]. *)
Definition othersTariffs (u : Z) (rows : list Tariffs.Tariff)
  : list Tariffs.Tariff :=
  filter (fun t => negb (Tariffs.user_id t =? u)) rows.

Definition othersLimits (u : Z) (rows : list Limits.Limit)
  : list Limits.Limit :=
  filter (fun l => negb (Limits.user_id l =? u)) rows.

Definition othersRecords (u : Z) (rows : list Consumption.ConsumptionRecord)
  : list Consumption.ConsumptionRecord :=
  filter (fun r => negb (Consumption.user_id r =? u)) rows.

(** Every record that names an appliance names one of its own user. *)
Definition OwnAppliances (db : Consumption.Tables) : Prop :=
  forall r a,
    In r (Consumption.records db) -> Consumption.appliance_id r = Some a ->
    exists ap,
      In ap (Consumption.appliances db) /\
      Consumption.a_id ap = a /\
      Consumption.a_user_id ap = Consumption.user_id r.

(** The appliance [a], if any, is one of the user [u]. *)
Definition owned (db : Consumption.Tables) (u : Z) (a : option Z) : Prop :=
  forall x, a = Some x ->
    exists ap,
      In ap (Consumption.appliances db) /\
      Consumption.a_id ap = x /\ Consumption.a_user_id ap = u.

(** The records name appliances of their own users and carry dates. *)
Definition RecordsOk (db : Consumption.Tables) : Prop :=
  OwnAppliances db /\
  Forall (fun r => Period.isValidISODate (Consumption.record_date r) = true)
         (Consumption.records db).

(** The tables after a handler has written [rows]. *)
Definition withRecords (db : Consumption.Tables)
  (rows : list Consumption.ConsumptionRecord) : Consumption.Tables :=
  Consumption.mkTables (Consumption.tariffs db) (Consumption.appliances db)
    rows.

(** The date [a] is the day of [b] or a later one. *)
Definition notBefore (a b : string) : Prop :=
  match Period.parseDateUTC a, Period.parseDateUTC b with
  | Some ta, Some tb => tb <= ta
  | _, _ => False
  end.

(** [PATCH /api/tariffs/:id] with [is_active] absent or a boolean. *)
Definition booleanPatch (req : Tariffs.Request) : Prop :=
  Tariffs.b_is_active req = JUndefined \/
  exists b, Tariffs.b_is_active req = JBool b.

(** A stored limit has a start that is a date and a known period type; its
    end is, for the type [custom], a date not before the start, and for the
    other types what the [DATEONLY] attribute keeps of the computed end. *)
Definition LimitShape (other : Sequelize.Dateonly) (l : Limits.Limit)
  : Prop :=
  Period.isValidISODate (Limits.period_start l) = true /\
  Limits.isPeriodType (Limits.period_type l) = true /\
  (Limits.period_type l = "custom" ->
   Period.isValidISODate (Limits.period_end l) = true /\
   Period.isAfter (Limits.period_start l) (Limits.period_end l) = false) /\
  (Limits.period_type l <> "custom" ->
   exists computedEnd,
     Period.calcAutoPeriodEnd (Limits.period_type l) (Limits.period_start l)
     = Some computedEnd /\
     Sequelize.dateText other computedEnd = Some (Limits.period_end l)).

(** What the [DATEONLY] attribute keeps is a date. *)
Definition KeepsDates (other : Sequelize.Dateonly) : Prop :=
  forall v t, other v = Some t -> Period.isValidISODate t = true.

(** Both ends of a stored limit are dates. *)
Definition Dated (l : Limits.Limit) : Prop :=
  Period.isValidISODate (Limits.period_start l) = true /\
  Period.isValidISODate (Limits.period_end l) = true.

(** The days from [s] to [e] and the range of the limit [l] intersect, both
    ends included: [l] starts on the day [e] or earlier and ends on the day
    [s] or later. *)
Definition meets (l : Limits.Limit) (s e : string) : Prop :=
  notBefore e (Limits.period_start l) /\
  notBefore (Limits.period_end l) s.

(** The stored limit [o] of user [u] and period type [type], other than the
    limit with the key [ex] when one is given, intersects the days from [s]
    to [e]. *)
Definition colliding (rows : list Limits.Limit) (u : Z) (type s e : string)
  (ex : option Z) (o : Limits.Limit) : Prop :=
  In o rows /\ Limits.user_id o = u /\ Limits.period_type o = type /\
  meets o s e /\
  match ex with Some x => Limits.id o <> x | None => True end.

(** The table has a key, its limits carry dates, and no two limits of one
    user and period type have a day in common. *)
Definition Apart (rows : list Limits.Limit) : Prop :=
  NoDup (map Limits.id rows) /\
  Forall Dated rows /\
  forall a b, In a rows -> In b rows -> Limits.id a <> Limits.id b ->
    Limits.user_id a = Limits.user_id b ->
    Limits.period_type a = Limits.period_type b ->
    ~ meets a (Limits.period_start b) (Limits.period_end b).

(** The limit with the key [i] of user [u] that a handler writes for the
    candidate [c] once the end [e] has been kept. *)
Definition limitOf (i u : Z) (c : Limits.Candidate) (e : string)
  : Limits.Limit :=
  Limits.mkLimit i u (Limits.c_limit c) (Limits.c_type c) (Limits.c_start c)
    e (Limits.c_alert_enabled c) (JSNumber.truncate (Limits.c_threshold c)).

(** [a <= b] on texts, as JavaScript orders them. *)
Definition textLe (a b : string) : Prop := String.leb a b = true.

(** The fields that [POST /api/tariffs] requires are given. *)
Definition Complete (req : Tariffs.Request) : Prop :=
  JS.ToBoolean (Tariffs.b_tariff_name req) = true /\
  Tariffs.b_price_per_kwh req <> JUndefined /\
  Tariffs.b_price_per_kwh req <> JNull /\
  JS.ToBoolean (Tariffs.b_valid_from req) = true.

(** [valid_from] is not after a [valid_to] that is given. *)
Definition Ordered (req : Tariffs.Request) : Prop :=
  JS.ToBoolean (Tariffs.b_valid_to req) = true ->
  textLe (JS.ToString (Tariffs.b_valid_from req))
         (JS.ToString (Tariffs.b_valid_to req)).

(** Today lies in the validity range, which has no upper bound when
    [valid_to] is not given. *)
Definition Within (req : Tariffs.Request) : Prop :=
  textLe (JS.ToString (Tariffs.b_valid_from req)) (Tariffs.today req) /\
  (JS.ToBoolean (Tariffs.b_valid_to req) = true ->
   textLe (Tariffs.today req) (JS.ToString (Tariffs.b_valid_to req))).

(** The request passes the checks of [POST /api/tariffs]: it is complete
    and ordered, and today lies in its range unless [is_active] is the
    boolean [false]. *)
Definition Accepted (req : Tariffs.Request) : Prop :=
  Complete req /\ Ordered req /\
  (Tariffs.b_is_active req <> JBool false -> Within req).

(** A tariff of user [u] is made inactive; those of the others stay. *)
Definition retire (u : Z) (x : Tariffs.Tariff) : Tariffs.Tariff :=
  if Tariffs.user_id x =? u then Tariffs.setActive x false else x.

(** A request whose name is a text of at most 120 characters, whose price
    is a number from -999999 to 999999 and whose dates are valid
    ISO dates, [valid_to] being one, null or absent: what the columns
    [STRING(120)], [DECIMAL(10,4)] and [DATEONLY] of the table take as it
    is. *)
Definition Plain (req : Tariffs.Request) : Prop :=
  (exists n, Tariffs.b_tariff_name req = JStr n /\ n <> "" /\
             (String.length n <= 120)%nat) /\
  (exists p, Tariffs.b_price_per_kwh req = JNum p /\
             JSNumber.le (JSNumber.ofInt (-999999)) p = true /\
             JSNumber.le p (JSNumber.ofInt 999999) = true) /\
  Period.isValidISODate (Tariffs.today req) = true /\
  (exists f, Tariffs.b_valid_from req = JStr f /\
             Period.isValidISODate f = true) /\
  match Tariffs.b_valid_to req with
  | JUndefined | JNull => True
  | JStr t => Period.isValidISODate t = true
  | _ => False
  end.

(** The day [day] is not after the bound when the bound is a text; any
    other bound bounds nothing. *)
Definition upTo (day : string) (bound : JsVal) : Prop :=
  match bound with
  | JStr t => notBefore t day
  | _ => True
  end.

(** On the calendar: [valid_from] is not after [valid_to], and unless
    [is_active] is the boolean [false], today is the day [valid_from] or a
    later one and not after [valid_to]. *)
Definition Fits (req : Tariffs.Request) : Prop :=
  exists f,
    Tariffs.b_valid_from req = JStr f /\
    upTo f (Tariffs.b_valid_to req) /\
    (Tariffs.b_is_active req <> JBool false ->
     notBefore (Tariffs.today req) f /\
     upTo (Tariffs.today req) (Tariffs.b_valid_to req)).

End TableProps.

(* ================================================================== *)
(** * Properties *)
(* ================================================================== *)

(** ** The calendar *)

Section CalendarFacts.

Lemma DayFromYear_succ y : DayFromYear (y + 1) = DayFromYear y + DaysInYear y.
Proof.
  unfold DayFromYear, DaysInYear, leapDays, InLeapYear.
  destruct (y mod 4 =? 0) eqn:E4; destruct (y mod 100 =? 0) eqn:E100;
    destruct (y mod 400 =? 0) eqn:E400; cbn [andb orb negb];
    rewrite ?Z.eqb_eq, ?Z.eqb_neq in *;
    Z.to_euclidean_division_equations; lia.
Qed.

Lemma DaysInYear_pos y : 365 <= DaysInYear y <= 366.
Proof. unfold DaysInYear, leapDays; destruct (InLeapYear y); lia. Qed.

Lemma DayFromYear_mono y y' : y <= y' -> DayFromYear y <= DayFromYear y'.
Proof.
  intros H. replace y' with (y + (y' - y)) by lia.
  assert (Hk : 0 <= y' - y) by lia. revert Hk.
  generalize (y' - y) as k. clear H.
  apply (natlike_ind (fun k => DayFromYear y <= DayFromYear (y + k))).
  - rewrite Z.add_0_r; lia.
  - intros k Hk IH. replace (y + Z.succ k) with (y + k + 1) by lia.
    rewrite DayFromYear_succ. pose proof (DaysInYear_pos (y + k)); lia.
Qed.

Lemma YearFromDay_estimate d :
  let y0 := 1970 + (400 * d) / 146097 in
  DayFromYear (y0 - 1) <= d < DayFromYear (y0 + 2).
Proof.
  cbv zeta. unfold DayFromYear.
  Z.to_euclidean_division_equations; lia.
Qed.

Lemma YearFromDay_spec d :
  DayFromYear (YearFromDay d) <= d < DayFromYear (YearFromDay d + 1).
Proof.
  pose proof (YearFromDay_estimate d) as H. cbv zeta in H.
  unfold YearFromDay. set (y0 := 1970 + 400 * d / 146097) in *.
  destruct (d <? DayFromYear y0) eqn:E1.
  - apply Z.ltb_lt in E1. replace (y0 - 1 + 1) with y0 by lia. lia.
  - apply Z.ltb_ge in E1.
    destruct (DayFromYear (y0 + 1) <=? d) eqn:E2.
    + apply Z.leb_le in E2. replace (y0 + 1 + 1) with (y0 + 2) by lia. lia.
    + apply Z.leb_gt in E2. lia.
Qed.

Lemma YearFromDay_unique d y :
  DayFromYear y <= d < DayFromYear (y + 1) -> YearFromDay d = y.
Proof.
  intros H. pose proof (YearFromDay_spec d) as S.
  destruct (Z.lt_trichotomy (YearFromDay d) y) as [L | [E | G]]; [ | exact E | ].
  - pose proof (DayFromYear_mono (YearFromDay d + 1) y ltac:(lia)). lia.
  - pose proof (DayFromYear_mono (y + 1) (YearFromDay d) ltac:(lia)). lia.
Qed.

Lemma month_cases m :
  0 <= m <= 11 ->
  m = 0 \/ m = 1 \/ m = 2 \/ m = 3 \/ m = 4 \/ m = 5 \/ m = 6 \/
  m = 7 \/ m = 8 \/ m = 9 \/ m = 10 \/ m = 11.
Proof. lia. Qed.

Ltac each_month H :=
  apply month_cases in H;
  repeat (destruct H as [H | H]; [ subst | ]); [ .. | subst ].

Ltac calc :=
  change (0 + 1) with 1 in *; change (1 + 1) with 2 in *;
  change (2 + 1) with 3 in *; change (3 + 1) with 4 in *;
  change (4 + 1) with 5 in *; change (5 + 1) with 6 in *;
  change (6 + 1) with 7 in *; change (7 + 1) with 8 in *;
  change (8 + 1) with 9 in *; change (9 + 1) with 10 in *;
  change (10 + 1) with 11 in *; change (11 + 1) with 12 in *;
  cbn [monthStart] in *.

Lemma daysInMonth_range y m : 0 <= m <= 11 -> 28 <= daysInMonth y m <= 31.
Proof.
  intros H. unfold daysInMonth. each_month H; calc; unfold leapDays;
    destruct (InLeapYear y); lia.
Qed.

Lemma DayWithinYear_range d : 0 <= DayWithinYear d < DaysInYear (YearFromDay d).
Proof.
  unfold DayWithinYear. pose proof (YearFromDay_spec d) as H.
  rewrite DayFromYear_succ in H. lia.
Qed.

(** The date of a day number is a date of the calendar, and [MakeDay]
    gives the day number back. *)
Lemma civil_of_day d :
  0 <= MonthFromDay d <= 11 /\
  1 <= DateFromDay d <= daysInMonth (YearFromDay d) (MonthFromDay d) /\
  MakeDay (YearFromDay d) (MonthFromDay d) (DateFromDay d) = d.
Proof.
  pose proof (DayWithinYear_range d) as W.
  unfold MakeDay, DateFromDay, MonthFromDay, daysInMonth.
  set (y := YearFromDay d) in *. set (w := DayWithinYear d) in *.
  assert (Hd : d = DayFromYear y + w) by (unfold w, DayWithinYear; fold y; lia).
  unfold DaysInYear in W. cbv zeta.
  repeat match goal with
         | |- context [?a <? ?b] =>
             let E := fresh "E" in
             destruct (a <? b) eqn:E;
             [ apply Z.ltb_lt in E | apply Z.ltb_ge in E ]
         end;
    cbn in *; rewrite ?Z.add_0_r; unfold leapDays in *;
    destruct (InLeapYear y); lia.
Qed.

(** Conversely the day number of a calendar date has that date. *)
Lemma day_of_civil y m dt :
  0 <= m <= 11 -> 1 <= dt <= daysInMonth y m ->
  YearFromDay (MakeDay y m dt) = y /\
  MonthFromDay (MakeDay y m dt) = m /\
  DateFromDay (MakeDay y m dt) = dt.
Proof.
  intros Hm Hdt.
  assert (Hmk : MakeDay y m dt = DayFromYear y + (monthStart y m + dt - 1)).
  { unfold MakeDay. rewrite Z.div_small, Z.mod_small by lia.
    rewrite Z.add_0_r. lia. }
  assert (Hy : YearFromDay (MakeDay y m dt) = y).
  { apply YearFromDay_unique. rewrite Hmk, DayFromYear_succ.
    unfold DaysInYear, daysInMonth in *.
    each_month Hm; calc; unfold leapDays in *;
      destruct (InLeapYear y); lia. }
  split; [ exact Hy | ].
  unfold DateFromDay, MonthFromDay, DayWithinYear. rewrite Hy, Hmk.
  replace (DayFromYear y + (monthStart y m + dt - 1) - DayFromYear y)
    with (monthStart y m + dt - 1) by lia.
  unfold daysInMonth in Hdt. cbv zeta.
  each_month Hm;
    repeat match goal with
           | |- context [?a <? ?b] =>
               let E := fresh "E" in
               destruct (a <? b) eqn:E;
               [ apply Z.ltb_lt in E | apply Z.ltb_ge in E ]
           end;
    calc; unfold leapDays in *; destruct (InLeapYear y); lia.
Qed.

End CalendarFacts.

(** ** Period ends *)

Section PeriodFacts.

Import JSString Period.

Lemma isDigit_spec c :
  isDigit c = true -> Ascii.eqb c "-" = false /\ 0 <= digitVal c <= 9.
Proof.
  destruct c as [[] [] [] [] [] [] [] []]; cbv; intuition congruence.
Qed.

Lemma splitYMD_pattern s :
  isoPattern s = true ->
  exists y m d, splitYMD s = Some (y, m, d) /\
                0 <= y <= 9999 /\ 0 <= m <= 99 /\ 0 <= d <= 99.
Proof.
  intros H.
  do 10 (destruct s as [ | ? s ]; [ discriminate H | ]).
  destruct s; [ | discriminate H ].
  cbn [isoPattern] in H.
  do 9 (apply andb_prop in H; destruct H as [H ?]).
  repeat match goal with
         | D : isDigit _ = true |- _ =>
             apply isDigit_spec in D; destruct D as [? ?]
         | D : Ascii.eqb _ _ = true |- _ => apply Ascii.eqb_eq in D; subst
         end.
  unfold splitYMD. cbn [splitDash].
  repeat match goal with
         | E : Ascii.eqb ?c "-" = false |- _ => rewrite E; clear E
         end.
  rewrite Ascii.eqb_refl.
  cbn [map digitsValue digitsFrom].
  unfold isDigit, digitVal in *.
  repeat match goal with
         | |- context [(48 <=? ?n) && (?n <=? 57)] =>
             replace ((48 <=? n) && (n <=? 57)) with true
             by (symmetry; apply andb_true_intro; split;
                 [ apply Z.leb_le | apply Z.leb_le ]; lia)
         end.
  do 3 eexists. split; [ reflexivity | lia ].
Qed.

Lemma getUTCFullYear_eq t : getUTCFullYear t = YearFromDay (Day t).
Proof. reflexivity. Qed.

Lemma getUTCMonth_eq t : getUTCMonth t = MonthFromDay (Day t).
Proof. reflexivity. Qed.

Lemma getUTCDate_eq t : getUTCDate t = DateFromDay (Day t).
Proof. reflexivity. Qed.

Lemma Day_times x : Day (msPerDay * x) = x.
Proof. unfold Day. rewrite Z.mul_comm. apply Z.div_mul. discriminate. Qed.

Lemma YearFromDay_lower y0 d : DayFromYear y0 <= d -> y0 <= YearFromDay d.
Proof.
  intros H. pose proof (YearFromDay_spec d) as S.
  destruct (Z_lt_le_dec (YearFromDay d) y0) as [L | G]; [ | exact G ].
  pose proof (DayFromYear_mono (YearFromDay d + 1) y0 ltac:(lia)). lia.
Qed.

Lemma UTC_modern y m d : 100 <= y -> UTC y m d = msPerDay * MakeDay y m d.
Proof.
  intros H. unfold UTC.
  replace (y <=? 99) with false by (symmetry; apply Z.leb_gt; lia).
  now rewrite andb_false_r.
Qed.

Lemma UTC_legacy y m d :
  0 <= y <= 99 -> UTC y m d = msPerDay * MakeDay (1900 + y) m d.
Proof.
  intros H. unfold UTC.
  replace (0 <=? y) with true by (symmetry; apply Z.leb_le; lia).
  replace (y <=? 99) with true by (symmetry; apply Z.leb_le; lia).
  reflexivity.
Qed.

Lemma monthStart_nonneg y m : 0 <= m <= 11 -> 0 <= monthStart y m.
Proof.
  intros H. apply month_cases in H.
  repeat (destruct H as [H | H]; [ subst | ]); [ .. | subst ];
    cbn [monthStart]; unfold leapDays; destruct (InLeapYear y); lia.
Qed.

(** What a string accepted by [isValidISODate] denotes. *)
Lemma isValidISODate_inv s :
  isValidISODate s = true ->
  exists y m d,
    splitYMD s = Some (y, m, d) /\
    100 <= y <= 9999 /\ 1 <= m <= 12 /\ 1 <= d <= monthLength y m.
Proof.
  unfold isValidISODate.
  destruct (negb (isoPattern s)) eqn:P; [ discriminate | ].
  apply negb_false_iff in P.
  destruct (splitYMD_pattern s P) as (y & m & d & E & By & Bm & Bd).
  destruct (splitYMD s) as [ [ [y' m'] d'] | ]; [ | discriminate ].
  injection E as -> -> ->. intros H.
  apply andb_prop in H. destruct H as [H Hd].
  apply andb_prop in H. destruct H as [Hy Hm].
  apply Z.eqb_eq in Hy, Hm, Hd.
  rewrite getUTCFullYear_eq in Hy. rewrite getUTCMonth_eq in Hm.
  rewrite getUTCDate_eq in Hd.
  remember (Day (UTC y (m - 1) d)) as D eqn:HD0.
  destruct (civil_of_day D) as (Cm & Cd & _).
  rewrite Hy, Hm, Hd in Cd. rewrite Hm in Cm.
  exists y, m, d. unfold monthLength.
  assert (G : 100 <= y).
  { destruct (Z_lt_le_dec y 100) as [L | G]; [ exfalso | exact G ].
    rewrite UTC_legacy, Day_times in HD0 by lia.
    assert (DayFromYear (1900 + y) <= D).
    { rewrite HD0. unfold MakeDay.
      rewrite Z.div_small, Z.mod_small, Z.add_0_r by lia.
      pose proof (monthStart_nonneg (1900 + y) (m - 1) Cm). lia. }
    pose proof (YearFromDay_lower _ _ H). lia. }
  split; [ reflexivity | ].
  split; [ lia | ]. split; [ lia | exact Cd ].
Qed.

(** The last day of month [tm] is found as day 0 of the month after. *)
Lemma lastDay_of_month ty tm :
  0 <= tm <= 11 -> DateFromDay (MakeDay ty (tm + 1) 0) = daysInMonth ty tm.
Proof.
  intros H.
  assert (E : MakeDay ty (tm + 1) 0 = MakeDay ty tm (daysInMonth ty tm)).
  { unfold MakeDay, daysInMonth.
    destruct (Z.eq_dec tm 11) as [-> | N].
    - change ((11 + 1) / 12) with 1. change ((11 + 1) mod 12) with 0.
      change (11 / 12) with 0. change (11 mod 12) with 11.
      change (11 + 1) with 12.
      rewrite !Z.add_0_r, DayFromYear_succ. unfold DaysInYear.
      cbn [monthStart]. lia.
    - rewrite !Z.div_small, !Z.mod_small by lia. rewrite !Z.add_0_r. lia. }
  rewrite E. pose proof (daysInMonth_range ty tm H).
  apply day_of_civil; lia.
Qed.

(** The day before a calendar date, through day numbers. *)
Lemma civil_dayBefore ty tm day :
  0 <= tm <= 11 -> 1 <= day <= daysInMonth ty tm ->
  let D := MakeDay ty tm day - 1 in
  (YearFromDay D, MonthFromDay D + 1, DateFromDay D)
  = dayBefore (ty, tm + 1, day).
Proof.
  intros Hm Hd D. unfold dayBefore, monthLength.
  destruct (1 <? day) eqn:E1; [ apply Z.ltb_lt in E1 | apply Z.ltb_ge in E1 ].
  - assert (HD : D = MakeDay ty tm (day - 1)) by (unfold D, MakeDay; lia).
    destruct (day_of_civil ty tm (day - 1) Hm ltac:(lia)) as (A & B & C).
    rewrite HD, A, B, C. reflexivity.
  - assert (day = 1) by lia. subst day.
    destruct (1 <? tm + 1) eqn:E2;
      [ apply Z.ltb_lt in E2 | apply Z.ltb_ge in E2 ].
    + pose proof (daysInMonth_range ty (tm - 1) ltac:(lia)) as R.
      assert (HD : D = MakeDay ty (tm - 1) (daysInMonth ty (tm - 1))).
      { unfold D, MakeDay, daysInMonth.
        rewrite (Z.div_small tm), (Z.mod_small tm) by lia.
        rewrite (Z.div_small (tm - 1)), (Z.mod_small (tm - 1)) by lia.
        replace (tm - 1 + 1) with tm by lia. rewrite !Z.add_0_r. lia. }
      destruct (day_of_civil ty (tm - 1) (daysInMonth ty (tm - 1))
                  ltac:(lia) ltac:(lia)) as (A & B & C).
      rewrite HD, A, B, C.
      replace (tm + 1 - 1 - 1) with (tm - 1) by lia.
      replace (tm + 1 - 1) with (tm - 1 + 1) by lia. reflexivity.
    + assert (tm = 0) by lia. subst tm.
      assert (HD : D = MakeDay (ty - 1) 11 31).
      { unfold D, MakeDay.
        change (0 / 12) with 0. change (0 mod 12) with 0.
        change (11 / 12) with 0. change (11 mod 12) with 11.
        rewrite !Z.add_0_r. cbn [monthStart].
        pose proof (DayFromYear_succ (ty - 1)) as S.
        replace (ty - 1 + 1) with ty in S by lia.
        unfold DaysInYear in S. lia. }
      assert (R : 1 <= 31 <= daysInMonth (ty - 1) 11).
      { unfold daysInMonth. change (11 + 1) with 12. cbn [monthStart]. lia. }
      destruct (day_of_civil (ty - 1) 11 31 ltac:(lia) R) as (A & B & C).
      rewrite HD, A, B, C. reflexivity.
Qed.

Lemma addMonthsUTC_eq t months :
  addMonthsUTC (Some t) months =
  Some (UTC (getUTCFullYear t + (getUTCMonth t + months) / 12)
            (Z.rem (Z.rem (getUTCMonth t + months) 12 + 12) 12)
            (Z.min (getUTCDate t)
                   (getUTCDate
                      (UTC (getUTCFullYear t + (getUTCMonth t + months) / 12)
                           (Z.rem (Z.rem (getUTCMonth t + months) 12 + 12) 12 + 1)
                           0)))).
Proof. reflexivity. Qed.

Lemma addDaysUTC_eq t days :
  addDaysUTC (Some t) days = Some (t + days * 24 * 60 * 60 * 1000).
Proof. reflexivity. Qed.

Lemma formatDateUTC_eq t :
  formatDateUTC (Some t) =
  ofZ (getUTCFullYear t) ++ "-" ++ pad2 (getUTCMonth t + 1) ++ "-" ++
  pad2 (getUTCDate t).
Proof. reflexivity. Qed.

Lemma formatCivil_eq y m d :
  formatCivil (y, m, d) = ofZ y ++ "-" ++ pad2 m ++ "-" ++ pad2 d.
Proof. reflexivity. Qed.

Lemma getters_UTC y m d :
  100 <= y -> 0 <= m <= 11 -> 1 <= d <= daysInMonth y m ->
  getUTCFullYear (UTC y m d) = y /\
  getUTCMonth (UTC y m d) = m /\
  getUTCDate (UTC y m d) = d.
Proof.
  intros Hy Hm Hd.
  rewrite getUTCFullYear_eq, getUTCMonth_eq, getUTCDate_eq.
  rewrite UTC_modern, Day_times by lia.
  apply day_of_civil; assumption.
Qed.

(** The month rule on calendar dates: the code computes the day before
    the clamped date one month later. *)
Lemma month_end_civil y m d :
  100 <= y -> 1 <= m <= 12 -> 1 <= d <= monthLength y m ->
  formatDateUTC (addDaysUTC (addMonthsUTC (Some (UTC y (m - 1) d)) 1) (-1))
  = formatCivil (dayBefore (plusOneMonthClamped (y, m, d))).
Proof.
  intros Hy Hm Hd. unfold monthLength in Hd.
  destruct (getters_UTC y (m - 1) d Hy ltac:(lia) Hd) as (Gy & Gm & Gd).
  rewrite addMonthsUTC_eq, Gy, Gm, Gd.
  set (ty := y + (m - 1 + 1) / 12).
  set (tm := Z.rem (Z.rem (m - 1 + 1) 12 + 12) 12).
  assert (Hty : ty = if m =? 12 then y + 1 else y).
  { unfold ty. destruct (m =? 12) eqn:E;
      [ apply Z.eqb_eq in E | apply Z.eqb_neq in E ];
      Z.to_euclidean_division_equations; lia. }
  assert (Htm : tm = if m =? 12 then 0 else m).
  { unfold tm. destruct (m =? 12) eqn:E;
      [ apply Z.eqb_eq in E | apply Z.eqb_neq in E ];
      Z.to_euclidean_division_equations; lia. }
  assert (Rtm : 0 <= tm <= 11) by (rewrite Htm; destruct (m =? 12) eqn:E;
      [ | apply Z.eqb_neq in E ]; lia).
  assert (Rty : 100 <= ty) by (rewrite Hty; destruct (m =? 12); lia).
  rewrite (getUTCDate_eq (UTC ty (tm + 1) 0)), (UTC_modern ty (tm + 1) 0),
    Day_times by lia.
  rewrite lastDay_of_month by assumption.
  pose proof (daysInMonth_range ty tm Rtm) as Rl.
  set (day := Z.min d (daysInMonth ty tm)).
  assert (Rday : 1 <= day <= daysInMonth ty tm) by (unfold day; lia).
  rewrite addDaysUTC_eq, UTC_modern by lia.
  replace (msPerDay * MakeDay ty tm day + -1 * 24 * 60 * 60 * 1000)
    with (msPerDay * (MakeDay ty tm day - 1)) by (unfold msPerDay; lia).
  rewrite formatDateUTC_eq, getUTCFullYear_eq, getUTCMonth_eq, getUTCDate_eq.
  rewrite Day_times.
  pose proof (civil_dayBefore ty tm day Rtm Rday) as B. cbv zeta in B.
  assert (P : plusOneMonthClamped (y, m, d) = (ty, tm + 1, day)).
  { unfold plusOneMonthClamped, monthLength, day. rewrite Hty, Htm.
    destruct (m =? 12); [ reflexivity | ].
    replace (m + 1 - 1) with m by lia. reflexivity. }
  rewrite P, <- B. symmetry. apply formatCivil_eq.
Qed.

(** For a start on the first of a month the rule gives the last day of
    that month. *)
Lemma month_end_from_first y m :
  1 <= m <= 12 ->
  dayBefore (plusOneMonthClamped (y, m, 1)) = (y, m, monthLength y m).
Proof.
  intros Hm. unfold plusOneMonthClamped, dayBefore, monthLength.
  destruct (m =? 12) eqn:E; [ apply Z.eqb_eq in E | apply Z.eqb_neq in E ].
  - subst m.
    pose proof (daysInMonth_range (y + 1) (1 - 1) ltac:(lia)) as R.
    replace (Z.min 1 (daysInMonth (y + 1) (1 - 1))) with 1 by lia.
    change (1 <? 1) with false. cbv iota.
    replace (y + 1 - 1) with y by lia.
    assert (L : daysInMonth y (12 - 1) = 31).
    { unfold daysInMonth. change (12 - 1 + 1) with 12. change (12 - 1) with 11.
      cbn [monthStart]. lia. }
    rewrite L. reflexivity.
  - pose proof (daysInMonth_range y (m + 1 - 1) ltac:(lia)) as R.
    replace (Z.min 1 (daysInMonth y (m + 1 - 1))) with 1 by lia.
    change (1 <? 1) with false. cbv iota.
    replace (1 <? m + 1) with true by (symmetry; apply Z.ltb_lt; lia).
    replace (m + 1 - 1) with m by lia. reflexivity.
Qed.

Lemma calcAutoPeriodEnd_month s :
  calcAutoPeriodEnd "month" s =
  Some (formatDateUTC (addDaysUTC (addMonthsUTC (parseDateUTC s) 1) (-1))).
Proof. reflexivity. Qed.

Lemma parseDateUTC_eq s y m d :
  splitYMD s = Some (y, m, d) -> parseDateUTC s = Some (UTC y (m - 1) d).
Proof. intros E. unfold parseDateUTC. rewrite E. reflexivity. Qed.

(** C1 (as amended). For every valid ISO start date and period type
    [month], the computed end date is the calendar day before the date
    reached by adding one month to the start with the day of the month
    clamped to the length of the target month; for the start 2025-01-31 this
    is 2025-02-27 (one month later, clamped, is 2025-02-28). *)
Theorem month_period_end_is_day_before_clamped_next_month
  (s : string) (y m d : Z)
  (Hvalid : isValidISODate s = true)
  (Hparts : splitYMD s = Some (y, m, d)) :
  calcAutoPeriodEnd "month" s
  = Some (formatCivil (dayBefore (plusOneMonthClamped (y, m, d))))
  /\ plusOneMonthClamped (2025, 1, 31) = (2025, 2, 28)
  /\ calcAutoPeriodEnd "month" "2025-01-31" = Some "2025-02-27".
Proof.
  split; [ | split; vm_compute; reflexivity ].
  destruct (isValidISODate_inv s Hvalid) as (y' & m' & d' & E & Ry & Rm & Rd).
  rewrite Hparts in E. injection E as <- <- <-.
  rewrite calcAutoPeriodEnd_month, (parseDateUTC_eq s y m d Hparts).
  f_equal. apply month_end_civil; [ lia | lia | exact Rd ].
Qed.

Lemma month_period_end_witness :
  calcAutoPeriodEnd "month" "2025-12-01"
  = Some (formatCivil (dayBefore (plusOneMonthClamped (2025, 12, 1))))
  /\ plusOneMonthClamped (2025, 1, 31) = (2025, 2, 28)
  /\ calcAutoPeriodEnd "month" "2025-01-31" = Some "2025-02-27".
Proof.
  apply (month_period_end_is_day_before_clamped_next_month
           "2025-12-01" 2025 12 1); vm_compute; reflexivity.
Defined.

(** C1 as stated fails on its own example: the start 2025-01-31 with period
    type [month] does not give the end 2025-02-28. *)
Lemma month_period_end_jan31_not_feb28 :
  isValidISODate "2025-01-31" = true /\
  calcAutoPeriodEnd "month" "2025-01-31" <> Some "2025-02-28".
Proof. split; [ vm_compute; reflexivity | vm_compute; discriminate ]. Qed.

End PeriodFacts.

(** ** Rounding to a fixed number of digits *)

Section NumberFacts.

Import JSNumber.

(** For a value [m * 2^e] with [e >= 0] nothing is rounded. *)
Lemma roundScaled_exact m e k :
  0 <= e -> roundScaled m e k = Zpos m * 10 ^ Z.of_nat k * 2 ^ e.
Proof.
  intros H. unfold roundScaled.
  replace (0 <=? e) with true by (symmetry; apply Z.leb_le; exact H).
  reflexivity.
Qed.

(** Otherwise [roundScaled m e k] is the integer [n] nearest to
    [p / d] with [p = m * 10^k] and [d = 2^(-e)], the larger one on a tie:
    [n - 1/2 <= p / d < n + 1/2]. *)
Lemma roundScaled_nearest m e k :
  e < 0 ->
  let n := roundScaled m e k in
  let p := Zpos m * 10 ^ Z.of_nat k in
  let d := 2 ^ (- e) in
  2 * n * d - d <= 2 * p < 2 * n * d + d.
Proof.
  intros H. cbv zeta. unfold roundScaled.
  replace (0 <=? e) with false by (symmetry; apply Z.leb_gt; exact H).
  assert (Hd : 0 < 2 ^ (- e)) by (apply Z.pow_pos_nonneg; lia).
  generalize dependent (2 ^ (- e)). intros d Hd.
  generalize (Zpos m * 10 ^ Z.of_nat k). intros p.
  pose proof (Z.div_mod (2 * p + d) (2 * d) ltac:(lia)) as E.
  pose proof (Z.mod_pos_bound (2 * p + d) (2 * d) ltac:(lia)) as B.
  nia.
Qed.

End NumberFacts.

(** ** Tariffs *)

Section TariffFacts.

Import JS Tariffs TariffProps.

Lemma findOne_some rows i u row :
  findOne rows i u = Some row ->
  In row rows /\ id row = i /\ user_id row = u.
Proof.
  unfold findOne. intros H. apply find_some in H. destruct H as [Hin H].
  apply andb_prop in H. destruct H as [H1 H2].
  apply Z.eqb_eq in H1, H2. auto.
Qed.

Lemma in_deactivateOthers u k rows x :
  In x (deactivateOthers u k rows) ->
  exists t, In t rows /\ id x = id t /\ user_id x = user_id t /\
    ((user_id t = u /\ id t <> k /\ is_active x = false) \/
     ((user_id t <> u \/ id t = k) /\ x = t)).
Proof.
  unfold deactivateOthers. intros H. apply in_map_iff in H.
  destruct H as (t & E & Hin). exists t. split; [ exact Hin | ].
  destruct (user_id t =? u) eqn:Eu; cbn [andb] in E.
  - destruct (id t =? k) eqn:Ek; cbn [negb] in E; subst x.
    + apply Z.eqb_eq in Ek. intuition auto.
    + apply Z.eqb_eq in Eu. apply Z.eqb_neq in Ek. cbn. intuition auto.
  - subst x. apply Z.eqb_neq in Eu. intuition auto.
Qed.

Lemma in_updateRow r rows x :
  In x (updateRow r rows) -> x = r \/ (In x rows /\ id x <> id r).
Proof.
  unfold updateRow. intros H. apply in_map_iff in H.
  destruct H as (t & E & Hin).
  destruct (id t =? id r) eqn:Ei; subst x.
  - left. reflexivity.
  - right. apply Z.eqb_neq in Ei. auto.
Qed.

(** Activating [r] after deactivating the caller's other tariffs leaves at
    most one active tariff per user. *)
Lemma activation_keeps_one_active rows u r :
  AtMostOneActive rows -> user_id r = u ->
  AtMostOneActive (updateRow r (deactivateOthers u (id r) rows)).
Proof.
  intros Inv Hu a b Ha Hb Hab Aa Ab.
  apply in_updateRow in Ha, Hb.
  assert (Hcase : forall x,
             x = r \/ (In x (deactivateOthers u (id r) rows) /\ id x <> id r) ->
             is_active x = true ->
             x = r \/ (In x rows /\ user_id x <> u)).
  { intros x [-> | [Hin Hne]] Ax; [ now left | right ].
    apply in_deactivateOthers in Hin.
    destruct Hin as (t & Hin & Ei & Eu & [(_ & _ & F) | ([N | N] & ->)]).
    - congruence.
    - auto.
    - congruence. }
  destruct (Hcase a Ha Aa) as [-> | [Ia Ua]];
    destruct (Hcase b Hb Ab) as [-> | [Ib Ub]].
  - reflexivity.
  - congruence.
  - congruence.
  - apply Inv; assumption.
Qed.

Lemma nextId_fresh rows t : In t rows -> id t < nextId rows.
Proof.
  unfold nextId. induction rows as [ | h r IH]; intros H; [ destruct H | ].
  cbn [map fold_right]. destruct H as [-> | H]; [ | specialize (IH H) ]; lia.
Qed.

(** The outcomes of [POST /api/tariffs]: nothing is written and the answer
    is 400 or 500, or the two dates are kept and the tariff is added, the
    caller's other tariffs being deactivated when it is active. *)
Lemma post_cases other rows req :
  (snd (post other rows req) = rows /\
   (status (fst (post other rows req)) = 400 \/
    status (fst (post other rows req)) = 500)) \/
  exists from to,
    Sequelize.dateValue other false (b_valid_from req) = Some from /\
    Sequelize.dateValue other true (or (b_valid_to req) JNull) = Some to /\
    post other rows req
    = (mkResponse 201
         (Row (mkTariff (nextId rows) (user req) (b_tariff_name req)
                 (b_price_per_kwh req) from to
                 (negb (isFalse (b_is_active req))))),
       if negb (isFalse (b_is_active req))
       then deactivateOthers (user req) (nextId rows)
              (rows ++
               [mkTariff (nextId rows) (user req) (b_tariff_name req)
                  (b_price_per_kwh req) from to
                  (negb (isFalse (b_is_active req)))])
       else (rows ++
             [mkTariff (nextId rows) (user req) (b_tariff_name req)
                (b_price_per_kwh req) from to
                (negb (isFalse (b_is_active req)))])%list).
Proof.
  unfold post.
  destruct (negb (ToBoolean (b_tariff_name req))
            || isNullish (b_price_per_kwh req)
            || negb (ToBoolean (b_valid_from req)));
    [ left; split; [ reflexivity | left; reflexivity ] | ].
  destruct (ToBoolean (b_valid_to req)
            && isAfter (b_valid_from req) (b_valid_to req));
    [ left; split; [ reflexivity | left; reflexivity ] | ].
  cbv zeta.
  destruct (negb (isFalse (b_is_active req)) &&
            negb (ok (assertCanBeActiveNow (today req) (b_valid_from req)
                        (or (b_valid_to req) JNull))));
    [ left; split; [ reflexivity | left; reflexivity ] | ].
  destruct (Sequelize.dateValue other false (b_valid_from req))
    as [from | ]; [ | left; split; [ reflexivity | right; reflexivity ] ].
  destruct (Sequelize.dateValue other true (or (b_valid_to req) JNull))
    as [to | ]; [ | left; split; [ reflexivity | right; reflexivity ] ].
  right. exists from, to. repeat split.
Qed.

(** The outcomes of [PATCH /api/tariffs/:id]. *)
Lemma patch_cases other rows req :
  (snd (patch other rows req) = rows /\
   status (fst (patch other rows req)) <> 200) \/
  exists row updated,
    findOne rows (param_id req) (user req) = Some row /\
    id updated = id row /\ user_id updated = user_id row /\
    is_active updated
    = (if isUndefined (b_is_active req) then is_active row
       else ToBoolean (b_is_active req)) /\
    patch other rows req
    = (mkResponse 200 (Row updated),
       updateRow updated
         (if isTrue (b_is_active req)
          then deactivateOthers (user req) (id row) rows else rows)).
Proof.
  unfold patch.
  destruct (findOne rows (param_id req) (user req)) as [row | ] eqn:F;
    [ | left; split; [ reflexivity | discriminate ] ].
  cbv zeta.
  match goal with
  | |- context [if ?c then (mkResponse 400 (Message "valid_from cannot be after valid_to"), rows) else _] =>
      destruct c; [ left; split; [ reflexivity | discriminate ] | ]
  end.
  match goal with
  | |- context [if ?c then (mkResponse 400 _, rows) else _] =>
      destruct c; [ left; split; [ reflexivity | discriminate ] | ]
  end.
  match goal with
  | |- context [match ?c with Some _ => _ | None => _ end] =>
      destruct c as [from | ];
      [ | left; split; [ reflexivity | discriminate ] ]
  end.
  match goal with
  | |- context [match ?c with Some _ => _ | None => _ end] =>
      destruct c as [to | ];
      [ | left; split; [ reflexivity | discriminate ] ]
  end.
  right.
  match goal with
  | |- context [Row ?u] => exists row, u
  end.
  repeat split.
Qed.

Lemma post_keeps_one_active other rows req :
  AtMostOneActive rows -> AtMostOneActive (snd (post other rows req)).
Proof.
  intros Inv.
  destruct (post_cases other rows req)
    as [[-> _] | (from & to & _ & _ & ->)]; [ exact Inv | ].
  cbn [snd]. set (newRow := mkTariff _ _ _ _ _ _ _).
  destruct (negb (isFalse (b_is_active req))) eqn:M.
  - intros a b Ha Hb Hab Aa Ab.
    assert (Hcase : forall x,
               In x (deactivateOthers (user req) (nextId rows)
                       (rows ++ [newRow])) ->
               is_active x = true ->
               id x = nextId rows \/ (In x rows /\ user_id x <> user req)).
    { intros x Hin Ax. apply in_deactivateOthers in Hin.
      destruct Hin as (t & Hin & Ei & Eu & [(_ & _ & F) | ([N | N] & ->)]).
      - congruence.
      - apply in_app_or in Hin. destruct Hin as [Hin | [<- | []]].
        + right. auto.
        + left. reflexivity.
      - left. exact N. }
    destruct (Hcase a Ha Aa) as [Ea | [Ia Ua]];
      destruct (Hcase b Hb Ab) as [Eb | [Ib Ub]].
    + congruence.
    + apply in_deactivateOthers in Ha.
      destruct Ha as (t & Hin & Ei & Eu & [(_ & _ & F) | (_ & ->)]);
        [ congruence | ].
      apply in_app_or in Hin. destruct Hin as [Hin | [<- | []]].
      * pose proof (nextId_fresh rows t Hin). lia.
      * cbn in Hab. congruence.
    + apply in_deactivateOthers in Hb.
      destruct Hb as (t & Hin & Ei & Eu & [(_ & _ & F) | (_ & ->)]);
        [ congruence | ].
      apply in_app_or in Hin. destruct Hin as [Hin | [<- | []]].
      * pose proof (nextId_fresh rows t Hin). lia.
      * cbn in Hab. congruence.
    + apply Inv; assumption.
  - intros a b Ha Hb Hab Aa Ab.
    apply in_app_or in Ha, Hb.
    destruct Ha as [Ha | [<- | []]]; [ | discriminate Aa ].
    destruct Hb as [Hb | [<- | []]]; [ | discriminate Ab ].
    apply Inv; assumption.
Qed.

Lemma activate_keeps_one_active rows req :
  AtMostOneActive rows -> AtMostOneActive (snd (activate rows req)).
Proof.
  intros Inv. unfold activate.
  destruct (findOne rows (param_id req) (user req)) as [row | ] eqn:F;
    [ | exact Inv ].
  apply findOne_some in F. destruct F as (Hin & Hid & Hu).
  destruct (is_active row); [ exact Inv | ].
  destruct (negb (ok (assertCanBeActiveNow (today req) (valid_from row)
                        (valid_to row)))); [ exact Inv | ].
  cbn [snd].
  apply (activation_keeps_one_active rows (user req) (setActive row true) Inv).
  exact Hu.
Qed.

(** [PATCH] keeps the invariant when [is_active] is absent or a boolean. *)
Lemma patch_boolean_keeps_one_active other rows req :
  (b_is_active req = JUndefined \/ exists b, b_is_active req = JBool b) ->
  AtMostOneActive rows -> AtMostOneActive (snd (patch other rows req)).
Proof.
  intros Hb Inv.
  destruct (patch_cases other rows req)
    as [[-> _] | (row & updated & F & Eid & Eur & Ea & ->)]; [ exact Inv | ].
  apply findOne_some in F. destruct F as (Hin & Hid & Hu).
  cbn [snd].
  assert (Eu : user_id updated = user req) by congruence.
  assert (Hact : isTrue (b_is_active req) = false ->
                 is_active updated = true -> is_active row = true).
  { rewrite Ea. destruct Hb as [-> | [[] ->]]; cbn; congruence. }
  destruct (isTrue (b_is_active req)).
  - rewrite <- Eid.
    apply (activation_keeps_one_active rows (user req) updated Inv Eu).
  - specialize (Hact eq_refl).
    intros a b Ha Hb' Hab Aa Ab.
    apply in_updateRow in Ha, Hb'.
    destruct Ha as [-> | [Ia Na]]; destruct Hb' as [-> | [Ib Nb]].
    + reflexivity.
    + exfalso. apply Nb. rewrite Eid. symmetry.
      apply Inv; try assumption; try congruence. auto.
    + exfalso. apply Na. rewrite Eid. symmetry.
      apply Inv; try assumption; try congruence. auto.
    + apply Inv; assumption.
Qed.

Lemma activate_found_active rows req row :
  findOne rows (param_id req) (user req) = Some row ->
  is_active row = true ->
  activate rows req = (mkResponse 200 (Row row), rows).
Proof.
  intros Hfound Hactive. unfold activate. rewrite Hfound, Hactive.
  reflexivity.
Qed.

(** C8. Activating a tariff that is already active succeeds, returns that
    tariff as it is and writes nothing: the table, and with it every other
    tariff of the user, is unchanged. *)
Theorem activate_active_tariff_is_noop
  (rows : list Tariff) (req : Request) (row : Tariff)
  (Hfound : findOne rows (param_id req) (user req) = Some row)
  (Hactive : is_active row = true) :
  activate rows req = (mkResponse 200 (Row row), rows) /\
  (forall u, activeOf u (snd (activate rows req)) = activeOf u rows).
Proof.
  rewrite (activate_found_active rows req row Hfound Hactive).
  split; reflexivity.
Qed.

Lemma activate_active_tariff_is_noop_witness :
  activate twoTariffs (mkRequest 7 "2025-06-01" 1 JUndefined JUndefined
                         JUndefined JUndefined JUndefined)
  = (mkResponse 200
       (Row (mkTariff 1 7 (JStr "day") (JStr "4.3200") (JStr "2025-01-01")
               JNull true)),
     twoTariffs).
Proof.
  apply (proj1 (activate_active_tariff_is_noop twoTariffs
                  (mkRequest 7 "2025-06-01" 1 JUndefined JUndefined
                     JUndefined JUndefined JUndefined)
                  (mkTariff 1 7 (JStr "day") (JStr "4.3200")
                     (JStr "2025-01-01") JNull true)
                  ltac:(reflexivity) ltac:(reflexivity))).
Defined.

Lemma find_after_activation rows row i u :
  In row rows -> id row = i -> user_id row = u ->
  findOne (updateRow (setActive row true) (deactivateOthers u (id row) rows))
          i u
  = Some (setActive row true).
Proof.
  intros Hin <- <-. unfold findOne.
  induction rows as [ | h r IH]; [ destruct Hin | ].
  cbn [deactivateOthers updateRow map].
  change (id (setActive row true)) with (id row).
  set (h1 := if (user_id h =? user_id row) && negb (id h =? id row)
             then setActive h false else h).
  assert (Eh : id h1 = id h)
    by (unfold h1;
        destruct ((user_id h =? user_id row) && negb (id h =? id row));
        reflexivity).
  rewrite Eh.
  destruct (id h =? id row) eqn:Ei; cbn [find].
  - change (id (setActive row true)) with (id row).
    change (user_id (setActive row true)) with (user_id row).
    rewrite !Z.eqb_refl. reflexivity.
  - rewrite Eh, Ei. cbn [andb].
    apply Z.eqb_neq in Ei.
    destruct Hin as [-> | Hin]; [ congruence | ].
    apply IH. exact Hin.
Qed.

(** A second activation after a successful one changes nothing either. *)
Lemma activate_twice rows req resp rows' :
  activate rows req = (resp, rows') -> status resp = 200 ->
  activate rows' req = (resp, rows').
Proof.
  unfold activate at 1.
  destruct (findOne rows (param_id req) (user req)) as [row | ] eqn:F.
  2: { intros E S. injection E as <- <-. discriminate S. }
  destruct (is_active row) eqn:A.
  { intros E _. injection E as <- <-.
    apply activate_found_active; assumption. }
  destruct (negb (ok (assertCanBeActiveNow (today req) (valid_from row)
                        (valid_to row)))).
  { intros E S. injection E as <- <-. discriminate S. }
  intros E _. injection E as <- <-.
  apply findOne_some in F. destruct F as (Hin & Hi & Hu).
  apply activate_found_active; [ | reflexivity ].
  apply find_after_activation; assumption.
Qed.

(** C3 at the failing input.  The caller has tariff 1 active and tariff 2
    inactive, each valid today; [PATCH /api/tariffs/2] with the body
    [{ "is_active": 1 }] answers 200 and leaves both tariffs active. *)
Theorem patch_truthy_is_active_leaves_two_active
  (other : Sequelize.Dateonly) :
  AtMostOneActive twoTariffs /\
  status (fst (patch other twoTariffs patchIsActiveOne)) = 200 /\
  map (fun t => (id t, user_id t, is_active t))
      (snd (patch other twoTariffs patchIsActiveOne))
  = [(1, 7, true); (2, 7, true)] /\
  ~ AtMostOneActive (snd (patch other twoTariffs patchIsActiveOne)).
Proof.
  assert (E : patch other twoTariffs patchIsActiveOne
              = (mkResponse 200
                   (Row (mkTariff 2 7 (JStr "night") (JStr "2.1000")
                           (JStr "2025-01-01") JNull true)),
                 [mkTariff 1 7 (JStr "day") (JStr "4.3200")
                    (JStr "2025-01-01") JNull true;
                  mkTariff 2 7 (JStr "night") (JStr "2.1000")
                    (JStr "2025-01-01") JNull true]))
    by (vm_compute; reflexivity).
  rewrite E. cbn [fst snd status map id user_id is_active].
  split; [ | split; [ reflexivity | split; [ reflexivity | ] ] ].
  - intros a b Ha Hb _ Aa Ab.
    destruct Ha as [<- | [<- | []]]; [ | discriminate Aa ].
    destruct Hb as [<- | [<- | []]]; [ | discriminate Ab ].
    reflexivity.
  - intros Inv.
    specialize (Inv _ _ (or_introl eq_refl) (or_intror (or_introl eq_refl))
                    eq_refl eq_refl eq_refl).
    discriminate Inv.
Qed.

End TariffFacts.

(** ** Limits *)

Section LimitFacts.

Import JS JSNumber Period Limits LimitProps.

Lemma NoDup_snoc (A : Type) (l : list A) (x : A) :
  NoDup l -> ~ In x l -> NoDup (l ++ [x]).
Proof.
  induction l as [ | h t IH]; intros Hl Hx.
  - constructor; [ intros [] | constructor ].
  - inversion Hl as [ | ? ? Hh Ht]; subst. cbn [app]. constructor.
    + intros Hin. apply in_app_or in Hin. destruct Hin as [Hin | [-> | []]].
      * contradiction.
      * apply Hx. now left.
    + apply IH; [ exact Ht | ]. intros Hin. apply Hx. now right.
Qed.

Lemma intersect_sym a b : intersect a b = intersect b a.
Proof.
  unfold intersect, overlaps, JSString.le, JSString.ge. apply andb_comm.
Qed.

Lemma limit_findOne_some rows i u row :
  findOne rows i u = Some row ->
  In row rows /\ id row = i /\ user_id row = u.
Proof.
  unfold findOne. intros H. apply find_some in H. destruct H as [Hin H].
  apply andb_prop in H. destruct H as [H1 H2].
  apply Z.eqb_eq in H1, H2. auto.
Qed.

Lemma limit_nextId_fresh rows l : In l rows -> id l < nextId rows.
Proof.
  unfold nextId. induction rows as [ | h r IH]; intros H; [ destruct H | ].
  cbn [map fold_right]. destruct H as [-> | H]; [ | specialize (IH H) ]; lia.
Qed.

Lemma map_id_updateRow r rows : map id (updateRow r rows) = map id rows.
Proof.
  unfold updateRow. induction rows as [ | h t IH]; [ reflexivity | ].
  cbn [map]. rewrite IH. f_equal.
  destruct (id h =? id r) eqn:E; [ | reflexivity ].
  apply Z.eqb_eq in E. congruence.
Qed.

Lemma limit_in_updateRow r rows x :
  In x (updateRow r rows) -> x = r \/ (In x rows /\ id x <> id r).
Proof.
  unfold updateRow. intros H. apply in_map_iff in H.
  destruct H as (t & E & Hin).
  destruct (id t =? id r) eqn:Ei; subst x.
  - left. reflexivity.
  - right. apply Z.eqb_neq in Ei. auto.
Qed.

(** What [findOverlappingLimit] finds, and what it means to find nothing. *)
Lemma findOverlapping_some rows u type start end_ ex o :
  findOverlappingLimit rows u type start end_ ex = Some o ->
  In o rows /\ user_id o = u /\ period_type o = type /\
  overlaps o start end_ = true /\
  match ex with Some x => id o <> x | None => True end.
Proof.
  unfold findOverlappingLimit. intros H. apply find_some in H.
  destruct H as [Hin H].
  apply andb_prop in H. destruct H as [H Hx].
  apply andb_prop in H. destruct H as [H Ho].
  apply andb_prop in H. destruct H as [Hu Ht].
  apply Z.eqb_eq in Hu. apply String.eqb_eq in Ht.
  repeat split; try assumption.
  destruct ex as [x | ]; [ | exact I ].
  apply negb_true_iff, Z.eqb_neq in Hx. exact Hx.
Qed.

Lemma findOverlapping_none rows u type start end_ ex l :
  findOverlappingLimit rows u type start end_ ex = None ->
  In l rows -> user_id l = u -> period_type l = type ->
  match ex with Some x => id l <> x | None => True end ->
  overlaps l start end_ = false.
Proof.
  unfold findOverlappingLimit. intros H Hin Hu Ht Hx.
  pose proof (find_none _ _ H l Hin) as N. cbv beta in N.
  rewrite Hu, Ht, Z.eqb_refl, String.eqb_refl in N. cbn [andb] in N.
  destruct (overlaps l start end_); [ | reflexivity ].
  cbn [andb] in N. destruct ex as [x | ]; [ | discriminate N ].
  apply negb_false_iff, Z.eqb_eq in N. contradiction.
Qed.

Lemma single_row_disjoint l : Disjoint [l].
Proof.
  split.
  - constructor; [ intros [] | constructor ].
  - intros a b [<- | []] [<- | []] H. congruence.
Qed.

(** *** Supplied period ends *)

Lemma calcAutoPeriodEnd_some type start e :
  calcAutoPeriodEnd type start = Some e ->
  String.eqb type "custom" = false /\ isPeriodType type = true.
Proof.
  unfold calcAutoPeriodEnd.
  destruct (String.eqb type "week") eqn:W.
  { apply String.eqb_eq in W. subst. intros _. now split. }
  destruct (String.eqb type "month") eqn:M.
  { apply String.eqb_eq in M. subst. intros _. now split. }
  destruct (String.eqb type "year") eqn:Y.
  { apply String.eqb_eq in Y. subst. intros _. now split. }
  discriminate.
Qed.

(** With a computed end and a supplied one, [resolvePeriodEndOrFail] only
    compares the two. *)
Lemma resolve_supplied type start endFromBody endFromDb autoEnd :
  calcAutoPeriodEnd type start = Some autoEnd ->
  endFromBody <> JUndefined ->
  resolvePeriodEndOrFail type start endFromBody endFromDb
  = let provided := ToString (or endFromBody (JStr "")) in
    if negb (isValidISODate provided) then
      inl (mkResponse 400 (Message "period_end must be YYYY-MM-DD"))
    else if negb (String.eqb provided autoEnd) then
      inl (mkResponse 400
             (EndMismatch (mismatchMessage type autoEnd) autoEnd))
    else inr autoEnd.
Proof.
  intros Hauto Hs. unfold resolvePeriodEndOrFail.
  destruct (calcAutoPeriodEnd_some type start autoEnd Hauto) as [C _].
  rewrite C, Hauto.
  assert (U : isUndefined endFromBody = false)
    by (destruct endFromBody; try reflexivity; congruence).
  rewrite U. reflexivity.
Qed.

Lemma resolve_inl_400 type start endFromBody endFromDb sent :
  resolvePeriodEndOrFail type start endFromBody endFromDb = inl sent ->
  status sent = 400.
Proof.
  unfold resolvePeriodEndOrFail.
  repeat match goal with
         | |- context [if ?c then _ else _] => destruct c
         | |- context [match ?c with Some _ => _ | None => _ end] => destruct c
         end;
    intros E; inversion E; reflexivity.
Qed.

Ltac break_check :=
  match goal with
  | |- context [match ?c with inl _ => _ | inr _ => _ end] =>
      destruct c eqn:?
  | |- context [match ?c with Some _ => _ | None => _ end] =>
      destruct c eqn:?
  | |- context [if ?c then _ else _] => destruct c eqn:?
  end.

Lemma checkPost_inl_400 req sent :
  checkPost req = inl sent -> status sent = 400.
Proof.
  unfold checkPost.
  destruct (negb (isPeriodType (ToString (or (b_period_type req) (JStr "")))));
    [ intros E; inversion E; reflexivity | ].
  destruct (negb (isValidISODate
                    (ToString (or (b_period_start req) (JStr "")))));
    [ intros E; inversion E; reflexivity | ].
  destruct (resolvePeriodEndOrFail _ _ _ _) as [s | e] eqn:R.
  { intros E. inversion E; subst. eapply resolve_inl_400; eassumption. }
  repeat break_check; intros E; inversion E; reflexivity.
Qed.

Lemma checkPatch_inl_400 row req sent :
  checkPatch row req = inl sent -> status sent = 400.
Proof.
  unfold checkPatch.
  match goal with
  | |- context [if negb (isPeriodType ?t) then _ else _] =>
      destruct (negb (isPeriodType t));
      [ intros E; inversion E; reflexivity | ]
  end.
  match goal with
  | |- context [if negb (isValidISODate ?t) then _ else _] =>
      destruct (negb (isValidISODate t));
      [ intros E; inversion E; reflexivity | ]
  end.
  destruct (resolvePeriodEndOrFail _ _ _ _) as [s | e] eqn:R.
  { intros E. inversion E; subst. eapply resolve_inl_400; eassumption. }
  repeat break_check; intros E; inversion E; reflexivity.
Qed.

(** A valid date is written to a [DATEONLY] attribute as it is. *)
Lemma dateText_valid other s :
  isValidISODate s = true -> Sequelize.dateText other s = Some s.
Proof. intros V. unfold Sequelize.dateText. rewrite V. reflexivity. Qed.

(** The outcomes of [POST /api/limits]: nothing is written, or the checks
    have passed, the start and the end have been taken as dates, no limit
    of the caller and type overlaps them, and the row is added. *)
Lemma post_outcome other rows req :
  snd (post other rows req) = rows /\ status (fst (post other rows req)) <> 201
  \/
  exists c start end_,
    checkPost req = inr c /\
    Sequelize.dateText other (c_start c) = Some start /\
    Sequelize.dateText other (c_end c) = Some end_ /\
    findOverlappingLimit rows (user req) (c_type c) start end_ None = None /\
    post other rows req
    = (mkResponse 201
         (Row (mkLimit (nextId rows) (user req) (c_limit c) (c_type c)
                 start end_ (c_alert_enabled c) (truncate (c_threshold c)))),
       (rows ++
        [mkLimit (nextId rows) (user req) (c_limit c) (c_type c)
           start end_ (c_alert_enabled c) (truncate (c_threshold c))])%list).
Proof.
  unfold post.
  destruct (checkPost req) as [sent | c] eqn:C.
  { left. split; [ reflexivity | ].
    cbn [fst]. rewrite (checkPost_inl_400 req sent C). discriminate. }
  destruct (Sequelize.dateText other (c_start c)) as [start | ] eqn:S;
    [ | left; split; [ reflexivity | discriminate ] ].
  destruct (Sequelize.dateText other (c_end c)) as [end_ | ] eqn:E;
    [ | left; split; [ reflexivity | discriminate ] ].
  destruct (findOverlappingLimit rows (user req) (c_type c) start end_ None)
    as [o | ] eqn:F; [ left; split; [ reflexivity | discriminate ] | ].
  right. exists c, start, end_. repeat split; try assumption; reflexivity.
Qed.

Lemma patch_outcome other rows req :
  snd (patch other rows req) = rows /\
  status (fst (patch other rows req)) <> 200
  \/
  exists row c start end_,
    findOne rows (param_id req) (user req) = Some row /\
    checkPatch row req = inr c /\
    Sequelize.dateText other (c_start c) = Some start /\
    Sequelize.dateText other (c_end c) = Some end_ /\
    findOverlappingLimit rows (user req) (c_type c) start end_
      (Some (param_id req)) = None /\
    patch other rows req
    = (mkResponse 200
         (Row (mkLimit (id row) (user_id row) (c_limit c) (c_type c)
                 start end_ (c_alert_enabled c) (truncate (c_threshold c)))),
       updateRow
         (mkLimit (id row) (user_id row) (c_limit c) (c_type c)
            start end_ (c_alert_enabled c) (truncate (c_threshold c)))
         rows).
Proof.
  unfold patch.
  destruct (findOne rows (param_id req) (user req)) as [row | ] eqn:Fr;
    [ | left; split; [ reflexivity | discriminate ] ].
  destruct (checkPatch row req) as [sent | c] eqn:C.
  { left. split; [ reflexivity | ].
    cbn [fst]. rewrite (checkPatch_inl_400 row req sent C). discriminate. }
  destruct (Sequelize.dateText other (c_start c)) as [start | ] eqn:S;
    [ | left; split; [ reflexivity | discriminate ] ].
  destruct (Sequelize.dateText other (c_end c)) as [end_ | ] eqn:E;
    [ | left; split; [ reflexivity | discriminate ] ].
  destruct (findOverlappingLimit rows (user req) (c_type c) start end_
              (Some (param_id req))) as [o | ] eqn:F;
    [ left; split; [ reflexivity | discriminate ] | ].
  right. exists row, c, start, end_.
  repeat split; try assumption; reflexivity.
Qed.

Lemma post_keeps_disjoint other rows req :
  Disjoint rows -> Disjoint (snd (post other rows req)).
Proof.
  intros [Hkey Inv].
  destruct (post_outcome other rows req)
    as [[-> _] | (c & start & end_ & _ & _ & _ & F & ->)]; [ now split | ].
  cbn [snd]. set (created := mkLimit _ _ _ _ _ _ _ _).
  assert (Hnone : forall l, In l rows -> user_id l = user_id created ->
                    period_type l = period_type created ->
                    intersect l created = false).
  { intros l Hin Hu Ht. unfold intersect.
    apply (findOverlapping_none rows (user req) (c_type c) _ _ None l F);
      auto. }
  split.
  - rewrite map_app. cbn [map]. apply NoDup_snoc.
    + exact Hkey.
    + intros Hin. apply in_map_iff in Hin. destruct Hin as (l & E & Hin).
      pose proof (limit_nextId_fresh rows l Hin). cbn [id created] in E.
      change (id created) with (nextId rows) in E. lia.
  - intros a b Ha Hb Hne Hu Ht.
    apply in_app_or in Ha, Hb.
    destruct Ha as [Ha | [<- | []]]; destruct Hb as [Hb | [<- | []]].
    + apply Inv; assumption.
    + apply Hnone; assumption.
    + rewrite intersect_sym. apply Hnone; auto.
    + congruence.
Qed.

Lemma patch_keeps_disjoint other rows req :
  Disjoint rows -> Disjoint (snd (patch other rows req)).
Proof.
  intros [Hkey Inv].
  destruct (patch_outcome other rows req)
    as [[-> _] | (row & c & start & end_ & Fr & _ & _ & _ & F & ->)];
    [ now split | ].
  apply limit_findOne_some in Fr. destruct Fr as (Hrow & Hid & Hur).
  cbn [snd]. set (updated := mkLimit _ _ _ _ _ _ _ _).
  assert (Eid : id updated = id row) by reflexivity.
  assert (Hnone : forall l, In l rows -> id l <> id updated ->
                    user_id l = user_id updated ->
                    period_type l = period_type updated ->
                    intersect l updated = false).
  { intros l Hin Hne Hu Ht. unfold intersect.
    apply (findOverlapping_none rows (user req) (c_type c) _ _
             (Some (param_id req)) l F).
    - exact Hin.
    - rewrite Hu. exact Hur.
    - exact Ht.
    - intros E. apply Hne. rewrite E. symmetry. exact Hid. }
  split.
  - rewrite map_id_updateRow. exact Hkey.
  - intros a b Ha Hb Hne Hu Ht.
    apply limit_in_updateRow in Ha, Hb.
    destruct Ha as [-> | [Ha Na]]; destruct Hb as [-> | [Hb Nb]].
    + congruence.
    + rewrite intersect_sym. apply Hnone; auto.
    + apply Hnone; assumption.
    + apply Inv; assumption.
Qed.

(** How the checks of [POST] depend on the resolved end. *)
Lemma checkPost_resolve req :
  isPeriodType (postType req) = true ->
  isValidISODate (postStart req) = true ->
  match resolvePeriodEndOrFail (postType req) (postStart req)
          (b_period_end req) JUndefined with
  | inl sent => checkPost req = inl sent
  | inr e => forall c, checkPost req = inr c -> c_end c = e
  end.
Proof.
  intros Ht Hs. unfold checkPost. fold (postType req). fold (postStart req).
  rewrite Ht, Hs. cbn [negb].
  destruct (resolvePeriodEndOrFail (postType req) (postStart req)
              (b_period_end req) JUndefined) as [sent | e]; [ reflexivity | ].
  intros c. repeat break_check; intros E; inversion E; reflexivity.
Qed.

Lemma checkPatch_resolve row req :
  isPeriodType (patchType row req) = true ->
  isValidISODate (patchStart row req) = true ->
  match resolvePeriodEndOrFail (patchType row req) (patchStart row req)
          (b_period_end req) (JStr (period_end row)) with
  | inl sent => checkPatch row req = inl sent
  | inr e => forall c, checkPatch row req = inr c -> c_end c = e
  end.
Proof.
  intros Ht Hs. unfold checkPatch.
  fold (patchType row req). fold (patchStart row req).
  rewrite Ht, Hs. cbn [negb].
  destruct (resolvePeriodEndOrFail (patchType row req) (patchStart row req)
              (b_period_end req) (JStr (period_end row))) as [sent | e];
    [ reflexivity | ].
  intros c. repeat break_check; intros E; inversion E; reflexivity.
Qed.

(** A handler that runs [check] first and persists only on [inr]. *)
Lemma endChecked_of_check
  (success : Z) (type start : string) (endFromBody endFromDb : JsVal)
  (autoEnd : string) (rows : list Limit) (out : Response * list Limit)
  (check : Response + Candidate) :
  success <> 400 ->
  calcAutoPeriodEnd type start = Some autoEnd ->
  endFromBody <> JUndefined ->
  (forall sent, check = inl sent -> status sent = 400 /\ out = (sent, rows)) ->
  (status (fst out) = success -> exists c, check = inr c) ->
  match resolvePeriodEndOrFail type start endFromBody endFromDb with
  | inl sent => check = inl sent
  | inr e => forall c, check = inr c -> c_end c = e
  end ->
  EndChecked success type (ToString (or endFromBody (JStr ""))) autoEnd
    rows out.
Proof.
  intros Hsucc Hauto Hsup Hinl Hok Hres.
  rewrite (resolve_supplied type start endFromBody endFromDb autoEnd Hauto Hsup)
    in Hres.
  cbv zeta in Hres. unfold EndChecked.
  set (provided := ToString (or endFromBody (JStr ""))) in *.
  destruct (isValidISODate provided) eqn:V; cbn [negb] in Hres.
  - destruct (String.eqb provided autoEnd) eqn:Q; cbn [negb] in Hres.
    + apply String.eqb_eq in Q. split; [ intros _; exact Q | ].
      intros N. contradiction.
    + apply String.eqb_neq in Q.
      destruct (Hinl _ Hres) as [S ->]. cbn [fst snd].
      split.
      * intros E. cbn [status] in E. congruence.
      * intros _. repeat split; try reflexivity. discriminate.
  - destruct (Hinl _ Hres) as [S ->]. cbn [fst snd].
    split.
    + intros E. cbn [status] in E. congruence.
    + intros _. repeat split; try reflexivity. discriminate.
Qed.

(** C6 (as amended). For a create or update whose period type is [week],
    [month] or [year] (the end is computed) and whose body supplies
    [period_end]: the operation succeeds only if the supplied end equals
    the computed one; when it differs the answer is 400 and nothing is
    written, and the response carries [expected_period_end] exactly when the
    supplied end is a well-formed date -- a malformed one gets the message
    [period_end must be YYYY-MM-DD] without the expected value. *)
Theorem supplied_period_end_must_equal_computed_end
  (other : Sequelize.Dateonly) (rows : list Limit) (req : Request)
  (Hsupplied : b_period_end req <> JUndefined) :
  (forall autoEnd,
     isValidISODate (postStart req) = true ->
     calcAutoPeriodEnd (postType req) (postStart req) = Some autoEnd ->
     EndChecked 201 (postType req) (suppliedEnd req) autoEnd rows
       (post other rows req)) /\
  (forall row autoEnd,
     findOne rows (param_id req) (user req) = Some row ->
     isValidISODate (patchStart row req) = true ->
     calcAutoPeriodEnd (patchType row req) (patchStart row req)
     = Some autoEnd ->
     EndChecked 200 (patchType row req) (suppliedEnd req) autoEnd rows
       (patch other rows req)).
Proof.
  split.
  - intros autoEnd Hs Hauto.
    destruct (calcAutoPeriodEnd_some _ _ _ Hauto) as [_ Ht].
    apply (endChecked_of_check 201 (postType req) (postStart req)
             (b_period_end req) JUndefined autoEnd rows
             (post other rows req) (checkPost req));
      try assumption; try discriminate.
    + intros sent E. split; [ eapply checkPost_inl_400; eassumption | ].
      unfold post. rewrite E. reflexivity.
    + destruct (post_outcome other rows req)
        as [[_ N] | (c & _ & _ & C & _)]; [ contradiction | ].
      intros _. now exists c.
    + apply checkPost_resolve; assumption.
  - intros row autoEnd Fr Hs Hauto.
    destruct (calcAutoPeriodEnd_some _ _ _ Hauto) as [_ Ht].
    apply (endChecked_of_check 200 (patchType row req) (patchStart row req)
             (b_period_end req) (JStr (period_end row)) autoEnd rows
             (patch other rows req) (checkPatch row req));
      try assumption; try discriminate.
    + intros sent E. split; [ eapply checkPatch_inl_400; eassumption | ].
      unfold patch. rewrite Fr, E. reflexivity.
    + destruct (patch_outcome other rows req)
        as [[_ N] | (row' & c & _ & _ & Fr' & C & _)]; [ contradiction | ].
      intros _. exists c. congruence.
    + apply checkPatch_resolve; assumption.
Qed.

Lemma supplied_period_end_witness :
  b_period_end postMalformedEnd <> JUndefined /\
  EndChecked 201 "month" "2026-01-32" "2026-01-31" []
    (post Sequelize.isoOnly [] postMalformedEnd).
Proof.
  split; [ discriminate | ].
  apply (proj1 (supplied_period_end_must_equal_computed_end
                  Sequelize.isoOnly [] postMalformedEnd ltac:(discriminate))
           "2026-01-31");
    vm_compute; reflexivity.
Defined.

(** C6 as stated fails when the supplied end is malformed: the month from
    2026-01-01 ends on 2026-01-31, the body supplies 2026-01-32, and the
    400 response carries no [expected_period_end]. *)
Lemma malformed_supplied_end_gets_no_expected_end :
  postType postMalformedEnd = "month" /\
  b_period_end postMalformedEnd = JStr "2026-01-32" /\
  calcAutoPeriodEnd "month" (postStart postMalformedEnd) = Some "2026-01-31" /\
  post Sequelize.isoOnly [] postMalformedEnd
  = (mkResponse 400 (Message "period_end must be YYYY-MM-DD"), []) /\
  ~ (exists m e,
       body (fst (post Sequelize.isoOnly [] postMalformedEnd))
       = EndMismatch m e).
Proof.
  assert (E : post Sequelize.isoOnly [] postMalformedEnd
              = (mkResponse 400 (Message "period_end must be YYYY-MM-DD"), []))
    by (vm_compute; reflexivity).
  repeat split; try (vm_compute; reflexivity).
  rewrite E. intros (m & e & H). discriminate H.
Qed.

End LimitFacts.

(** ** Limit status *)

Section StatusFacts.

Import JS JSNumber Reports ReportProps.




(** The report on the examples of the specification: 85 of 100 kWh with the
    alert at 80 percent is [threshold_reached], 100 and 120 of 100 kWh are
    [limit_exceeded] with [threshold_reached] off. *)
Example report_status_examples :
  map (fun used =>
         let item := normalizeLimitRow
                       (mkRawRow (JNum (ofInt 1)) (JStr "month")
                          (JStr "2025-12-01") (JStr "2025-12-31")
                          (JStr "100.000") (JNum (ofInt 1)) (JNum (ofInt 80))
                          (JStr used)) in
         (toFixed (percent_used item) 2, status item,
          threshold_reached item, limit_exceeded item))
      ["85.000"; "100.000"; "120.000"; "79.999"]
  = [("85.00", "threshold_reached", true, false);
     ("100.00", "limit_exceeded", false, true);
     ("120.00", "limit_exceeded", false, true);
     ("80.00", "ok", false, false)].
Proof. vm_compute. reflexivity. Qed.


End StatusFacts.

(** ** Consumption records *)

Section ConsumptionFacts.

Import JS JSNumber Consumption ConsumptionProps.

Lemma decimalString_JNum x d s :
  decimalString (JNum x) d = Some s -> isFinite x = true /\ s = toFixed x d.
Proof.
  unfold decimalString, toNumber. cbn [ToNumber].
  destruct (isFinite x) eqn:F.
  - rewrite F. cbn [negb]. intros E. injection E as <-. now split.
  - cbn [NaN isFinite negb]. discriminate.
Qed.

(** The strings written to a record, in terms of the kWh and the price. *)
Lemma priced_some kwh price k p c :
  priced kwh price = (Some k, Some p, Some c) ->
  isFinite kwh = true /\ k = toFixed kwh 3 /\
  isFinite price = true /\ p = toFixed price 4 /\
  c = costOf k p.
Proof.
  unfold priced. intros E. injection E as Ek Ep Ec.
  rewrite Ek, Ep in Ec. cbn [numberOfNullable] in Ec.
  apply decimalString_JNum in Ek, Ep, Ec.
  destruct Ek as [Fk Ek]. destruct Ep as [Fp Ep]. destruct Ec as [_ Ec].
  repeat split; assumption.
Qed.

Lemma orderByIdDesc_length l : List.length (orderByIdDesc l) = List.length l.
Proof.
  assert (I : forall t m, List.length (insertDesc t m) = S (List.length m)).
  { intros t m. induction m as [ | h r IH]; [ reflexivity | ].
    cbn [insertDesc]. destruct (Tariffs.id h <=? Tariffs.id t);
      cbn [List.length]; congruence. }
  unfold orderByIdDesc. induction l as [ | h r IH]; [ reflexivity | ].
  cbn [fold_right]. rewrite I. cbn [List.length]. congruence.
Qed.

(** When the strict lookup gives a tariff, it is the only active one. *)
Lemma single_active ts u t :
  getActiveTariffStrict ts u = ActiveTariff t -> Tariffs.activeOf u ts = [t].
Proof.
  unfold getActiveTariffStrict. fold (Tariffs.activeOf u ts).
  pose proof (orderByIdDesc_length (Tariffs.activeOf u ts)) as L.
  destruct (orderByIdDesc (Tariffs.activeOf u ts)) as [ | a [ | b r]] eqn:O;
    cbn [firstn]; try discriminate.
  intros E. injection E as ->.
  destruct (Tariffs.activeOf u ts) as [ | x [ | y r]]; try discriminate L.
  cbn in O. injection O as ->. reflexivity.
Qed.

(** [getActiveTariffStrict] by the number of active tariffs of the user. *)
Lemma getActiveTariffStrict_count ts u :
  match getActiveTariffStrict ts u with
  | NO_ACTIVE => Tariffs.activeOf u ts = []
  | ActiveTariff t => List.length (Tariffs.activeOf u ts) = 1%nat
  | MANY_ACTIVE ids => (2 <= List.length (Tariffs.activeOf u ts))%nat
  end.
Proof.
  unfold getActiveTariffStrict. fold (Tariffs.activeOf u ts).
  pose proof (orderByIdDesc_length (Tariffs.activeOf u ts)) as L.
  destruct (orderByIdDesc (Tariffs.activeOf u ts)) as [ | a [ | b r]];
    cbn [firstn List.length] in *.
  - destruct (Tariffs.activeOf u ts); [ reflexivity | discriminate L ].
  - congruence.
  - rewrite <- L. lia.
Qed.

Ltac walk :=
  repeat (match goal with
          | |- (if ?c then _ else _) = _ -> _ => destruct c eqn:?
          | |- (match ?c with
                | NO_ACTIVE => _
                | MANY_ACTIVE _ => _
                | ActiveTariff _ => _
                end) = _ -> _ => destruct c eqn:?
          | |- (match ?c with inl _ => _ | inr _ => _ end) = _ -> _ =>
              destruct c eqn:?
          | |- (match ?c with Some _ => _ | None => _ end) = _ -> _ =>
              destruct c eqn:?
          | |- (match ?c with
                | Keep => _
                | Chosen _ => _
                | ApplianceError _ => _
                | QueryFailed => _
                end) = _ -> _ => destruct c eqn:?
          | |- (match priced ?k ?p with pair _ _ => _ end) = _ -> _ =>
              destruct (priced k p) as [ [ [? | ] [? | ] ] [? | ] ] eqn:?
          end;
          try (let E := fresh "E" in intros E; discriminate E)).

Lemma toNumber_finite v :
  isFinite (toNumber v) = true -> toNumber v = ToNumber v.
Proof.
  unfold toNumber. destruct (isFinite (ToNumber v)); [ reflexivity | ].
  discriminate.
Qed.

(** What [computeKwh] gives when it gives an energy. *)
Lemma computeKwh_inr consumption_kwh usage_hours appliance kwh :
  computeKwh consumption_kwh usage_hours appliance = inr kwh ->
  isFinite kwh = true \/ isNullish consumption_kwh = true ->
  (isNullish consumption_kwh = false /\ kwh = ToNumber consumption_kwh /\
   isFinite kwh = true /\ gt kwh (ofInt 0) = true) \/
  (isNullish consumption_kwh = true /\
   exists ap, appliance = Some ap /\
     kwh = mul (ToNumber (estimated_power ap)) (ToNumber usage_hours)).
Proof.
  unfold computeKwh.
  destruct (isNullish consumption_kwh) eqn:N; cbn [negb].
  - destruct (isNullish usage_hours); cbn [negb]; [ discriminate | ].
    destruct (negb (isFinite (toNumber usage_hours))
              || le (toNumber usage_hours) (ofInt 0)) eqn:H;
      [ discriminate | ].
    destruct appliance as [ap | ]; [ | discriminate ].
    destruct (negb (isFinite (toNumber (estimated_power ap)))
              || le (toNumber (estimated_power ap)) (ofInt 0)) eqn:P;
      [ discriminate | ].
    intros E _. injection E as <-. right. split; [ reflexivity | ].
    exists ap. split; [ reflexivity | ].
    apply orb_false_elim in H, P. destruct H as [H _]. destruct P as [P _].
    apply negb_false_iff in H, P.
    rewrite (toNumber_finite _ H), (toNumber_finite _ P). reflexivity.
  - destruct (negb (isFinite (toNumber consumption_kwh))
              || le (toNumber consumption_kwh) (ofInt 0)) eqn:H;
      [ discriminate | ].
    intros E _. injection E as <-. left.
    apply orb_false_elim in H. destruct H as [H L].
    apply negb_false_iff in H.
    pose proof (toNumber_finite _ H) as Et. rewrite Et in H, L |- *.
    repeat split; try assumption.
    clear - H L. unfold gt, le in *.
    destruct (ToNumber consumption_kwh) as [ [] | [] | | [] m e ];
      cbn in *; try discriminate; reflexivity.
Qed.

(** The appliance query of [POST]: when it does not give an appliance
    the answer is 404 or, when the query throws, 500. *)
Lemma lookup_inl aps v u sent :
  (if negb (isNullish v)
   then match queryAppliance aps (ToNumber v) u with
        | None => inl (mkResponse 500 InternalError)
        | Some None => inl (mkResponse 404 (Message "appliance not found"))
        | Some (Some ap) => inr (Some ap)
        end
   else inr None) = inl sent ->
  sent = mkResponse 500 InternalError \/
  sent = mkResponse 404 (Message "appliance not found").
Proof.
  destruct (negb (isNullish v)); [ | discriminate ].
  destruct (queryAppliance aps (ToNumber v) u) as [[ap | ] | ];
    intros E; try discriminate E; injection E as <-; auto.
Qed.

(** C5. A record that [POST /api/consumption] creates belongs to the caller
    and carries the energy of the request rounded to 3 digits, the price of
    the one tariff of the caller that is active rounded to 4 digits as
    [applied_price_per_kwh], and as cost the product of these two rounded
    values, rounded to 4 digits; nothing else is written.  With
    [consumption_kwh = 3.5] and the active tariff priced 4.32 the record has
    the price "4.3200" and the cost "15.1200". *)
Theorem created_record_cost_is_kwh_times_price
  (db : Tables) (req : Request) (row : ConsumptionRecord)
  (Hcreated : fst (post db req) = mkResponse 201 (Row row)) :
  (exists tariff kwh,
     Tariffs.activeOf (user req) (tariffs db) = [tariff] /\
     energyOf db req kwh /\
     isFinite kwh = true /\
     isFinite (ToNumber (Tariffs.price_per_kwh tariff)) = true /\
     consumption_kwh row = toFixed kwh 3 /\
     applied_price_per_kwh row
     = toFixed (ToNumber (Tariffs.price_per_kwh tariff)) 4 /\
     cost row = costOf (consumption_kwh row) (applied_price_per_kwh row) /\
     user_id row = user req /\
     snd (post db req) = (records db ++ [row])%list) /\
  post oneTariff postThreeAndHalf
  = (mkResponse 201 (Row firstRecord), [firstRecord]).
Proof.
  split; [ | vm_compute; reflexivity ].
  revert Hcreated. unfold post. cbv zeta.
  destruct (negb (isNullish (b_consumption_kwh req))
            && negb (isNullish (b_usage_hours req))); [ discriminate | ].
  destruct (negb (Period.isValidISODate
                    (ToString (or (b_record_date req) (JStr "")))));
    [ discriminate | ].
  destruct (getActiveTariffStrict (tariffs db) (user req))
    as [ | ids | tariff] eqn:T; try discriminate.
  apply single_active in T.
  match goal with
  | |- context [match ?l with inl _ => _ | inr _ => _ end] =>
      remember l as lookup eqn:EL
  end.
  assert (L : (forall sent, lookup = inl sent -> status sent <> 201) /\
              forall ap, lookup = inr (Some ap) ->
                In ap (appliances db) /\ a_user_id ap = user req /\
                eq (ToNumber (b_appliance_id req)) (ofInt (a_id ap)) = true).
  { subst lookup. unfold queryAppliance.
    destruct (negb (isNullish (b_appliance_id req)));
      [ | split; intros ? E; discriminate E ].
    destruct (isFinite (ToNumber (b_appliance_id req)));
      [ | split; intros ? E; [ injection E as <- | ]; discriminate ].
    destruct (findAppliance (appliances db) (ToNumber (b_appliance_id req))
                (user req)) as [a | ] eqn:F;
      [ | split; intros ? E; [ injection E as <- | ]; discriminate ].
    split; intros ap E; [ discriminate E | ]. injection E as ->.
    unfold findAppliance in F. apply find_some in F. destruct F as [Hin F].
    apply andb_prop in F. destruct F as [I U]. apply Z.eqb_eq in U.
    repeat split; assumption. }
  destruct L as [Linl L]. clear EL.
  destruct lookup as [sent | appliance].
  { cbn [fst]. intros E. subst sent. exfalso.
    apply (Linl _ eq_refl). reflexivity. }
  destruct (computeKwh (b_consumption_kwh req) (b_usage_hours req) appliance)
    as [error | kwh] eqn:K; [ discriminate | ].
  destruct (negb (isFinite (toNumber (Tariffs.price_per_kwh tariff)))
            || lt (toNumber (Tariffs.price_per_kwh tariff)) (ofInt 0)) eqn:P;
    [ discriminate | ].
  destruct (priced kwh (toNumber (Tariffs.price_per_kwh tariff)))
    as [ [ [k | ] [p | ] ] [c | ] ] eqn:R; try discriminate.
  cbn [fst snd]. intros E. injection E as <-.
  apply priced_some in R. destruct R as (Fk & Hk & Fp & Hp & Hc).
  pose proof (toNumber_finite _ Fp) as Ep. rewrite Ep in Fp, Hp.
  cbn [consumption_kwh applied_price_per_kwh cost user_id].
  exists tariff, kwh. split; [ exact T | ]. split.
  - destruct (computeKwh_inr _ _ _ _ K (or_introl Fk))
      as [(N & E & _) | (N & ap & -> & E)].
    + left. now split.
    + right. split; [ exact N | ]. exists ap.
      destruct (L ap eq_refl) as (Hin & U & I). repeat split; assumption.
  - repeat split; try assumption; reflexivity.
Qed.

Lemma no_active_tariff ts u :
  Tariffs.activeOf u ts = [] -> getActiveTariffStrict ts u = NO_ACTIVE.
Proof.
  intros H. pose proof (getActiveTariffStrict_count ts u) as C.
  destruct (getActiveTariffStrict ts u); [ reflexivity | | ];
    rewrite H in C; cbn in C; [ lia | discriminate ].
Qed.

Lemma many_active_tariffs ts u :
  (2 <= List.length (Tariffs.activeOf u ts))%nat ->
  exists ids, getActiveTariffStrict ts u = MANY_ACTIVE ids.
Proof.
  intros H. pose proof (getActiveTariffStrict_count ts u) as C.
  destruct (getActiveTariffStrict ts u) as [ | ids | t ].
  - rewrite C in H. cbn in H. lia.
  - now exists ids.
  - lia.
Qed.

(** A [PATCH] that does not find exactly one active tariff writes nothing;
    once it gets to the lookup it answers with [failure]. *)
Lemma patch_without_single_tariff db req failure :
  (getActiveTariffStrict (tariffs db) (user req) = NO_ACTIVE /\
   failure = noActiveTariff) \/
  (exists ids, getActiveTariffStrict (tariffs db) (user req) = MANY_ACTIVE ids
               /\ failure = manyActiveTariffs ids) ->
  snd (patch db req) = records db /\
  status (fst (patch db req)) <> 200 /\
  (reachesTariffLookup db req -> fst (patch db req) = failure).
Proof.
  intros H. unfold reachesTariffLookup, patchDate, patch. cbv zeta.
  destruct (findOne (records db) (param_id req) (user req)) as [row | ].
  2: { repeat split; try discriminate. intros (r & F & _). discriminate F. }
  destruct (negb (isNullish (b_consumption_kwh req))
            && negb (isNullish (b_usage_hours req))) eqn:B.
  { repeat split; try discriminate. intros (r & _ & N & _).
    destruct (isNullish (b_consumption_kwh req));
      destruct (isNullish (b_usage_hours req)); discriminate. }
  destruct (negb (Period.isValidISODate
                    (if isNullish (b_record_date req) then record_date row
                     else ToString (b_record_date req)))) eqn:D.
  { repeat split; try discriminate. intros (r & F & _ & V).
    injection F as <-. rewrite V in D. discriminate D. }
  destruct H as [[-> ->] | (ids & -> & ->)];
    repeat split; try discriminate.
Qed.

(** C10. A [PATCH /api/consumption/:id] that succeeds -- whatever it
    changes -- writes as [applied_price_per_kwh] the price of the caller's
    one active tariff at the time of the update and recomputes the cost
    from it.  When the caller has no active tariff, or more than one, the
    patch does not succeed and writes nothing; once it has found the record
    and accepted the kWh/hours choice and the date, its answer is 400 (no
    active tariff) or 409 (several, with their ids).  A record created at
    the price 4.32 and patched only in its notes after the price became 5
    has the price "5.0000" and the cost "17.5000". *)
Theorem patch_reprices_with_current_tariff (db : Tables) (req : Request) :
  (forall row',
     fst (patch db req) = mkResponse 200 (Row row') ->
     exists tariff,
       getActiveTariffStrict (tariffs db) (user req) = ActiveTariff tariff /\
       Tariffs.activeOf (user req) (tariffs db) = [tariff] /\
       applied_price_per_kwh row'
       = toFixed (toNumber (Tariffs.price_per_kwh tariff)) 4 /\
       cost row' = costOf (consumption_kwh row') (applied_price_per_kwh row') /\
       snd (patch db req) = updateRow row' (records db)) /\
  (Tariffs.activeOf (user req) (tariffs db) = [] ->
   snd (patch db req) = records db /\
   status (fst (patch db req)) <> 200 /\
   (reachesTariffLookup db req -> fst (patch db req) = noActiveTariff)) /\
  ((2 <= List.length (Tariffs.activeOf (user req) (tariffs db)))%nat ->
   exists ids,
     snd (patch db req) = records db /\
     status (fst (patch db req)) <> 200 /\
     (reachesTariffLookup db req ->
      fst (patch db req) = manyActiveTariffs ids)) /\
  patch repriced patchNotes
  = (mkResponse 200 (Row repricedRecord), [repricedRecord]).
Proof.
  split; [ | split; [ | split; [ | vm_compute; reflexivity ] ] ].
  - intros row'. destruct (patch db req) as [resp rows'] eqn:P.
    cbn [fst snd]. intros Er. subst resp. revert P.
    unfold patch. cbv zeta. walk.
    all: intros E; injection E as E1 E2.
    all: try (subst; match goal with
                     | H : _ = inl _ |- _ => revert H
                     end;
              repeat match goal with
                     | |- context [if ?c then _ else _] => destruct c
                     | |- context [match ?c with inl _ => _ | inr _ => _ end] =>
                         destruct c
                     end; discriminate).
    all: subst row' rows';
      match goal with
      | H : priced _ _ = _ |- _ => apply priced_some in H;
                                   destruct H as (_ & Hk & _ & Hp & Hc)
      end;
      cbn [consumption_kwh applied_price_per_kwh cost];
      eexists; split; [ reflexivity | ];
      (split; [ eapply single_active; eassumption | ]);
      repeat split; assumption.
  - intros H. apply patch_without_single_tariff. left.
    split; [ apply no_active_tariff; exact H | reflexivity ].
  - intros H. destruct (many_active_tariffs _ _ H) as (ids & E).
    exists ids. apply patch_without_single_tariff. right.
    exists ids. now split.
Qed.

Lemma patch_reprices_witness :
  exists tariff,
    getActiveTariffStrict (tariffs repriced) (user patchNotes)
    = ActiveTariff tariff /\
    Tariffs.activeOf (user patchNotes) (tariffs repriced) = [tariff] /\
    applied_price_per_kwh repricedRecord
    = toFixed (toNumber (Tariffs.price_per_kwh tariff)) 4 /\
    cost repricedRecord
    = costOf (consumption_kwh repricedRecord)
        (applied_price_per_kwh repricedRecord) /\
    snd (patch repriced patchNotes)
    = updateRow repricedRecord (records repriced).
Proof.
  apply (proj1 (patch_reprices_with_current_tariff repriced patchNotes)
           repricedRecord).
  vm_compute. reflexivity.
Defined.

(** The product is the one of binary64 numbers: 0.001 kWh at the price
    0.15 is the double just below 0.00015, and the cost is "0.0001". *)
Example cost_of_a_tie : costOf "0.001" "0.1500" = "0.0001".
Proof. vm_compute. reflexivity. Qed.

Lemma created_record_witness :
  exists tariff kwh,
    Tariffs.activeOf (user postThreeAndHalf) (tariffs oneTariff) = [tariff] /\
    energyOf oneTariff postThreeAndHalf kwh /\
    isFinite kwh = true /\
    isFinite (ToNumber (Tariffs.price_per_kwh tariff)) = true /\
    consumption_kwh firstRecord = toFixed kwh 3 /\
    applied_price_per_kwh firstRecord
    = toFixed (ToNumber (Tariffs.price_per_kwh tariff)) 4 /\
    cost firstRecord
    = costOf (consumption_kwh firstRecord)
        (applied_price_per_kwh firstRecord) /\
    user_id firstRecord = user postThreeAndHalf /\
    snd (post oneTariff postThreeAndHalf)
    = (records oneTariff ++ [firstRecord])%list.
Proof.
  apply (proj1 (created_record_cost_is_kwh_times_price oneTariff
                  postThreeAndHalf firstRecord
                  ltac:(vm_compute; reflexivity))).
Defined.

End ConsumptionFacts.

(** ** Admin: protection of the last admin *)

Section AdminFacts.

Import JS JSNumber Admin AdminProps.

Lemma at_most_one (A : Type) (l : list A) (a b : A) :
  (List.length l <= 1)%nat -> In a l -> In b l -> a = b.
Proof.
  destruct l as [ | x [ | y r]]; cbn [List.length]; intros L Ha Hb.
  - destruct Ha.
  - destruct Ha as [<- | []]. destruct Hb as [<- | []]. reflexivity.
  - lia.
Qed.

(** With at most one non-blocked admin, any two of them are the same row. *)
Lemma sole_active_admin us a b :
  countActiveAdmins us <= 1 ->
  In a us -> activeAdmin a = true ->
  In b us -> activeAdmin b = true -> a = b.
Proof.
  unfold countActiveAdmins. intros L Ha Aa Hb Ab.
  apply (at_most_one _ (filter activeAdmin us)).
  - unfold activeAdmin. lia.
  - apply filter_In. now split.
  - apply filter_In. now split.
Qed.

Lemma findByNumber_some us n u :
  findByNumber us n = Some u -> In u us /\ eq n (ofInt (id u)) = true.
Proof. unfold findByNumber, idIs. apply find_some. Qed.

(** Who passes the middleware is a non-blocked admin of the table. *)
Lemma admitted_is_active_admin db req caller :
  auth db req = inr caller -> requireAdmin caller = None ->
  exists cu, In cu (users db) /\ id cu = c_id caller /\
             activeAdmin cu = true.
Proof.
  unfold auth, requireAdmin.
  destruct (negb (bearer req)); [ discriminate | ].
  destruct (token req) as [userId | ]; [ | discriminate ].
  destruct (findByPk (users db) userId) as [cu | ] eqn:F; [ | discriminate ].
  destruct (is_blocked cu) eqn:B; [ discriminate | ].
  intros E. injection E as <-. cbn [c_role c_id].
  destruct (String.eqb (role cu) "admin") eqn:R; cbn [negb]; [ | discriminate ].
  intros _. exists cu. unfold findByPk in F. apply find_some in F.
  unfold activeAdmin. rewrite R, B. repeat split. apply F.
Qed.

Lemma auth_inl db req sent :
  auth db req = inl sent -> status sent = 401 \/ status sent = 403.
Proof.
  unfold auth.
  destruct (negb (bearer req)); [ intros E; injection E as <-; now left | ].
  destruct (token req) as [userId | ];
    [ | intros E; injection E as <-; now left ].
  destruct (findByPk (users db) userId) as [cu | ];
    [ | intros E; injection E as <-; now left ].
  destruct (is_blocked cu); [ | discriminate ].
  intros E. injection E as <-. now right.
Qed.

Lemma requireAdmin_some caller sent :
  requireAdmin caller = Some sent -> status sent = 403.
Proof.
  unfold requireAdmin.
  destruct (negb (String.eqb (c_role caller) "admin")); [ | discriminate ].
  intros E. injection E as <-. reflexivity.
Qed.

(** A route either is answered by the middleware, leaving the tables, or
    runs its handler for a caller that is a non-blocked admin. *)
Lemma route_cases handler db req :
  (turnedAway (route handler db req) /\ snd (route handler db req) = db /\
   ~ admitted db req) \/
  (exists caller cu,
     admitted db req /\
     route handler db req = handler db caller req /\
     In cu (users db) /\ id cu = c_id caller /\ activeAdmin cu = true).
Proof.
  unfold route, turnedAway, admitted.
  destruct (auth db req) as [sent | caller] eqn:A.
  - left. cbn [fst snd]. split; [ eapply auth_inl; eassumption | ].
    split; [ reflexivity | ]. intros (c & E & _). discriminate E.
  - destruct (requireAdmin caller) as [sent | ] eqn:R.
    + left. cbn [fst snd]. split; [ right; eapply requireAdmin_some;
                                      eassumption | ].
      split; [ reflexivity | ]. intros (c & E & N).
      injection E as <-. congruence.
    + right. destruct (admitted_is_active_admin db req caller A R)
        as (cu & Hin & Hid & Hact).
      exists caller, cu. repeat split; try assumption.
      exists caller. now split.
Qed.

(** The role handler on the caller's own account, asked to demote. *)
Lemma roleHandler_own db caller req :
  eq (ofString (param_id req)) (ofInt (c_id caller)) = true ->
  demotes req ->
  status (fst (roleHandler db caller req)) = 400 /\
  snd (roleHandler db caller req) = db.
Proof.
  unfold demotes, roleHandler. intros Hid Hd. cbv zeta.
  destruct (negb (isInteger (ofString (param_id req)))
            || le (ofString (param_id req)) (ofInt 0)); [ now split | ].
  destruct (negb (isRole (trim (ToString (or (b_role req) (JStr ""))))));
    [ now split | ].
  rewrite Hid, Hd. cbn [negb andb]. now split.
Qed.

Lemma blockHandler_own db caller req :
  eq (ofString (param_id req)) (ofInt (c_id caller)) = true ->
  blocks req ->
  status (fst (blockHandler db caller req)) = 400 /\
  snd (blockHandler db caller req) = db.
Proof.
  unfold blocks, blockHandler. intros Hid Hb. cbv zeta.
  destruct (negb (isInteger (ofString (param_id req)))
            || le (ofString (param_id req)) (ofInt 0)); [ now split | ].
  rewrite Hb, Hid. cbn [andb]. now split.
Qed.

(** When the role handler answers 409, the target is an admin other than
    the caller and at most one admin is not blocked. *)
Lemma roleHandler_409 db caller req :
  status (fst (roleHandler db caller req)) = 409 ->
  exists t, targets db req t /\ String.eqb (role t) "admin" = true /\
            countActiveAdmins (users db) <= 1 /\
            eq (ofString (param_id req)) (ofInt (c_id caller)) = false.
Proof.
  unfold roleHandler, targets. cbv zeta.
  destruct (negb (isInteger (ofString (param_id req)))
            || le (ofString (param_id req)) (ofInt 0)); [ discriminate | ].
  destruct (negb (isRole (trim (ToString (or (b_role req) (JStr ""))))));
    [ discriminate | ].
  destruct (eq (ofString (param_id req)) (ofInt (c_id caller))
            && negb (String.eqb (trim (ToString (or (b_role req) (JStr ""))))
                       "admin")) eqn:Own; [ discriminate | ].
  destruct (findByNumber (users db) (ofString (param_id req))) as [t | ];
    [ | discriminate ].
  destruct (String.eqb (role t) "admin") eqn:R; cbn [andb]; [ | discriminate ].
  destruct (negb (String.eqb (trim (ToString (or (b_role req) (JStr ""))))
                    "admin")) eqn:D; cbn [andb]; [ | discriminate ].
  destruct (countActiveAdmins (users db) <=? 1) eqn:C; [ | discriminate ].
  intros _. exists t. apply Z.leb_le in C. rewrite andb_true_r in Own.
  repeat split; assumption.
Qed.

Lemma blockHandler_409 db caller req :
  status (fst (blockHandler db caller req)) = 409 ->
  exists t, targets db req t /\ String.eqb (role t) "admin" = true /\
            countActiveAdmins (users db) <= 1 /\
            eq (ofString (param_id req)) (ofInt (c_id caller)) = false.
Proof.
  unfold blockHandler, targets. cbv zeta.
  destruct (negb (isInteger (ofString (param_id req)))
            || le (ofString (param_id req)) (ofInt 0)); [ discriminate | ].
  destruct (parseBool (b_is_blocked req)) as [parsed | ]; [ | discriminate ].
  destruct (parsed && eq (ofString (param_id req)) (ofInt (c_id caller)))
    eqn:Own; [ discriminate | ].
  destruct (findByNumber (users db) (ofString (param_id req))) as [t | ];
    [ | discriminate ].
  destruct parsed; cbn [andb] in *; [ | discriminate ].
  destruct (String.eqb (role t) "admin") eqn:R; cbn [andb]; [ | discriminate ].
  destruct (countActiveAdmins (users db) <=? 1) eqn:C; [ | discriminate ].
  intros _. exists t. apply Z.leb_le in C. repeat split; assumption.
Qed.

(** A 409 of an admin route concerns a blocked admin. *)
Lemma route_409_is_blocked handler db req :
  (forall caller,
     status (fst (handler db caller req)) = 409 ->
     exists t, targets db req t /\ String.eqb (role t) "admin" = true /\
               countActiveAdmins (users db) <= 1 /\
               eq (ofString (param_id req)) (ofInt (c_id caller)) = false) ->
  status (fst (route handler db req)) = 409 ->
  exists t, targets db req t /\ role t = "admin" /\ is_blocked t = true.
Proof.
  intros Hh S.
  destruct (route_cases handler db req)
    as [([T | T] & _) | (caller & cu & _ & E & Hin & Hid & Hact)];
    try congruence.
  rewrite E in S. destruct (Hh caller S) as (t & Ht & R & C & N).
  exists t. split; [ exact Ht | ].
  split; [ apply String.eqb_eq; exact R | ].
  destruct (is_blocked t) eqn:B; [ reflexivity | exfalso ].
  apply findByNumber_some in Ht. destruct Ht as [Tin Teq].
  assert (t = cu).
  { apply (sole_active_admin (users db)); try assumption.
    unfold activeAdmin. rewrite R, B. reflexivity. }
  subst t. rewrite Hid in Teq. congruence.
Qed.

(** The outcome of a request that would demote or block the last
    non-blocked admin. *)
Lemma route_own db req u handler :
  targets db req u -> activeAdmin u = true ->
  countActiveAdmins (users db) <= 1 ->
  (forall caller,
     eq (ofString (param_id req)) (ofInt (c_id caller)) = true ->
     status (fst (handler db caller req)) = 400 /\
     snd (handler db caller req) = db) ->
  snd (route handler db req) = db /\
  (admitted db req -> status (fst (route handler db req)) = 400) /\
  (~ admitted db req -> turnedAway (route handler db req)).
Proof.
  intros Ht Ha Hl Hh.
  apply findByNumber_some in Ht. destruct Ht as [Tin Teq].
  destruct (route_cases handler db req)
    as [(T & S & N) | (caller & cu & Adm & E & Hin & Hid & Hact)].
  - split; [ exact S | ].
    split; [ intros A; contradiction | intros _; exact T ].
  - assert (u = cu) by (apply (sole_active_admin (users db)); assumption).
    subst u. rewrite Hid in Teq. destruct (Hh caller Teq) as [S D].
    rewrite E. split; [ exact D | ].
    split; [ intros _; exact S | intros N; contradiction ].
Qed.

(** C7 (as amended). Take a request of an admin route that targets the last
    non-blocked admin (the target is an admin, is not blocked, and at most
    one admin is not blocked) and asks to change its role away from admin
    or to block it.  The request is rejected and the tables, with the role
    and the blocked flag of the target, stay as they are.  A request that
    passes the admin authentication is answered 400 -- its caller is a
    non-blocked admin, hence the target itself, and the own-account checks
    come first -- and any other request is answered 401 or 403.  The 409 of
    the last-admin check is given only for a target that is a blocked
    admin. *)
Theorem last_admin_is_protected
  (db : Tables) (req : Request) (u : User)
  (Htarget : targets db req u)
  (Hadmin : activeAdmin u = true)
  (Hlast : countActiveAdmins (users db) <= 1) :
  (demotes req ->
   snd (patchRole db req) = db /\
   (admitted db req -> status (fst (patchRole db req)) = 400) /\
   (~ admitted db req -> turnedAway (patchRole db req))) /\
  (blocks req ->
   snd (patchBlock db req) = db /\
   (admitted db req -> status (fst (patchBlock db req)) = 400) /\
   (~ admitted db req -> turnedAway (patchBlock db req))) /\
  (forall db' req',
     status (fst (patchRole db' req')) = 409 \/
     status (fst (patchBlock db' req')) = 409 ->
     exists t, targets db' req' t /\ role t = "admin" /\ is_blocked t = true).
Proof.
  split; [ | split ].
  - intros D. apply (route_own db req u roleHandler); try assumption.
    intros caller E. apply roleHandler_own; assumption.
  - intros B. apply (route_own db req u blockHandler); try assumption.
    intros caller E. apply blockHandler_own; assumption.
  - intros db' req' [S | S].
    + apply (route_409_is_blocked roleHandler db' req');
        [ intros caller; apply roleHandler_409 | exact S ].
    + apply (route_409_is_blocked blockHandler db' req');
        [ intros caller; apply blockHandler_409 | exact S ].
Qed.

Lemma last_admin_is_protected_witness :
  snd (patchBlock soleAdmin blockSoleAdmin) = soleAdmin /\
  (admitted soleAdmin blockSoleAdmin ->
   status (fst (patchBlock soleAdmin blockSoleAdmin)) = 400) /\
  (~ admitted soleAdmin blockSoleAdmin ->
   turnedAway (patchBlock soleAdmin blockSoleAdmin)).
Proof.
  apply (proj1 (proj2 (last_admin_is_protected soleAdmin blockSoleAdmin
                         (mkUser 1 "root@example.org" "admin" false)
                         ltac:(vm_compute; reflexivity)
                         ltac:(vm_compute; reflexivity)
                         ltac:(vm_compute; discriminate)))).
  vm_compute. reflexivity.
Defined.

(** C7 as stated fails: the sole non-blocked admin is the only account that
    can call the admin routes, and its request to block or to demote the
    last non-blocked admin -- itself -- is answered 400, not 409. *)
Lemma blocking_the_sole_admin_is_answered_400 :
  targets soleAdmin blockSoleAdmin (mkUser 1 "root@example.org" "admin" false) /\
  countActiveAdmins (users soleAdmin) = 1 /\
  patchBlock soleAdmin blockSoleAdmin
  = (mkResponse 400 (Message "cannot block own account"), soleAdmin) /\
  patchRole soleAdmin demoteSoleAdmin
  = (mkResponse 400 (Message "cannot change own role"), soleAdmin) /\
  status (fst (patchBlock soleAdmin blockSoleAdmin)) <> 409.
Proof.
  repeat split; try (vm_compute; reflexivity). vm_compute. discriminate.
Qed.

(** Where the 409 does occur: the one non-blocked admin asks to demote an
    admin that is blocked. *)
Example demoting_a_blocked_admin_is_answered_409 :
  patchRole blockedColleague demoteColleague
  = (mkResponse 409 (Message "cannot remove role from the last active admin"),
     blockedColleague).
Proof. vm_compute. reflexivity. Qed.

End AdminFacts.

(** ** Date texts: digits and padding *)

Section DateTextFacts.

Import JSString Period DateTextProps.

Lemma digit_in a : 0 <= a <= 9 -> In a digits10.
Proof.
  intros H. unfold digits10. cbn [In].
  assert (a = 0 \/ a = 1 \/ a = 2 \/ a = 3 \/ a = 4 \/ a = 5 \/ a = 6 \/
          a = 7 \/ a = 8 \/ a = 9) by lia.
  intuition auto.
Qed.

Lemma isDigit_char c :
  isDigit c = true -> c = JSNumber.digitChar (digitVal c).
Proof.
  destruct c as [[] [] [] [] [] [] [] []]; cbv; intros H;
    try discriminate H; reflexivity.
Qed.

Lemma digitChar_digit a :
  0 <= a <= 9 ->
  isDigit (JSNumber.digitChar a) = true /\
  digitVal (JSNumber.digitChar a) = a /\
  Ascii.eqb (JSNumber.digitChar a) "-" = false.
Proof.
  intros H. apply digit_in in H. unfold digits10 in H. cbn [In] in H.
  repeat (destruct H as [<- | H]; [ repeat split; reflexivity | ]).
  destruct H.
Qed.

Lemma ofZ_four a b c d :
  1 <= a <= 9 -> 0 <= b <= 9 -> 0 <= c <= 9 -> 0 <= d <= 9 ->
  ofZ (1000 * a + 100 * b + 10 * c + d) = four a b c d.
Proof.
  intros Ha Hb Hc Hd.
  assert (T : forallb (fun a => forallb (fun b => forallb (fun c =>
                forallb (fun d =>
                  String.eqb (ofZ (1000 * a + 100 * b + 10 * c + d))
                             (four a b c d)) digits10) digits10) digits10)
                (tl digits10) = true) by (vm_compute; reflexivity).
  assert (Ia : In a (tl digits10)).
  { pose proof (digit_in a ltac:(lia)) as I. destruct I as [<- | I];
      [ lia | exact I ]. }
  rewrite forallb_forall in T. specialize (T a Ia).
  rewrite forallb_forall in T. specialize (T b (digit_in b Hb)).
  rewrite forallb_forall in T. specialize (T c (digit_in c Hc)).
  rewrite forallb_forall in T. specialize (T d (digit_in d Hd)).
  apply String.eqb_eq. exact T.
Qed.

Lemma pad2_two a b :
  0 <= a <= 9 -> 0 <= b <= 9 -> pad2 (10 * a + b) = two a b.
Proof.
  intros Ha Hb.
  assert (T : forallb (fun a => forallb (fun b =>
                String.eqb (pad2 (10 * a + b)) (two a b)) digits10) digits10
              = true) by (vm_compute; reflexivity).
  rewrite forallb_forall in T. specialize (T a (digit_in a Ha)).
  rewrite forallb_forall in T. specialize (T b (digit_in b Hb)).
  apply String.eqb_eq. exact T.
Qed.

(** The text of a calendar date with a four-digit year. *)
Lemma formatCivil_digits y m d :
  1000 <= y <= 9999 -> 0 <= m <= 99 -> 0 <= d <= 99 ->
  formatCivil (y, m, d)
  = four (y / 1000) (y / 100 mod 10) (y / 10 mod 10) (y mod 10) ++ "-" ++
    two (m / 10) (m mod 10) ++ "-" ++ two (d / 10) (d mod 10).
Proof.
  intros Hy Hm Hd. unfold formatCivil.
  rewrite <- ofZ_four, <- !pad2_two
    by (Z.to_euclidean_division_equations; lia).
  repeat f_equal; Z.to_euclidean_division_equations; lia.
Qed.

Lemma iso_of_digits a b c d e f g h :
  0 <= a <= 9 -> 0 <= b <= 9 -> 0 <= c <= 9 -> 0 <= d <= 9 ->
  0 <= e <= 9 -> 0 <= f <= 9 -> 0 <= g <= 9 -> 0 <= h <= 9 ->
  let s := four a b c d ++ "-" ++ two e f ++ "-" ++ two g h in
  isoPattern s = true /\
  splitYMD s = Some (1000 * a + 100 * b + 10 * c + d, 10 * e + f, 10 * g + h).
Proof.
  intros Ha Hb Hc Hd He Hf Hg Hh.
  destruct (digitChar_digit a Ha) as (A1 & A2 & A3).
  destruct (digitChar_digit b Hb) as (B1 & B2 & B3).
  destruct (digitChar_digit c Hc) as (C1 & C2 & C3).
  destruct (digitChar_digit d Hd) as (D1 & D2 & D3).
  destruct (digitChar_digit e He) as (E1 & E2 & E3).
  destruct (digitChar_digit f Hf) as (F1 & F2 & F3).
  destruct (digitChar_digit g Hg) as (G1 & G2 & G3).
  destruct (digitChar_digit h Hh) as (H1 & H2 & H3).
  cbv zeta. unfold four, two. cbn [append]. split.
  - cbn [isoPattern]. rewrite A1, B1, C1, D1, E1, F1, G1, H1. reflexivity.
  - unfold splitYMD. cbn [splitDash].
    rewrite A3, B3, C3, D3, E3, F3, G3, H3. rewrite Ascii.eqb_refl.
    cbn [map digitsValue digitsFrom].
    rewrite A1, B1, C1, D1, E1, F1, G1, H1.
    rewrite A2, B2, C2, D2, E2, F2, G2, H2.
    f_equal. apply f_equal2; [ apply f_equal2 | ]; lia.
Qed.

(** A string of the shape dddd-dd-dd is the text of its three numbers. *)
Lemma iso_text s :
  isoPattern s = true ->
  exists a b c d e f g h,
    (0 <= a <= 9 /\ 0 <= b <= 9 /\ 0 <= c <= 9 /\ 0 <= d <= 9) /\
    (0 <= e <= 9 /\ 0 <= f <= 9 /\ 0 <= g <= 9 /\ 0 <= h <= 9) /\
    s = four a b c d ++ "-" ++ two e f ++ "-" ++ two g h.
Proof.
  intros H.
  do 10 (destruct s as [ | ? s ]; [ discriminate H | ]).
  destruct s; [ | discriminate H ].
  cbn [isoPattern] in H.
  do 9 (apply andb_prop in H; destruct H as [H ?]).
  repeat match goal with
         | D : Ascii.eqb _ _ = true |- _ => apply Ascii.eqb_eq in D; subst
         end.
  repeat match goal with
         | D : isDigit ?c = true |- _ =>
             let E := fresh "E" in let R := fresh "R" in
             pose proof (isDigit_char c D) as E;
             pose proof (proj2 (isDigit_spec c D)) as R;
             clear D; rewrite E; generalize dependent (digitVal c); intros
         end.
  do 8 eexists. split; [ | split ]; [ | | reflexivity ]; repeat split; lia.
Qed.

End DateTextFacts.

(** ** Date texts: the order of texts and of days *)

Section DateOrder.

Import JSString Period DateTextProps.

Lemma month_cases' m :
  0 <= m <= 11 ->
  m = 0 \/ m = 1 \/ m = 2 \/ m = 3 \/ m = 4 \/ m = 5 \/ m = 6 \/
  m = 7 \/ m = 8 \/ m = 9 \/ m = 10 \/ m = 11.
Proof. lia. Qed.

(** Months start later and later in the year. *)
Lemma monthStart_next y m :
  0 <= m <= 11 -> monthStart y m + 28 <= monthStart y (m + 1).
Proof.
  intros H. pose proof (daysInMonth_range y m H) as R.
  unfold daysInMonth in R. lia.
Qed.

Lemma monthStart_mono y m m' :
  0 <= m -> m < m' -> m' <= 12 ->
  monthStart y (m + 1) <= monthStart y m'.
Proof.
  intros H0 Hlt H12.
  replace m' with (m + 1 + (m' - m - 1)) by lia.
  assert (Hk : 0 <= m' - m - 1) by lia.
  assert (Hb : m + 1 + (m' - m - 1) <= 12) by lia.
  revert Hk Hb. generalize (m' - m - 1) as k.
  apply (natlike_ind (fun k => m + 1 + k <= 12 ->
                        monthStart y (m + 1) <= monthStart y (m + 1 + k))).
  - intros _. rewrite Z.add_0_r. lia.
  - intros k Hk IH Hb.
    pose proof (monthStart_next y (m + 1 + k) ltac:(lia)).
    replace (m + 1 + Z.succ k) with (m + 1 + k + 1) by lia. lia.
Qed.

Lemma MakeDay_civil y m d :
  0 <= m <= 11 -> MakeDay y m d = DayFromYear y + monthStart y m + d - 1.
Proof.
  intros H. unfold MakeDay.
  rewrite Z.div_small, Z.mod_small by lia. now rewrite Z.add_0_r.
Qed.

(** The day number grows with the calendar date. *)
Lemma MakeDay_lt y m d y' m' d' :
  0 <= m <= 11 -> 1 <= d <= daysInMonth y m ->
  0 <= m' <= 11 -> 1 <= d' <= daysInMonth y' m' ->
  y < y' \/ (y = y' /\ (m < m' \/ (m = m' /\ d < d'))) ->
  MakeDay y m d < MakeDay y' m' d'.
Proof.
  intros Hm Hd Hm' Hd' L.
  rewrite !MakeDay_civil by assumption.
  unfold daysInMonth in *.
  pose proof (monthStart_nonneg y' m' Hm').
  destruct L as [L | [<- [L | [<- L]]]].
  - pose proof (DayFromYear_mono (y + 1) y' ltac:(lia)) as M.
    rewrite DayFromYear_succ in M. unfold DaysInYear in M.
    destruct (Z.eq_dec m 11) as [-> | N].
    + change (11 + 1) with 12 in Hd. cbn [monthStart] in Hd |- *. lia.
    + pose proof (monthStart_mono y m 12 ltac:(lia) ltac:(lia) ltac:(lia)) as S.
      cbn [monthStart] in S. lia.
  - pose proof (monthStart_mono y m m' ltac:(lia) L ltac:(lia)). lia.
  - lia.
Qed.

Lemma MakeDay_compare y m d y' m' d' :
  0 <= m <= 11 -> 1 <= d <= daysInMonth y m ->
  0 <= m' <= 11 -> 1 <= d' <= daysInMonth y' m' ->
  (MakeDay y m d ?= MakeDay y' m' d')
  = (dateKey y (m + 1) d ?= dateKey y' (m' + 1) d').
Proof.
  intros Hm Hd Hm' Hd'.
  pose proof (daysInMonth_range y m Hm).
  pose proof (daysInMonth_range y' m' Hm').
  unfold dateKey.
  destruct (Z.compare_spec (y * 10000 + (m + 1) * 100 + d)
                           (y' * 10000 + (m' + 1) * 100 + d')) as [E | L | G].
  - assert (y = y' /\ m = m' /\ d = d') as (-> & -> & ->) by lia.
    apply Z.compare_refl.
  - apply Z.compare_lt_iff. apply MakeDay_lt; try assumption. lia.
  - apply Z.compare_gt_iff. apply MakeDay_lt; try assumption. lia.
Qed.

(** Code units compare as the digits they stand for. *)
Lemma Ascii_compare_digitVal c c' :
  Ascii.compare c c' = (digitVal c ?= digitVal c').
Proof.
  unfold Ascii.compare, digitVal. rewrite <- N2Z.inj_compare.
  destruct (Z.compare_spec (Z.of_N (N_of_ascii c)) (Z.of_N (N_of_ascii c')))
    as [E | L | G]; symmetry.
  - rewrite E. apply Z.compare_refl.
  - apply Z.compare_lt_iff. lia.
  - apply Z.compare_gt_iff. lia.
Qed.

Lemma digitChar_compare a b :
  0 <= a <= 9 -> 0 <= b <= 9 ->
  Ascii.compare (JSNumber.digitChar a) (JSNumber.digitChar b) = (a ?= b).
Proof.
  intros Ha Hb. rewrite Ascii_compare_digitVal.
  destruct (digitChar_digit a Ha) as (_ & -> & _).
  destruct (digitChar_digit b Hb) as (_ & -> & _). reflexivity.
Qed.

Ltac digit_step :=
  match goal with
  | |- match (?a ?= ?b) with Eq => _ | Lt => Lt | Gt => Gt end = _ =>
      destruct (Z.compare_spec a b) as [-> | ? | ?];
      [ | symmetry; apply Z.compare_lt_iff; lia
        | symmetry; apply Z.compare_gt_iff; lia ]
  end.

(** Two texts of the shape dddd-dd-dd compare as their numbers do. *)
Lemma iso_compare a b c d e f g h a' b' c' d' e' f' g' h' :
  (0 <= a <= 9 /\ 0 <= b <= 9 /\ 0 <= c <= 9 /\ 0 <= d <= 9) ->
  (0 <= e <= 9 /\ 0 <= f <= 9 /\ 0 <= g <= 9 /\ 0 <= h <= 9) ->
  (0 <= a' <= 9 /\ 0 <= b' <= 9 /\ 0 <= c' <= 9 /\ 0 <= d' <= 9) ->
  (0 <= e' <= 9 /\ 0 <= f' <= 9 /\ 0 <= g' <= 9 /\ 0 <= h' <= 9) ->
  String.compare (four a b c d ++ "-" ++ two e f ++ "-" ++ two g h)
                 (four a' b' c' d' ++ "-" ++ two e' f' ++ "-" ++ two g' h')
  = (dateKey (1000 * a + 100 * b + 10 * c + d) (10 * e + f) (10 * g + h)
     ?= dateKey (1000 * a' + 100 * b' + 10 * c' + d') (10 * e' + f')
                (10 * g' + h')).
Proof.
  intros (Ha & Hb & Hc & Hd) (He & Hf & Hg & Hh)
         (Ha' & Hb' & Hc' & Hd') (He' & Hf' & Hg' & Hh').
  unfold four, two, dateKey. cbn [append String.compare].
  rewrite !digitChar_compare by assumption.
  change (Ascii.compare "-" "-") with Eq. cbv iota.
  repeat digit_step.
  symmetry. apply Z.compare_refl.
Qed.

End DateOrder.

(** ** Valid dates, their order and their round trip *)

Section DateFacts.

Import JSString Period ReportRoutes DateTextProps.

Lemma isValidISODate_complete s y m d :
  isoPattern s = true -> splitYMD s = Some (y, m, d) ->
  100 <= y -> 1 <= m <= 12 -> 1 <= d <= monthLength y m ->
  isValidISODate s = true.
Proof.
  intros P E Hy Hm Hd. unfold isValidISODate. rewrite P, E. cbn [negb].
  destruct (getters_UTC y (m - 1) d Hy ltac:(lia) Hd) as (-> & -> & ->).
  rewrite !Z.eqb_refl. reflexivity.
Qed.

Lemma isValidISODate_pattern s : isValidISODate s = true -> isoPattern s = true.
Proof.
  unfold isValidISODate. destruct (isoPattern s); [ reflexivity | ].
  cbn [negb]. discriminate.
Qed.

(** X1.  [isValidISODate] accepts exactly the texts of the form YYYY-MM-DD that
    name a day of the calendar in the years 100 to 9999: the month is 1 to
    12 and the day is 1 to the length of that month.  The years 0000 to
    0099 are refused, because [Date.UTC] reads a year below 100 as 1900 plus
    that year. *)
Theorem isValidISODate_iff_calendar_date (s : string) :
  isValidISODate s = true <->
  isoPattern s = true /\
  exists y m d,
    splitYMD s = Some (y, m, d) /\
    100 <= y <= 9999 /\ 1 <= m <= 12 /\ 1 <= d <= monthLength y m.
Proof.
  split.
  - intros V. split; [ apply isValidISODate_pattern; exact V | ].
    apply isValidISODate_inv. exact V.
  - intros (P & y & m & d & E & Hy & Hm & Hd).
    apply (isValidISODate_complete s y m d); try assumption. lia.
Qed.

(** The parts of a valid date, as digits. *)
Lemma valid_text s y m d :
  isValidISODate s = true -> splitYMD s = Some (y, m, d) ->
  100 <= y <= 9999 /\ 1 <= m <= 12 /\ 1 <= d <= monthLength y m /\
  parseDateUTC s = Some (msPerDay * MakeDay y (m - 1) d) /\
  exists a b c e f g h i,
    (0 <= a <= 9 /\ 0 <= b <= 9 /\ 0 <= c <= 9 /\ 0 <= e <= 9) /\
    (0 <= f <= 9 /\ 0 <= g <= 9 /\ 0 <= h <= 9 /\ 0 <= i <= 9) /\
    s = four a b c e ++ "-" ++ two f g ++ "-" ++ two h i /\
    y = 1000 * a + 100 * b + 10 * c + e /\ m = 10 * f + g /\ d = 10 * h + i.
Proof.
  intros V E.
  destruct (isValidISODate_inv s V) as (y' & m' & d' & E' & Hy & Hm & Hd).
  rewrite E in E'. injection E' as <- <- <-.
  repeat (split; [ assumption | ]).
  split.
  { rewrite (parseDateUTC_eq s y m d E), UTC_modern by lia. reflexivity. }
  destruct (iso_text s (isValidISODate_pattern s V))
    as (a & b & c & e & f & g & h & i & R1 & R2 & Es).
  exists a, b, c, e, f, g, h, i.
  destruct R1 as (Ra & Rb & Rc & Re). destruct R2 as (Rf & Rg & Rh & Ri).
  pose proof (proj2 (iso_of_digits a b c e f g h i Ra Rb Rc Re Rf Rg Rh Ri))
    as S.
  cbv zeta in S. rewrite <- Es, E in S. injection S as -> -> ->.
  repeat split; try lia; try assumption; try reflexivity.
Qed.

Lemma iso_order (a b : string) (ta tb : Z) :
  isValidISODate a = true -> isValidISODate b = true ->
  parseDateUTC a = Some ta -> parseDateUTC b = Some tb ->
  isAfter a b = (tb <? ta) /\ (a = b <-> ta = tb).
Proof.
  intros Ha Hb Pa Pb.
  destruct (isValidISODate_inv a Ha) as (y & m & d & Ea & _).
  destruct (isValidISODate_inv b Hb) as (y' & m' & d' & Eb & _).
  destruct (valid_text a y m d Ha Ea)
    as (Hy & Hm & Hd & Qa & a1 & a2 & a3 & a4 & a5 & a6 & a7 & a8 &
        R1 & R2 & Sa & Ya & Ma & Da).
  destruct (valid_text b y' m' d' Hb Eb)
    as (Hy' & Hm' & Hd' & Qb & b1 & b2 & b3 & b4 & b5 & b6 & b7 & b8 &
        R1' & R2' & Sb & Yb & Mb & Db).
  assert (Ta : ta = msPerDay * MakeDay y (m - 1) d) by congruence.
  assert (Tb : tb = msPerDay * MakeDay y' (m' - 1) d') by congruence.
  clear Qa Qb. subst ta tb.
  assert (C : String.compare b a
              = (MakeDay y' (m' - 1) d' ?= MakeDay y (m - 1) d)).
  { rewrite MakeDay_compare by (unfold monthLength in *; lia).
    rewrite Sa, Sb, iso_compare by assumption.
    rewrite Ya, Ma, Da, Yb, Mb, Db.
    replace (10 * b5 + b6 - 1 + 1) with (10 * b5 + b6) by lia.
    replace (10 * a5 + a6 - 1 + 1) with (10 * a5 + a6) by lia.
    reflexivity. }
  split.
  - unfold isAfter, gt, String.ltb. rewrite C.
    destruct (Z.compare_spec (MakeDay y' (m' - 1) d') (MakeDay y (m - 1) d))
      as [E | L | G]; symmetry.
    + apply Z.ltb_ge. unfold msPerDay. lia.
    + apply Z.ltb_lt. unfold msPerDay. lia.
    + apply Z.ltb_ge. unfold msPerDay. lia.
  - split.
    + intros <-. rewrite Ea in Eb. injection Eb as <- <- <-. reflexivity.
    + intros E. assert (E' : MakeDay y (m - 1) d = MakeDay y' (m' - 1) d')
        by (unfold msPerDay in E; lia).
      rewrite E', Z.compare_refl in C.
      apply String.compare_eq_iff in C. symmetry. exact C.
Qed.

(** X2.  On valid dates the order of the texts, which [isAfter] compares, is
    the order of the days they name: [isAfter a b] holds exactly when the
    day of [a] is later than the day of [b], and two valid dates name the
    same day only when they are the same text. *)
Theorem iso_text_order_is_calendar_order
  (a b : string) (ta tb : Z)
  (Ha : isValidISODate a = true) (Hb : isValidISODate b = true)
  (Pa : parseDateUTC a = Some ta) (Pb : parseDateUTC b = Some tb) :
  isAfter a b = (tb <? ta) /\ (a = b <-> ta = tb).
Proof. exact (iso_order a b ta tb Ha Hb Pa Pb). Qed.

Lemma iso_text_order_witness :
  isAfter "2025-12-31" "2026-01-01" = (UTC 2026 0 1 <? UTC 2025 11 31) /\
  ("2025-12-31" = "2026-01-01" <-> UTC 2025 11 31 = UTC 2026 0 1).
Proof.
  apply (iso_text_order_is_calendar_order "2025-12-31" "2026-01-01");
    vm_compute; reflexivity.
Defined.

(** The text of a day whose year has four digits. *)
Lemma format_day D :
  1000 <= YearFromDay D <= 9999 ->
  let e := formatDateUTC (Some (msPerDay * D)) in
  e = formatCivil (YearFromDay D, MonthFromDay D + 1, DateFromDay D) /\
  isValidISODate e = true /\
  splitYMD e = Some (YearFromDay D, MonthFromDay D + 1, DateFromDay D) /\
  parseDateUTC e = Some (msPerDay * D).
Proof.
  intros Hy. cbv zeta.
  destruct (civil_of_day D) as (Cm & Cd & Mk).
  pose proof (daysInMonth_range (YearFromDay D) _ Cm) as Rl.
  rewrite formatDateUTC_eq, getUTCFullYear_eq, getUTCMonth_eq, getUTCDate_eq,
    Day_times, <- formatCivil_eq.
  set (y := YearFromDay D) in *. set (m := MonthFromDay D) in *.
  set (d := DateFromDay D) in *.
  split; [ reflexivity | ].
  rewrite formatCivil_digits by lia.
  assert (R : forall n, 0 <= n <= 9999 ->
                0 <= n / 1000 <= 9 /\ 0 <= n / 100 mod 10 <= 9 /\
                0 <= n / 10 mod 10 <= 9 /\ 0 <= n mod 10 <= 9 /\
                n = 1000 * (n / 1000) + 100 * (n / 100 mod 10) +
                    10 * (n / 10 mod 10) + n mod 10)
    by (intros n Hn; Z.to_euclidean_division_equations; lia).
  assert (R2 : forall n, 0 <= n <= 99 ->
                0 <= n / 10 <= 9 /\ 0 <= n mod 10 <= 9 /\
                n = 10 * (n / 10) + n mod 10)
    by (intros n Hn; Z.to_euclidean_division_equations; lia).
  destruct (R y ltac:(lia)) as (Y1 & Y2 & Y3 & Y4 & Ey).
  destruct (R2 (m + 1) ltac:(lia)) as (M1 & M2 & Em).
  destruct (R2 d ltac:(lia)) as (D1 & D2 & Ed).
  destruct (iso_of_digits _ _ _ _ _ _ _ _ Y1 Y2 Y3 Y4 M1 M2 D1 D2) as [P S].
  cbv zeta in P, S. rewrite <- Ey, <- Em, <- Ed in S.
  assert (V : isValidISODate
                (four (y / 1000) (y / 100 mod 10) (y / 10 mod 10) (y mod 10) ++
                 "-" ++ two ((m + 1) / 10) ((m + 1) mod 10) ++ "-" ++
                 two (d / 10) (d mod 10)) = true).
  { apply (isValidISODate_complete _ y (m + 1) d P S); try lia.
    unfold monthLength. replace (m + 1 - 1) with m by lia. lia. }
  split; [ exact V | ]. split; [ exact S | ].
  rewrite (parseDateUTC_eq _ _ _ _ S), UTC_modern by lia.
  replace (m + 1 - 1) with m by lia. rewrite Mk. reflexivity.
Qed.

(** X3.  Parsing and formatting are inverse from the year 1000 on:
    [formatDateUTC (parseDateUTC s)] is [s] for a valid date [s] of a year
    from 1000, and a day of the years 1000 to 9999 is formatted as a valid
    date that parses back to that day. *)
Theorem iso_text_round_trip :
  (forall s y m d,
     isValidISODate s = true -> splitYMD s = Some (y, m, d) -> 1000 <= y ->
     formatDateUTC (parseDateUTC s) = s) /\
  (forall D,
     1000 <= YearFromDay D <= 9999 ->
     isValidISODate (formatDateUTC (Some (msPerDay * D))) = true /\
     parseDateUTC (formatDateUTC (Some (msPerDay * D)))
     = Some (msPerDay * D)).
Proof.
  split.
  - intros s y m d V E Hy.
    destruct (valid_text s y m d V E)
      as (Ry & Rm & Rd & Q & a & b & c & e & f & g & h & i &
          R1 & R2 & Es & Ey & Em & Ed).
    rewrite Q.
    destruct (day_of_civil y (m - 1) d ltac:(lia) Rd) as (Gy & Gm & Gd).
    destruct (format_day (MakeDay y (m - 1) d)) as (F & _).
    { rewrite Gy. lia. }
    cbv zeta in F. rewrite F, Gy, Gm, Gd.
    replace (m - 1 + 1) with m by lia.
    unfold formatCivil. rewrite Ey, Em, Ed, Es.
    destruct R1 as (Ra & Rb & Rc & Re). destruct R2 as (Rf & Rg & Rh & Ri).
    rewrite ofZ_four, !pad2_two by lia. reflexivity.
  - intros D Hy. destruct (format_day D Hy) as (_ & V & _ & P).
    split; assumption.
Qed.

End DateFacts.

(** ** Computed period ends, day by day *)

Section PeriodEnds.

Import JSString Period ReportRoutes PeriodProps DateTextProps.

Lemma leapDays_range y : 0 <= leapDays y <= 1.
Proof. unfold leapDays. destruct (InLeapYear y); lia. Qed.

Lemma leap_then_common y : leapDays y = 1 -> leapDays (y + 1) = 0.
Proof.
  unfold leapDays, InLeapYear.
  destruct (y mod 4 =? 0) eqn:E; cbn [andb]; [ | discriminate ].
  intros _. apply Z.eqb_eq in E.
  replace ((y + 1) mod 4 =? 0) with false; [ reflexivity | ].
  symmetry. apply Z.eqb_neq. Z.to_euclidean_division_equations; lia.
Qed.

Lemma YearFromDay_upper y0 d : d < DayFromYear (y0 + 1) -> YearFromDay d <= y0.
Proof.
  intros H. pose proof (YearFromDay_spec d) as S.
  destruct (Z_lt_le_dec y0 (YearFromDay d)) as [L | G]; [ | exact G ].
  pose proof (DayFromYear_mono (y0 + 1) (YearFromDay d) ltac:(lia)). lia.
Qed.

(** [addMonthsUTC] on a calendar date, for a number of months that is not
    negative. *)
Lemma addMonthsUTC_civil y m d k :
  100 <= y -> 0 <= m <= 11 -> 1 <= d <= daysInMonth y m -> 0 <= k ->
  let ty := y + (m + k) / 12 in
  let tm := (m + k) mod 12 in
  addMonthsUTC (Some (UTC y m d)) k
  = Some (msPerDay * MakeDay ty tm (Z.min d (daysInMonth ty tm))).
Proof.
  intros Hy Hm Hd Hk ty tm.
  destruct (getters_UTC y m d Hy Hm Hd) as (Gy & Gm & Gd).
  rewrite addMonthsUTC_eq, Gy, Gm, Gd. fold ty.
  assert (Htm : Z.rem (Z.rem (m + k) 12 + 12) 12 = tm).
  { unfold tm. rewrite !Z.rem_mod_nonneg by
      (try lia; rewrite ?Z.rem_mod_nonneg by lia;
       Z.to_euclidean_division_equations; lia).
    Z.to_euclidean_division_equations; lia. }
  rewrite Htm.
  assert (Rtm : 0 <= tm <= 11) by (unfold tm; Z.to_euclidean_division_equations; lia).
  assert (Rty : 100 <= ty) by (unfold ty; Z.to_euclidean_division_equations; lia).
  rewrite (getUTCDate_eq (UTC ty (tm + 1) 0)), (UTC_modern ty (tm + 1) 0),
    Day_times by lia.
  rewrite lastDay_of_month by assumption.
  rewrite UTC_modern by lia. reflexivity.
Qed.

Lemma addDaysUTC_days D n :
  addDaysUTC (Some (msPerDay * D)) n = Some (msPerDay * (D + n)).
Proof. rewrite addDaysUTC_eq. f_equal. unfold msPerDay. lia. Qed.

(** The first day of the month after [m] of the year [y]. *)
Lemma next_month_start y m :
  0 <= m <= 11 ->
  MakeDay (y + (m + 1) / 12) ((m + 1) mod 12) 1
  = MakeDay y m 1 + daysInMonth y m.
Proof.
  intros Hm. unfold daysInMonth.
  destruct (Z.eq_dec m 11) as [-> | N].
  - change ((11 + 1) / 12) with 1. change ((11 + 1) mod 12) with 0.
    change (11 + 1) with 12.
    rewrite !MakeDay_civil by lia. rewrite DayFromYear_succ.
    unfold DaysInYear. cbn [monthStart]. lia.
  - rewrite Z.div_small, Z.mod_small by lia. rewrite Z.add_0_r.
    rewrite !MakeDay_civil by lia. lia.
Qed.

Lemma MakeDay_day y m d : 0 <= m <= 11 -> MakeDay y m d = MakeDay y m 1 + d - 1.
Proof. intros H. rewrite !MakeDay_civil by assumption. lia. Qed.

(** The same month a year later. *)
Lemma next_year_start y m :
  0 <= m <= 11 ->
  MakeDay (y + 1) m 1
  = MakeDay y m 1 + 365 + (if m <? 2 then leapDays y else leapDays (y + 1)).
Proof.
  intros Hm. rewrite !MakeDay_civil by assumption. rewrite DayFromYear_succ.
  unfold DaysInYear.
  destruct (month_cases' m Hm)
    as [-> | [-> | [-> | [-> | [-> | [-> | [-> | [-> | [-> | [-> | [-> | ->]]]]]]]]]]];
    cbn [monthStart]; cbv [Z.ltb Z.compare Pos.compare Pos.compare_cont]; lia.
Qed.

Lemma year_length_bound y m d :
  0 <= m <= 11 -> 1 <= d <= daysInMonth y m ->
  365 <= 365 + (if m <? 2 then leapDays y else leapDays (y + 1)) +
         Z.min d (daysInMonth (y + 1) m) - d <= 366.
Proof.
  intros Hm Hd.
  pose proof (leapDays_range y) as L0.
  pose proof (leapDays_range (y + 1)) as L1.
  pose proof (leap_then_common y) as Feb.
  unfold daysInMonth in *.
  destruct (month_cases' m Hm)
    as [-> | [-> | [-> | [-> | [-> | [-> | [-> | [-> | [-> | [-> | [-> | ->]]]]]]]]]]];
    cbv [Z.ltb Z.compare Pos.compare Pos.compare_cont];
    simpl (_ + 1) in *; cbn [monthStart] in *; lia.
Qed.

(** The day number [E] of the computed end of a period that starts on the
    day [D = MakeDay y (m - 1) d]. *)
Lemma auto_end_day type s y m d :
  isValidISODate s = true -> splitYMD s = Some (y, m, d) ->
  computed type ->
  let D := MakeDay y (m - 1) d in
  exists E,
    calcAutoPeriodEnd type s = Some (formatDateUTC (Some (msPerDay * E))) /\
    lengthOf type (E - D + 1) /\
    y <= YearFromDay E <= y + 1 /\
    (type = "year" ->
     (YearFromDay E, MonthFromDay E + 1, DateFromDay E)
     = dayBefore (plusOneYearClamped (y, m, d))).
Proof.
  intros V Es Ht D.
  destruct (valid_text s y m d V Es) as (Hy & Hm & Hd & P & _).
  unfold monthLength in Hd.
  assert (Hm0 : 0 <= m - 1 <= 11) by lia.
  destruct (day_of_civil y (m - 1) d Hm0 Hd) as (Gy & _ & _). fold D in Gy.
  pose proof (YearFromDay_spec D) as SD. rewrite Gy in SD.
  pose proof (DayFromYear_succ (y + 1)) as S2.
  pose proof (DaysInYear_pos (y + 1)) as S3.
  pose proof (daysInMonth_range y (m - 1) Hm0) as Rl.
  assert (Years : forall E, D <= E -> E - D <= 365 ->
                    y <= YearFromDay E <= y + 1).
  { intros E L U. split.
    - apply YearFromDay_lower. lia.
    - apply YearFromDay_upper. replace (y + 1 + 1) with (y + 2) in * by lia.
      lia. }
  destruct Ht as [-> | [-> | ->]].
  - exists (D + 6). split; [ | split; [ | split ] ].
    + unfold calcAutoPeriodEnd. cbn [String.eqb Ascii.eqb Bool.eqb].
      rewrite P. fold D. rewrite addDaysUTC_days. reflexivity.
    + left. split; [ reflexivity | lia ].
    + apply Years; lia.
    + discriminate.
  - set (ty := y + (m - 1 + 1) / 12). set (tm := (m - 1 + 1) mod 12).
    assert (Rtm : 0 <= tm <= 11)
      by (unfold tm; Z.to_euclidean_division_equations; lia).
    pose proof (daysInMonth_range ty tm Rtm) as Rn.
    set (day := Z.min d (daysInMonth ty tm)).
    exists (MakeDay ty tm day - 1).
    assert (Diff : MakeDay ty tm day - 1 - D + 1
                   = daysInMonth y (m - 1) + day - d).
    { unfold D. rewrite (MakeDay_day ty tm day), (MakeDay_day y (m - 1) d)
        by assumption.
      unfold ty, tm. rewrite next_month_start by assumption. lia. }
    split; [ | split; [ | split ] ].
    + unfold calcAutoPeriodEnd. cbn [String.eqb Ascii.eqb Bool.eqb].
      rewrite P, <- (UTC_modern y (m - 1) d) by lia.
      rewrite (addMonthsUTC_civil y (m - 1) d 1) by (try assumption; lia).
      fold ty tm day. rewrite addDaysUTC_days. reflexivity.
    + right. left. split; [ reflexivity | ]. rewrite Diff. unfold day. lia.
    + apply Years; unfold day in *; lia.
    + discriminate.
  - set (ty := y + (m - 1 + 12) / 12). set (tm := (m - 1 + 12) mod 12).
    assert (Ety : ty = y + 1)
      by (unfold ty; Z.to_euclidean_division_equations; lia).
    assert (Etm : tm = m - 1)
      by (unfold tm; Z.to_euclidean_division_equations; lia).
    pose proof (daysInMonth_range (y + 1) (m - 1) Hm0) as Rn.
    set (day := Z.min d (daysInMonth (y + 1) (m - 1))).
    exists (MakeDay (y + 1) (m - 1) day - 1).
    pose proof (leapDays_range y) as L0.
    pose proof (leapDays_range (y + 1)) as L1.
    assert (Diff : MakeDay (y + 1) (m - 1) day - 1 - D + 1
                   = 365 + (if m - 1 <? 2 then leapDays y
                            else leapDays (y + 1)) + day - d).
    { unfold D. rewrite (MakeDay_day (y + 1) (m - 1) day),
        (MakeDay_day y (m - 1) d) by assumption.
      rewrite next_year_start by assumption. lia. }
    pose proof (year_length_bound y (m - 1) d Hm0 Hd) as Bound. fold day in Bound.
    split; [ | split; [ | split ] ].
    + unfold calcAutoPeriodEnd. cbn [String.eqb Ascii.eqb Bool.eqb].
      unfold addYearsUTC. change (1 * 12) with 12.
      rewrite P, <- (UTC_modern y (m - 1) d) by lia.
      rewrite (addMonthsUTC_civil y (m - 1) d 12) by (try assumption; lia).
      fold ty tm. rewrite Ety, Etm. fold day. rewrite addDaysUTC_days.
      reflexivity.
    + right. right. split; [ reflexivity | ]. rewrite Diff. exact Bound.
    + apply Years; lia.
    + intros _.
      pose proof (civil_dayBefore (y + 1) (m - 1) day Hm0 ltac:(unfold day; lia))
        as B. cbv zeta in B. rewrite B.
      unfold plusOneYearClamped, monthLength, day.
      replace (m - 1 + 1) with m by lia. reflexivity.
Qed.

End PeriodEnds.

(** ** Computed period ends and counted days *)

Section PeriodTheorems.

Import JSString Period ReportRoutes PeriodProps DateTextProps.

Lemma daysInclusive_days a b Da Db :
  parseDateUTC a = Some (msPerDay * Da) ->
  parseDateUTC b = Some (msPerDay * Db) ->
  Da <= Db -> daysInclusive a b = Db - Da + 1.
Proof.
  intros Pa Pb L. unfold daysInclusive. rewrite Pa, Pb. cbv zeta.
  replace (msPerDay * Db - msPerDay * Da <? 0) with false
    by (symmetry; apply Z.ltb_ge; unfold msPerDay; lia).
  replace (msPerDay * Db - msPerDay * Da)
    with ((Db - Da) * (24 * 60 * 60 * 1000)) by (unfold msPerDay; lia).
  rewrite Z.div_mul by discriminate. reflexivity.
Qed.

(** The computed end as a text, with the day number it stands for. *)
Lemma auto_end_text type s y m d :
  isValidISODate s = true -> splitYMD s = Some (y, m, d) ->
  1000 <= y <= 9998 -> computed type ->
  exists e E,
    calcAutoPeriodEnd type s = Some e /\
    isValidISODate e = true /\
    parseDateUTC e = Some (msPerDay * E) /\
    parseDateUTC s = Some (msPerDay * MakeDay y (m - 1) d) /\
    lengthOf type (E - MakeDay y (m - 1) d + 1).
Proof.
  intros V Es Hy Ht.
  destruct (auto_end_day type s y m d V Es Ht) as (E & C & L & Y & _).
  destruct (format_day E ltac:(lia)) as (_ & Ve & _ & Pe).
  destruct (valid_text s y m d V Es) as (_ & _ & _ & Ps & _).
  exists (formatDateUTC (Some (msPerDay * E))), E.
  repeat split; assumption.
Qed.

Lemma lengthOf_positive type n : lengthOf type n -> 1 <= n.
Proof. intros [[_ ->] | [[_ H] | [_ H]]]; lia. Qed.

(** X4.  For a valid start in the years 1000 to 9998 and the period type week,
    month or year, [calcAutoPeriodEnd] gives an end that is a valid date and
    is not before the start. *)
Theorem computed_period_end_is_a_date_not_before_start
  (type s : string) (y m d : Z)
  (Hvalid : isValidISODate s = true)
  (Hparts : splitYMD s = Some (y, m, d))
  (Hyear : 1000 <= y <= 9998)
  (Htype : computed type) :
  exists e,
    calcAutoPeriodEnd type s = Some e /\
    isValidISODate e = true /\
    isAfter s e = false.
Proof.
  destruct (auto_end_text type s y m d Hvalid Hparts Hyear Htype)
    as (e & E & C & Ve & Pe & Ps & L).
  exists e. split; [ exact C | ]. split; [ exact Ve | ].
  rewrite (proj1 (iso_order s e _ _ Hvalid Ve Ps Pe)).
  apply lengthOf_positive in L. apply Z.ltb_ge. unfold msPerDay. lia.
Qed.

Lemma computed_period_end_witness :
  exists e,
    calcAutoPeriodEnd "year" "2024-02-29" = Some e /\
    isValidISODate e = true /\
    isAfter "2024-02-29" e = false.
Proof.
  apply (computed_period_end_is_a_date_not_before_start
           "year" "2024-02-29" 2024 2 29);
    [ vm_compute; reflexivity | vm_compute; reflexivity | lia
    | right; right; reflexivity ].
Defined.

(** X5.  For a valid start in the years 1000 to 9998, the period from the
    start to the computed end, both days included ([daysInclusive]), has 7
    days for a week, 28 to 31 days for a month and 365 or 366 days for a
    year. *)
Theorem computed_period_has_the_days_of_its_type
  (type s : string) (y m d : Z)
  (Hvalid : isValidISODate s = true)
  (Hparts : splitYMD s = Some (y, m, d))
  (Hyear : 1000 <= y <= 9998)
  (Htype : computed type) :
  exists e,
    calcAutoPeriodEnd type s = Some e /\
    lengthOf type (daysInclusive s e).
Proof.
  destruct (auto_end_text type s y m d Hvalid Hparts Hyear Htype)
    as (e & E & C & Ve & Pe & Ps & L).
  exists e. split; [ exact C | ].
  rewrite (daysInclusive_days s e _ _ Ps Pe); [ exact L | ].
  apply lengthOf_positive in L. lia.
Qed.

Lemma computed_period_days_witness :
  exists e,
    calcAutoPeriodEnd "month" "2025-01-31" = Some e /\
    lengthOf "month" (daysInclusive "2025-01-31" e).
Proof.
  apply (computed_period_has_the_days_of_its_type
           "month" "2025-01-31" 2025 1 31);
    [ vm_compute; reflexivity | vm_compute; reflexivity | lia
    | right; left; reflexivity ].
Defined.

(** X6.  For every valid start the end of a year period is the day before the
    same day of the next year, where the day of the month is first clamped
    to the length of the target month: a year starting on 29 February 2024
    ends on 27 February 2025. *)
Theorem year_period_end_is_day_before_clamped_next_year
  (s : string) (y m d : Z)
  (Hvalid : isValidISODate s = true)
  (Hparts : splitYMD s = Some (y, m, d)) :
  calcAutoPeriodEnd "year" s
  = Some (formatCivil (dayBefore (plusOneYearClamped (y, m, d)))).
Proof.
  destruct (auto_end_day "year" s y m d Hvalid Hparts
              ltac:(right; right; reflexivity)) as (E & C & _ & _ & B).
  rewrite C, <- (B eq_refl), formatDateUTC_eq, getUTCFullYear_eq,
    getUTCMonth_eq, getUTCDate_eq, Day_times.
  reflexivity.
Qed.

Lemma year_period_end_witness :
  calcAutoPeriodEnd "year" "2024-02-29"
  = Some (formatCivil (dayBefore (plusOneYearClamped (2024, 2, 29)))).
Proof.
  apply (year_period_end_is_day_before_clamped_next_year
           "2024-02-29" 2024 2 29); vm_compute; reflexivity.
Defined.

Lemma ofZ_three Y :
  100 <= Y <= 999 ->
  exists a b c, ofZ Y = String a (String b (String c "")).
Proof.
  intros H.
  assert (T : forallb (fun Y => match ofZ Y with
                                | String _ (String _ (String _ "")) => true
                                | _ => false
                                end) threeDigitYears = true)
    by (vm_compute; reflexivity).
  rewrite forallb_forall in T.
  assert (I : In Y threeDigitYears).
  { unfold threeDigitYears. apply in_map_iff. exists (Z.to_nat Y).
    split; [ lia | apply in_seq; lia ]. }
  specialize (T Y I).
  destruct (ofZ Y) as [ | a [ | b [ | c [ | ? ? ] ] ] ]; try discriminate T.
  now exists a, b, c.
Qed.

Lemma isoPattern_short_year a b c r :
  isoPattern (String a (String b (String c (String "-" r)))) = false.
Proof.
  do 6 (destruct r as [ | ? r ]; [ reflexivity | ]).
  destruct r as [ | ? r ]; [ | reflexivity ].
  cbn [isoPattern]. change (isDigit "-") with false.
  rewrite andb_false_r. reflexivity.
Qed.

(** X7.  For a valid start whose year is at most 998 (the valid years then
    being 100 to 998) and the period type week, month or year, the computed
    end is not a valid date: [formatDateUTC] writes the year without padding
    it to four digits. *)
Theorem computed_end_with_three_digit_year_is_not_a_date
  (type s : string) (y m d : Z)
  (Hvalid : isValidISODate s = true)
  (Hparts : splitYMD s = Some (y, m, d))
  (Hyear : y <= 998)
  (Htype : computed type) :
  exists e,
    calcAutoPeriodEnd type s = Some e /\ isValidISODate e = false.
Proof.
  destruct (auto_end_day type s y m d Hvalid Hparts Htype)
    as (E & C & _ & Y & _).
  destruct (valid_text s y m d Hvalid Hparts) as (Hy & _).
  exists (formatDateUTC (Some (msPerDay * E))). split; [ exact C | ].
  rewrite formatDateUTC_eq, getUTCFullYear_eq, Day_times.
  assert (R : 100 <= YearFromDay E <= 999) by lia.
  destruct (ofZ_three (YearFromDay E) R) as (a & b & c & ->).
  cbn [append]. unfold isValidISODate.
  rewrite isoPattern_short_year. reflexivity.
Qed.

Lemma computed_end_with_three_digit_year_witness :
  exists e,
    calcAutoPeriodEnd "week" "0998-12-28" = Some e /\
    isValidISODate e = false.
Proof.
  apply (computed_end_with_three_digit_year_is_not_a_date
           "week" "0998-12-28" 998 12 28);
    [ vm_compute; reflexivity | vm_compute; reflexivity | lia
    | left; reflexivity ].
Defined.

(** X8.  A period that [requirePeriod] returns has two valid dates, the first
    not after the second; [daysInclusive] counts at least one day for it,
    and exactly one day when and only when the two dates are equal. *)
Theorem required_period_counts_at_least_one_day
  (q : Query) (a b : string)
  (Hperiod : requirePeriod q = inr (a, b)) :
  isValidISODate a = true /\ isValidISODate b = true /\
  isAfter a b = false /\
  1 <= daysInclusive a b /\
  (daysInclusive a b = 1 <-> a = b).
Proof.
  revert Hperiod. unfold requirePeriod.
  destruct (Query.textOrNull (date_from q)) as [f | ]; [ | discriminate ].
  destruct (Query.textOrNull (date_to q)) as [t | ]; [ | discriminate ].
  destruct (isValidISODate f) eqn:Vf; cbn [negb]; [ | discriminate ].
  destruct (isValidISODate t) eqn:Vt; cbn [negb]; [ | discriminate ].
  destruct (isAfter f t) eqn:Af; [ discriminate | ].
  intros E. injection E as <- <-.
  repeat (split; [ assumption | ]).
  destruct (isValidISODate_inv f Vf) as (y & m & d & Ef & _).
  destruct (isValidISODate_inv t Vt) as (y' & m' & d' & Et & _).
  destruct (valid_text f y m d Vf Ef) as (_ & _ & _ & Pf & _).
  destruct (valid_text t y' m' d' Vt Et) as (_ & _ & _ & Pt & _).
  destruct (iso_order f t _ _ Vf Vt Pf Pt) as [O Q].
  rewrite Af in O. symmetry in O. apply Z.ltb_ge in O.
  assert (L : MakeDay y (m - 1) d <= MakeDay y' (m' - 1) d')
    by (unfold msPerDay in O; lia).
  rewrite (daysInclusive_days f t _ _ Pf Pt L).
  split; [ lia | ]. rewrite Q. unfold msPerDay. lia.
Qed.

Lemma required_period_witness :
  isValidISODate "2025-12-01" = true /\ isValidISODate "2025-12-31" = true /\
  isAfter "2025-12-01" "2025-12-31" = false /\
  1 <= daysInclusive "2025-12-01" "2025-12-31" /\
  (daysInclusive "2025-12-01" "2025-12-31" = 1 <-> "2025-12-01" = "2025-12-31").
Proof.
  apply (required_period_counts_at_least_one_day
           (mkQuery (Some "2025-12-01") (Some "2025-12-31") None None None)).
  vm_compute. reflexivity.
Defined.

End PeriodTheorems.

(** ** The limits report: lists, totals and the dates of the query *)

Section ReportFacts.

Import JS JSNumber Query ReportRoutes ReportRouteProps.

(** *** Comma-separated lists *)

Lemma split_nonempty sep s : split sep s <> [].
Proof.
  destruct s as [ | c r]; cbn [split]; [ discriminate | ].
  destruct (Ascii.eqb c sep); [ discriminate | ].
  destruct (split sep r); discriminate.
Qed.

Lemma split_free sep s : free sep s = true -> split sep s = [s].
Proof.
  induction s as [ | c r IH]; cbn [free split]; [ reflexivity | ].
  intros H. apply andb_prop in H. destruct H as [N F].
  apply negb_true_iff in N. rewrite N, (IH F). reflexivity.
Qed.

Lemma split_app sep x r :
  free sep x = true -> split sep (x ++ String sep r) = x :: split sep r.
Proof.
  induction x as [ | c x IH]; cbn [free append split].
  - intros _. rewrite Ascii.eqb_refl. reflexivity.
  - intros H. apply andb_prop in H. destruct H as [N F].
    apply negb_true_iff in N. rewrite N, (IH F). reflexivity.
Qed.

Lemma split_items_free sep s x : In x (split sep s) -> free sep x = true.
Proof.
  revert x. induction s as [ | c r IH]; cbn [split]; intros x H.
  - destruct H as [<- | []]. reflexivity.
  - destruct (Ascii.eqb c sep) eqn:E.
    + destruct H as [<- | H]; [ reflexivity | apply IH; exact H ].
    + pose proof (split_nonempty sep r) as N.
      destruct (split sep r) as [ | p ps]; [ contradiction | ].
      destruct H as [<- | H].
      * cbn [free]. rewrite E. cbn [negb andb]. apply IH. now left.
      * apply IH. now right.
Qed.

Lemma free_trimStart c s : free c s = true -> free c (trimStart s) = true.
Proof.
  induction s as [ | x r IH]; cbn [trimStart]; [ trivial | ].
  intros H. destruct (isWhite x); [ | exact H ].
  cbn [free] in H. apply andb_prop in H. apply IH. apply H.
Qed.

Lemma free_trimEnd c s : free c s = true -> free c (trimEnd s) = true.
Proof.
  induction s as [ | x r IH]; cbn [trimEnd]; [ trivial | ].
  intros H. cbn [free] in H. apply andb_prop in H. destruct H as [N F].
  specialize (IH F).
  destruct (trimEnd r) as [ | y t].
  - destruct (isWhite x); [ reflexivity | ]. cbn [free]. rewrite N. reflexivity.
  - cbn [free] in *. rewrite N. exact IH.
Qed.

Lemma free_trim c s : free c s = true -> free c (trim s) = true.
Proof. intros H. unfold trim. apply free_trimEnd, free_trimStart, H. Qed.

(** White space is trimmed once and for all. *)
Lemma trimEnd_first s c r :
  trimEnd s = String c r -> exists r0, s = String c r0.
Proof.
  destruct s as [ | x t]; cbn [trimEnd]; [ discriminate | ].
  destruct (trimEnd t).
  - destruct (isWhite x); [ discriminate | ].
    intros E. injection E as <- _. now exists t.
  - intros E. injection E as <- _. now exists t.
Qed.

Lemma trimStart_head s c r :
  trimStart s = String c r -> isWhite c = false.
Proof.
  induction s as [ | x t IH]; cbn [trimStart]; [ discriminate | ].
  destruct (isWhite x) eqn:W; [ exact IH | ].
  intros E. injection E as <- _. exact W.
Qed.

Lemma trimStart_fixed c r : isWhite c = false -> trimStart (String c r) = String c r.
Proof. intros W. cbn [trimStart]. rewrite W. reflexivity. Qed.

Lemma trimEnd_idem s : trimEnd (trimEnd s) = trimEnd s.
Proof.
  induction s as [ | x t IH]; cbn [trimEnd]; [ reflexivity | ].
  destruct (trimEnd t) as [ | y u] eqn:E.
  - destruct (isWhite x) eqn:W; [ reflexivity | ].
    cbn [trimEnd]. rewrite W. reflexivity.
  - cbn [trimEnd] in *. 
    destruct (match trimEnd u with
              | "" => if isWhite y then "" else String y ""
              | String a s0 => String y (String a s0)
              end) eqn:M; [ discriminate IH | ].
    rewrite IH. reflexivity.
Qed.

Lemma trim_idem s : trim (trim s) = trim s.
Proof.
  unfold trim.
  destruct (trimEnd (trimStart s)) as [ | c r] eqn:E; [ reflexivity | ].
  destruct (trimEnd_first _ _ _ E) as (r0 & S).
  pose proof (trimStart_head _ _ _ S) as W.
  rewrite (trimStart_fixed c r W), <- E. apply trimEnd_idem.
Qed.

(** X9.  Every item [parseCsvList] returns is not empty, contains no comma and
    has no white space at either end; and a list of such items joined with
    commas is parsed back to the same list. *)
Theorem parseCsvList_items_and_round_trip :
  (forall value x, In x (parseCsvList value) -> clean x) /\
  (forall items, Forall clean items ->
                 parseCsvList (join "," items) = items).
Proof.
  split.
  - intros value x H. unfold parseCsvList in H.
    apply filter_In in H. destruct H as [H N].
    apply in_map_iff in H. destruct H as (p & <- & Hp).
    repeat split.
    + intros E. rewrite E in N. discriminate N.
    + apply free_trim. eapply split_items_free. exact Hp.
    + apply trim_idem.
  - intros items H. unfold parseCsvList.
    induction H as [ | x r (Nx & Fx & Tx) Hr IH]; [ reflexivity | ].
    assert (Keep : negb (String.eqb x "") = true)
      by (apply negb_true_iff, String.eqb_neq; exact Nx).
    destruct r as [ | y r'].
    + cbn [join]. rewrite (split_free "," x Fx). cbn [map filter].
      rewrite Tx, Keep. reflexivity.
    + change (join "," (x :: y :: r'))
        with (x ++ String "," (join "," (y :: r'))).
      rewrite (split_app "," x _ Fx). cbn [map filter].
      rewrite Tx, Keep. f_equal. exact IH.
Qed.

(** *** The limits report *)

Lemma status_cases r :
  Reports.status (Reports.normalizeLimitRow r) = "ok" \/
  Reports.status (Reports.normalizeLimitRow r) = "threshold_reached" \/
  Reports.status (Reports.normalizeLimitRow r) = "limit_exceeded".
Proof.
  unfold Reports.normalizeLimitRow. cbv zeta. cbn [Reports.status].
  destruct (ge (Reports.percentOf r) (ofInt 100)); [ auto | ].
  match goal with
  | |- context [if ?c then _ else _] => destruct c
  end; auto.
Qed.

Lemma counts_add_up items :
  Forall (fun i => Reports.status i = "ok" \/
                   Reports.status i = "threshold_reached" \/
                   Reports.status i = "limit_exceeded") items ->
  count "ok" items + count "threshold_reached" items +
  count "limit_exceeded" items = Z.of_nat (List.length items).
Proof.
  unfold count. induction 1 as [ | i r Hi Hr IH]; [ reflexivity | ].
  cbn [filter List.length].
  destruct Hi as [-> | [-> | ->]]; cbn [String.eqb Ascii.eqb Bool.eqb];
    cbn [List.length]; lia.
Qed.

(** X10.  In the limits report, [limits_count] is the number of items returned
    and [ok_count], [threshold_reached_count] and [limit_exceeded_count] add
    up to it.  Every item has one of the three statuses and, under a status
    filter that is not empty, one of the statuses asked for. *)
Theorem limits_report_counts_add_up
  (db : Database) (userId : Z) (types statuses : option (list string))
  (ids : option (list number)) (period : option (string * string)) :
  let totals := fst (fetchLimitsReportData db userId types statuses ids period) in
  let items := snd (fetchLimitsReportData db userId types statuses ids period) in
  limits_count totals = Z.of_nat (List.length items) /\
  ok_count totals + threshold_reached_count totals + limit_exceeded_count totals
  = limits_count totals /\
  (forall i, In i items -> has LIMIT_STATUSES (Reports.status i) = true) /\
  (forall wanted i, statuses = Some wanted -> wanted <> [] -> In i items ->
                    has wanted (Reports.status i) = true).
Proof.
  cbv zeta. unfold fetchLimitsReportData. cbv zeta. cbn [fst snd].
  set (rows := db _).
  set (items := match statuses with
                | Some (s :: r) =>
                    filter (fun it => has (s :: r) (Reports.status it))
                      (map Reports.normalizeLimitRow rows)
                | _ => map Reports.normalizeLimitRow rows
                end).
  cbn [limits_count ok_count threshold_reached_count limit_exceeded_count].
  assert (Hall : forall i, In i items ->
                   exists r, i = Reports.normalizeLimitRow r).
  { intros i Hi. unfold items in Hi.
    destruct statuses as [ [ | s r] | ];
      try (apply filter_In in Hi; destruct Hi as [Hi _]);
      apply in_map_iff in Hi; destruct Hi as (x & <- & _); now exists x. }
  split; [ reflexivity | ]. split; [ | split ].
  - apply counts_add_up. apply Forall_forall. intros i Hi.
    destruct (Hall i Hi) as (r & ->). apply status_cases.
  - intros i Hi. destruct (Hall i Hi) as (r & ->).
    destruct (status_cases r) as [-> | [-> | ->]]; reflexivity.
  - intros wanted i -> N Hi. unfold items in Hi.
    destruct wanted as [ | s r]; [ contradiction | ].
    apply filter_In in Hi. apply Hi.
Qed.

(** X11.  [GET /api/reports/limits] returns without sending any response only
    when [date_from] and [date_to] are each absent or blank while one of
    them is a text that is not empty (white space only); and for a query
    with no other filter it does so whenever the dates are like that. *)
Theorem limits_report_blank_dates_get_no_response
  (db : Database) (userId : Z) (q : ReportRoutes.Query) :
  (limits db userId q = None -> blankDates q) /\
  (unfiltered q -> blankDates q -> limits db userId q = None).
Proof.
  unfold blankDates, unfiltered. split.
  - unfold limits.
    repeat match goal with
           | |- (if ?c then Some _ else _) = None -> _ =>
               destruct c; [ discriminate | ]
           end.
    unfold optionalPeriod. cbv zeta.
    destruct (hasText (date_from q)) eqn:F; destruct (hasText (date_to q)) eqn:T;
      cbn [negb andb orb].
    + destruct (date_from q) as [f | ]; [ | discriminate F ].
      destruct (date_to q) as [t | ]; [ | discriminate T ].
      destruct (negb (Period.isValidISODate f)).
      { cbn [truthy]. destruct (_ || _); discriminate. }
      destruct (negb (Period.isValidISODate t)).
      { cbn [truthy]. destruct (_ || _); discriminate. }
      destruct (Period.isAfter f t).
      { cbn [truthy]. destruct (_ || _); discriminate. }
      destruct (fetchLimitsReportData _ _ _ _ _ _). discriminate.
    + destruct (_ || _); [ discriminate | ].
      destruct (fetchLimitsReportData _ _ _ _ _ _). discriminate.
    + destruct (_ || _); [ discriminate | ].
      destruct (fetchLimitsReportData _ _ _ _ _ _). discriminate.
    + destruct (truthy (date_from q) || truthy (date_to q)) eqn:B.
      * intros _. repeat split.
      * destruct (fetchLimitsReportData _ _ _ _ _ _). discriminate.
  - intros (Pt & Pi & Ps) (F & T & B). unfold limits.
    rewrite Pt, Pi, Ps. cbn [textOrNull truthy andb].
    unfold optionalPeriod. cbv zeta. rewrite F, T. cbn [negb andb].
    rewrite B. reflexivity.
Qed.

Lemma limits_report_blank_dates_witness :
  limits (fun _ => []) 7 (mkQuery (Some " ") None None None None) = None.
Proof.
  apply (proj2 (limits_report_blank_dates_get_no_response
                  (fun _ => []) 7 (mkQuery (Some " ") None None None None))).
  - repeat split.
  - repeat split.
Defined.

End ReportFacts.

(** ** CSV fields *)

Section CsvFacts.

Import JS JSNumber Query ReportRoutes ReportRouteProps.

Lemma quoted_injective s t :
  doubleQuotes s ++ String quote "" = doubleQuotes t ++ String quote "" ->
  s = t.
Proof.
  revert t. induction s as [ | c r IH]; intros [ | c' r']; cbn [doubleQuotes].
  - reflexivity.
  - destruct (Ascii.eqb c' quote) eqn:E; cbn [append]; intros H.
    + discriminate H.
    + inversion H as [Hc]. rewrite <- Hc, Ascii.eqb_refl in E. discriminate E.
  - destruct (Ascii.eqb c quote) eqn:E; cbn [append]; intros H.
    + discriminate H.
    + inversion H as [Hc]. rewrite Hc, Ascii.eqb_refl in E. discriminate E.
  - destruct (Ascii.eqb c quote) eqn:E; destruct (Ascii.eqb c' quote) eqn:E';
      cbn [append]; intros H.
    + apply Ascii.eqb_eq in E, E'. subst c c'.
      inversion H as [Ht]. f_equal. apply IH. exact Ht.
    + inversion H as [[Hc Ht]]. rewrite <- Hc, Ascii.eqb_refl in E'.
      discriminate E'.
    + inversion H as [[Hc Ht]]. rewrite Hc, Ascii.eqb_refl in E.
      discriminate E.
    + inversion H as [[Hc Ht]]. f_equal. apply IH. exact Ht.
Qed.

Lemma plain_has_no_quote s r :
  needsQuotes s = false -> s <> String quote r.
Proof.
  intros N E. subst s. cbn [needsQuotes] in N.
  rewrite Ascii.eqb_refl in N. rewrite orb_true_r in N. discriminate N.
Qed.

(** X12.  Two values are written as the same CSV field exactly when their
    normalised texts ([excelNormalize]) are equal: wrapping in quotes and
    doubling the quotes never makes two different texts coincide. *)
Theorem csvEscape_keeps_fields_apart (a b : JsVal) :
  csvEscape a = csvEscape b <-> excelNormalize a = excelNormalize b.
Proof.
  unfold csvEscape. cbv zeta. split; [ | intros ->; reflexivity ].
  destruct (needsQuotes (excelNormalize a)) eqn:Na;
    destruct (needsQuotes (excelNormalize b)) eqn:Nb; intros H.
  - inversion H as [Ht]. apply quoted_injective. exact Ht.
  - exfalso. symmetry in H. exact (plain_has_no_quote _ _ Nb H).
  - exfalso. exact (plain_has_no_quote _ _ Na H).
  - exact H.
Qed.

End CsvFacts.

(** ** Admin listings: pages *)

Section AdminQueryFacts.

Import JS JSNumber Query Admin AdminProps AdminQueries AdminTableProps.

(** Comparing the other way round gives the opposite answer. *)
Lemma SFcompare_antisym x y :
  SFcompare y x = option_map CompOpp (SFcompare x y).
Proof.
  destruct x as [sx | sx | | sx mx ex], y as [sy | sy | | sy my ey];
    cbn [SFcompare option_map]; try reflexivity;
    try (destruct sx; reflexivity); try (destruct sy; reflexivity);
    try (destruct sx, sy; reflexivity).
  pose proof (eq_sym (Pos.compare_cont_antisym mx my Eq)) as P.
  cbn [CompOpp] in P.
  destruct sx, sy; cbn [CompOpp]; try reflexivity;
    rewrite (Z.compare_antisym ex ey);
    destruct (ex ?= ey); cbn [CompOpp]; try reflexivity;
    rewrite P; destruct (Pos.compare_cont Eq mx my); reflexivity.
Qed.

Lemma lt_le x y : lt x y = true -> le x y = true.
Proof.
  unfold lt, le, SFltb, SFleb. destruct (SFcompare x y) as [[] | ];
    intros H; try discriminate H; reflexivity.
Qed.

(** On numbers that are not NaN, [x] is at most [y] unless [y < x]. *)
Lemma not_lt_le x y :
  isFinite x = true -> isFinite y = true -> lt y x = false -> le x y = true.
Proof.
  unfold lt, le, SFltb, SFleb. intros Fx Fy. rewrite (SFcompare_antisym y x).
  destruct x, y; try discriminate Fx; try discriminate Fy;
    destruct (SFcompare _ _) as [[] | ] eqn:C; cbn [option_map CompOpp];
    intros H; try discriminate H; try reflexivity;
    cbn [SFcompare] in C; discriminate C.
Qed.

Lemma le_refl_finite x : isFinite x = true -> le x x = true.
Proof.
  intros F. apply not_lt_le; try assumption.
  unfold lt, SFltb. pose proof (SFcompare_antisym x x) as A.
  destruct (SFcompare x x) as [[] | ]; try reflexivity; discriminate A.
Qed.

Lemma max_lower lo x :
  isFinite lo = true -> isFinite x = true ->
  isFinite (max lo x) = true /\ le lo (max lo x) = true /\
  (max lo x = x \/ max lo x = lo \/
   exists s s', lo = S754_zero s /\ x = S754_zero s').
Proof.
  intros Fl Fx. unfold max.
  destruct lo as [sl | sl | | sl ml el]; try discriminate Fl;
    destruct x as [sx | sx | | sx mx ex]; try discriminate Fx.
  - split; [ reflexivity | ]. split; [ reflexivity | ].
    right. right. now exists sl, sx.
  - fold (lt (S754_zero sl) (S754_finite sx mx ex)).
    destruct (lt (S754_zero sl) (S754_finite sx mx ex)) eqn:L.
    + split; [ reflexivity | ]. split; [ apply lt_le; exact L | now left ].
    + split; [ reflexivity | ]. split; [ reflexivity | right; now left ].
  - fold (lt (S754_finite sl ml el) (S754_zero sx)).
    destruct (lt (S754_finite sl ml el) (S754_zero sx)) eqn:L.
    + split; [ reflexivity | ]. split; [ apply lt_le; exact L | now left ].
    + split; [ reflexivity | ].
      split; [ apply le_refl_finite; reflexivity | right; now left ].
  - fold (lt (S754_finite sl ml el) (S754_finite sx mx ex)).
    destruct (lt (S754_finite sl ml el) (S754_finite sx mx ex)) eqn:L.
    + split; [ reflexivity | ]. split; [ apply lt_le; exact L | now left ].
    + split; [ reflexivity | ].
      split; [ apply le_refl_finite; reflexivity | right; now left ].
Qed.

Lemma pageLimit_bounds v : between (ofInt 1) (ofInt 200) (pageLimit v).
Proof.
  unfold pageLimit, between. cbv zeta.
  set (raw := match v with Some s => ofString s | None => ofInt 50 end).
  destruct (isFinite raw) eqn:F; [ | repeat split; vm_compute; reflexivity ].
  destruct (max_lower (ofInt 1) raw eq_refl F) as (Fm & Lm & Cm).
  set (m := max (ofInt 1) raw) in *.
  assert (Nz : forall s, m <> S754_zero s).
  { intros s E. rewrite E in Lm. vm_compute in Lm. discriminate Lm. }
  unfold min.
  destruct m as [sm | sm | | sm mm em] eqn:Em; try discriminate Fm.
  { exfalso. exact (Nz sm eq_refl). }
  change (ofInt 200) with (S754_finite false 7036874417766400 (-45)).
  cbv iota.
  fold (lt (S754_finite false 7036874417766400 (-45)) (S754_finite sm mm em)).
  destruct (lt (S754_finite false 7036874417766400 (-45))
               (S754_finite sm mm em)) eqn:L.
  - repeat split; vm_compute; reflexivity.
  - split; [ reflexivity | ]. split; [ exact Lm | ].
    apply not_lt_le; [ reflexivity | reflexivity | exact L ].
Qed.

Lemma pageOffset_bounds v :
  isFinite (pageOffset v) = true /\ le (ofInt 0) (pageOffset v) = true.
Proof.
  unfold pageOffset. cbv zeta.
  set (raw := match v with Some s => ofString s | None => ofInt 0 end).
  destruct (isFinite raw) eqn:F; [ | split; vm_compute; reflexivity ].
  destruct (max_lower (ofInt 0) raw eq_refl F) as (Fm & Lm & _).
  split; assumption.
Qed.

(** X13.  Whatever [limit] and [offset] the query gives, [GET /api/admin/users]
    and [GET /api/admin/audit-logs] ask the database for a page of 1 to 200
    rows at an offset that is finite and not negative; and the user listing
    filters on a role only when it is [user] or [admin]. *)
Theorem listings_ask_for_a_bounded_page :
  (forall query page, getUsers query = inr page -> bounded page) /\
  (forall query page, getAuditLogs query = inr page -> bounded page) /\
  (forall query page, getUsers query = inr page ->
     forall r, w_role (p_where page) = Some r -> isRole r = true).
Proof.
  split; [ | split ].
  - intros query page. unfold getUsers. cbv zeta.
    destruct (match q_role query with
              | Some s => Some (trim s)
              | None => None
              end) as [r | ].
    + destruct (negb (String.eqb r "") && negb (isRole r)); [ discriminate | ].
      destruct (q_is_blocked query) as [raw | ];
        [ destruct (parseBool (JStr raw)); [ | discriminate ] | ];
        intros E; injection E as <-; unfold bounded; cbn [p_limit p_offset];
        (split; [ apply pageLimit_bounds | apply pageOffset_bounds ]).
    + destruct (q_is_blocked query) as [raw | ];
        [ destruct (parseBool (JStr raw)); [ | discriminate ] | ];
        intros E; injection E as <-; unfold bounded; cbn [p_limit p_offset];
        (split; [ apply pageLimit_bounds | apply pageOffset_bounds ]).
  - intros query page. unfold getAuditLogs. cbv zeta.
    destruct (String.eqb _ "").
    + intros E; injection E as <-; unfold bounded; cbn [p_limit p_offset];
        (split; [ apply pageLimit_bounds | apply pageOffset_bounds ]).
    + destruct (negb (isInteger _) || le _ (ofInt 0)); [ discriminate | ].
      intros E; injection E as <-; unfold bounded; cbn [p_limit p_offset];
        (split; [ apply pageLimit_bounds | apply pageOffset_bounds ]).
  - intros query page. unfold getUsers. cbv zeta.
    destruct (match q_role query with
              | Some s => Some (trim s)
              | None => None
              end) as [r | ].
    + destruct (String.eqb r "") eqn:Er; cbn [negb andb].
      * destruct (q_is_blocked query) as [raw | ];
          [ destruct (parseBool (JStr raw)); [ | discriminate ] | ];
          intros E; injection E as <-; cbn [p_where w_role]; discriminate.
      * destruct (isRole r) eqn:R; cbn [negb]; [ | discriminate ].
        destruct (q_is_blocked query) as [raw | ];
          [ destruct (parseBool (JStr raw)); [ | discriminate ] | ];
          intros E; injection E as <-; cbn [p_where w_role];
          intros r' E'; injection E' as <-; exact R.
    + destruct (q_is_blocked query) as [raw | ];
        [ destruct (parseBool (JStr raw)); [ | discriminate ] | ];
        intros E; injection E as <-; cbn [p_where w_role]; discriminate.
Qed.

End AdminQueryFacts.

(** ** Admin routes: admins, audit records and statistics *)

Section AdminTableFacts.

Import JS JSNumber Query Admin AdminProps AdminQueries AdminTableProps.

Lemma user_map_id_updateRow r us : map id (updateRow r us) = map id us.
Proof.
  unfold updateRow. induction us as [ | h t IH]; [ reflexivity | ].
  cbn [map]. rewrite IH. f_equal.
  destruct (id h =? id r) eqn:E; [ | reflexivity ].
  apply Z.eqb_eq in E. congruence.
Qed.

Lemma user_in_updateRow r us x :
  In x (updateRow r us) -> x = r \/ (In x us /\ id x <> id r).
Proof.
  unfold updateRow. intros H. apply in_map_iff in H.
  destruct H as (t & E & Hin).
  destruct (id t =? id r) eqn:Ei; subst x.
  - left. reflexivity.
  - right. apply Z.eqb_neq in Ei. auto.
Qed.

Lemma user_updateRow_in r us x :
  In x us -> In (if id x =? id r then r else x) (updateRow r us).
Proof.
  intros H. unfold updateRow. apply in_map_iff. exists x. now split.
Qed.

Lemma roleHandler_outcome db caller req :
  Outcome db caller req (roleHandler db caller req).
Proof.
  unfold roleHandler. cbv zeta.
  destruct (negb (isInteger (ofString (param_id req)))
            || le (ofString (param_id req)) (ofInt 0));
    [ apply Refused; discriminate | ].
  destruct (isRole (trim (ToString (or (b_role req) (JStr ""))))) eqn:R;
    cbn [negb]; [ | apply Refused; discriminate ].
  destruct (eq (ofString (param_id req)) (ofInt (c_id caller))
            && negb (String.eqb (trim (ToString (or (b_role req) (JStr ""))))
                       "admin")) eqn:Own; [ apply Refused; discriminate | ].
  destruct (findByNumber (users db) (ofString (param_id req))) as [t | ] eqn:F;
    [ | apply Refused; discriminate ].
  destruct (String.eqb (role t) "admin"
            && negb (String.eqb (trim (ToString (or (b_role req) (JStr ""))))
                       "admin")
            && (countActiveAdmins (users db) <=? 1));
    [ apply Refused; discriminate | ].
  apply Written; try reflexivity; try assumption.
  { left. exact R. }
  { left. repeat split. }
  intros E. rewrite E in Own. cbn [andb] in Own.
  apply negb_false_iff in Own. unfold activeAdmin. cbn [role is_blocked].
  rewrite Own. cbn [andb].
  destruct (is_blocked t); [ right | left; reflexivity ].
  rewrite andb_false_r. reflexivity.
Qed.

Lemma blockHandler_outcome db caller req :
  Outcome db caller req (blockHandler db caller req).
Proof.
  unfold blockHandler. cbv zeta.
  destruct (negb (isInteger (ofString (param_id req)))
            || le (ofString (param_id req)) (ofInt 0));
    [ apply Refused; discriminate | ].
  destruct (parseBool (b_is_blocked req)) as [parsed | ];
    [ | apply Refused; discriminate ].
  destruct (parsed && eq (ofString (param_id req)) (ofInt (c_id caller)))
    eqn:Own; [ apply Refused; discriminate | ].
  destruct (findByNumber (users db) (ofString (param_id req))) as [t | ] eqn:F;
    [ | apply Refused; discriminate ].
  destruct (parsed && String.eqb (role t) "admin"
            && (countActiveAdmins (users db) <=? 1));
    [ apply Refused; discriminate | ].
  apply Written; try reflexivity; try assumption.
  - right. reflexivity.
  - right. repeat split.
  - intros E. rewrite E, andb_true_r in Own. subst parsed.
    unfold activeAdmin. cbn [role is_blocked].
    destruct (String.eqb (role t) "admin"); [ left; reflexivity | now right ].
Qed.

Lemma NoDup_id_unique us a b :
  NoDup (map id us) -> In a us -> In b us -> id a = id b -> a = b.
Proof.
  induction us as [ | h t IH]; intros N Ha Hb E; [ destruct Ha | ].
  cbn [map] in N. inversion N as [ | ? ? Hh Ht]; subst.
  destruct Ha as [-> | Ha]; destruct Hb as [-> | Hb].
  - reflexivity.
  - exfalso. apply Hh. rewrite E. apply in_map. exact Hb.
  - exfalso. apply Hh. rewrite <- E. apply in_map. exact Ha.
  - apply IH; assumption.
Qed.

(** After an outcome the table is still well formed and the caller is
    still a non-blocked admin. *)
Lemma outcome_keeps_admin db caller req out cu :
  WellFormed (users db) -> Outcome db caller req out ->
  In cu (users db) -> id cu = c_id caller -> activeAdmin cu = true ->
  WellFormed (users (snd out)) /\
  exists cu', In cu' (users (snd out)) /\ id cu' = c_id caller /\
              activeAdmin cu' = true.
Proof.
  intros [Key Roles] O Hin Hid Hact.
  destruct O as [resp S | target updated action details T Ei Ee Ro _ Own];
    cbn [snd users].
  - split; [ now split | ]. now exists cu.
  - split.
    + split; [ rewrite user_map_id_updateRow; exact Key | ].
      apply Forall_forall. intros x Hx. apply user_in_updateRow in Hx.
      rewrite Forall_forall in Roles.
      destruct Hx as [-> | [Hx _]]; [ | apply Roles; exact Hx ].
      destruct Ro as [Ro | Ro]; [ exact Ro | ]. rewrite Ro. apply Roles.
      apply findByNumber_some in T. apply T.
    + pose proof (user_updateRow_in updated (users db) cu Hin) as U.
      apply findByNumber_some in T. destruct T as [Tin Teq].
      destruct (id cu =? id updated) eqn:E.
      * apply Z.eqb_eq in E.
        assert (cu = target)
          by (apply (NoDup_id_unique (users db)); try assumption; congruence).
        subst target. exists updated. split; [ exact U | ].
        split; [ congruence | ].
        rewrite Hid in Teq. destruct (Own Teq) as [A | A];
          [ exact A | congruence ].
      * exists cu. repeat split; assumption.
Qed.

Lemma countActiveAdmins_positive us u :
  In u us -> activeAdmin u = true -> 1 <= countActiveAdmins us.
Proof.
  intros Hin Hact. unfold countActiveAdmins.
  assert (I : In u (filter (fun u => String.eqb (role u) "admin"
                                     && negb (is_blocked u)) us))
    by (apply filter_In; split; assumption).
  destruct (filter _ us); [ destruct I | cbn [List.length]; lia ].
Qed.

(** X14.  When the users have distinct ids and every role is [user] or [admin],
    a role or block request that passed [auth] and [requireAdmin] leaves at
    least one admin that is not blocked, whatever it asks for; and both
    routes keep the ids distinct and the roles among [user] and [admin]. *)
Theorem admin_routes_never_lose_the_last_admin
  (db : Tables) (req : Request) (Hwf : WellFormed (users db)) :
  (admitted db req ->
   1 <= countActiveAdmins (users (snd (patchRole db req))) /\
   1 <= countActiveAdmins (users (snd (patchBlock db req)))) /\
  WellFormed (users (snd (patchRole db req))) /\
  WellFormed (users (snd (patchBlock db req))).
Proof.
  assert (H : forall handler,
             (forall caller, Outcome db caller req (handler db caller req)) ->
             (admitted db req ->
              1 <= countActiveAdmins (users (snd (route handler db req)))) /\
             WellFormed (users (snd (route handler db req)))).
  { intros handler Ho.
    destruct (route_cases handler db req)
      as [(_ & S & N) | (caller & cu & A & E & Hin & Hid & Hact)].
    - rewrite S. split; [ intros A; contradiction | exact Hwf ].
    - rewrite E.
      destruct (outcome_keeps_admin db caller req _ cu Hwf (Ho caller)
                  Hin Hid Hact) as (W & cu' & Hin' & _ & Hact').
      split; [ intros _ | exact W ].
      eapply countActiveAdmins_positive; eassumption. }
  destruct (H roleHandler (fun c => roleHandler_outcome db c req))
    as [R1 R2].
  destruct (H blockHandler (fun c => blockHandler_outcome db c req))
    as [B1 B2].
  split; [ intros A; split; auto | split; assumption ].
Qed.

Lemma soleAdmin_well_formed : WellFormed (users soleAdmin).
Proof.
  split.
  - cbn. constructor; [ intros [H | []]; discriminate H | ].
    constructor; [ intros [] | constructor ].
  - repeat constructor.
Qed.

Lemma admin_routes_never_lose_the_last_admin_witness :
  WellFormed (users soleAdmin) /\
  1 <= countActiveAdmins (users (snd (patchRole soleAdmin demoteSoleAdmin))) /\
  1 <= countActiveAdmins (users (snd (patchBlock soleAdmin demoteSoleAdmin))).
Proof.
  split; [ exact soleAdmin_well_formed | ].
  apply (proj1 (admin_routes_never_lose_the_last_admin soleAdmin
                  demoteSoleAdmin soleAdmin_well_formed)).
  exists (mkCaller 1 "admin"). split; vm_compute; reflexivity.
Defined.

Lemma route_outcome handler db req :
  (forall caller, Outcome db caller req (handler db caller req)) ->
  (status (fst (route handler db req)) <> 200 /\
   snd (route handler db req) = db) \/
  (exists caller target updated action details,
     auth db req = inr caller /\ requireAdmin caller = None /\
     targets db req target /\
     id updated = id target /\ email updated = email target /\
     describes action details target updated /\
     route handler db req
     = (mkResponse 200 (Row updated),
        mkTables (updateRow updated (users db))
          (audit_logs db ++
           [mkAuditLog (c_id caller) action (Some (id target))
              (Some details)])%list)).
Proof.
  intros Ho. unfold route.
  destruct (auth db req) as [sent | caller] eqn:A.
  { left. cbn [fst snd]. split; [ | reflexivity ].
    destruct (auth_inl db req sent A) as [-> | ->]; discriminate. }
  destruct (requireAdmin caller) as [sent | ] eqn:R.
  { left. cbn [fst snd]. split; [ | reflexivity ].
    rewrite (requireAdmin_some caller sent R). discriminate. }
  destruct (Ho caller)
    as [resp S | target updated action details T Ei Ee _ D _].
  - left. now split.
  - right. exists caller, target, updated, action, details.
    repeat split; assumption.
Qed.

(** X15.  The role and block routes either answer with a status other than 200
    and write nothing, or rewrite the one addressed user, keeping its id and
    e-mail, and add exactly one audit record that names the caller, the
    target and the change made. *)
Theorem admin_changes_are_audited (db : Tables) (req : Request) :
  Audited db req (patchRole db req) /\ Audited db req (patchBlock db req).
Proof.
  split.
  - apply (route_outcome roleHandler). intros c. apply roleHandler_outcome.
  - apply (route_outcome blockHandler). intros c. apply blockHandler_outcome.
Qed.

(** X16.  A request gets past [auth] and [requireAdmin] exactly when it carries
    a bearer token of a stored user that is not blocked and whose stored
    role is [admin]; every other request is answered 401 or 403 by any admin
    route and changes nothing. *)
Theorem admin_routes_serve_only_unblocked_admins
  (db : Tables) (req : Request) :
  (admitted db req <->
   bearer req = true /\
   exists userId user,
     token req = Some userId /\ findByPk (users db) userId = Some user /\
     is_blocked user = false /\ role user = "admin") /\
  (~ admitted db req ->
   forall handler,
     turnedAway (route handler db req) /\ snd (route handler db req) = db).
Proof.
  split.
  - unfold admitted, auth, requireAdmin. split.
    + intros (caller & A & R). revert A R.
      destruct (bearer req); cbn [negb]; [ | discriminate ].
      destruct (token req) as [userId | ]; [ | discriminate ].
      destruct (findByPk (users db) userId) as [user | ] eqn:F;
        [ | discriminate ].
      destruct (is_blocked user) eqn:B; [ discriminate | ].
      intros E. injection E as <-. cbn [c_role].
      destruct (String.eqb (role user) "admin") eqn:Ro; cbn [negb];
        [ | discriminate ].
      intros _. split; [ reflexivity | ]. exists userId, user.
      apply String.eqb_eq in Ro. repeat split; assumption.
    + intros (Hb & userId & user & T & F & B & Ro).
      exists (mkCaller (id user) (role user)).
      rewrite Hb, T, F, B. cbn [negb c_role]. rewrite Ro. now split.
  - intros N handler.
    destruct (route_cases handler db req) as [(T & S & _) | (c & cu & A & _)];
      [ now split | contradiction ].
Qed.

Lemma count_split (p q : User -> bool) us :
  count p us = count (fun u => p u && q u) us
               + count (fun u => p u && negb (q u)) us.
Proof.
  unfold count. induction us as [ | h t IH]; [ reflexivity | ].
  cbn [filter]. destruct (p h), (q h); cbn [andb negb List.length]; lia.
Qed.

Lemma count_ext (p q : User -> bool) us :
  (forall u, In u us -> p u = q u) -> count p us = count q us.
Proof.
  unfold count. intros H. f_equal. f_equal.
  induction us as [ | h t IH]; [ reflexivity | ].
  cbn [filter]. rewrite (H h (or_introl eq_refl)), IH; [ reflexivity | ].
  intros u Hu. apply H. now right.
Qed.

Lemma count_nonneg p us : 0 <= count p us.
Proof. unfold count. lia. Qed.

(** X17.  When every role is [user] or [admin], the statistics add up: accounts
    are users plus admins, in total and among the blocked; the blocked of a
    role are between 0 and the total of the role; and the number of active
    admins that the last-admin guard counts is [admins_total] minus
    [admins_blocked_total]. *)
Theorem admin_stats_add_up (us : list User)
  (Hroles : Forall (fun u => isRole (role u) = true) us) :
  let s := getStats us in
  accounts_total s = users_total s + admins_total s /\
  accounts_blocked_total s = users_blocked_total s + admins_blocked_total s /\
  0 <= users_blocked_total s <= users_total s /\
  0 <= admins_blocked_total s <= admins_total s /\
  countActiveAdmins us = admins_total s - admins_blocked_total s.
Proof.
  cbv zeta. unfold getStats.
  cbn [accounts_total accounts_blocked_total users_total users_blocked_total
       admins_total admins_blocked_total].
  rewrite Forall_forall in Hroles.
  assert (R : forall u, In u us ->
                String.eqb (role u) "user"
                = negb (String.eqb (role u) "admin")).
  { intros u Hu. specialize (Hroles u Hu). unfold isRole, ROLES in Hroles.
    cbn [existsb] in Hroles. rewrite orb_false_r in Hroles.
    destruct (String.eqb (role u) "user") eqn:U.
    - apply String.eqb_eq in U. rewrite U. reflexivity.
    - cbn [orb] in Hroles. rewrite Hroles. reflexivity. }
  pose proof (count_split (fun _ => true)
                (fun u => String.eqb (role u) "admin") us) as A.
  pose proof (count_split (fun u => is_blocked u)
                (fun u => String.eqb (role u) "admin") us) as B.
  pose proof (count_split (fun u => String.eqb (role u) "user")
                (fun u => is_blocked u) us) as U.
  pose proof (count_split (fun u => String.eqb (role u) "admin")
                (fun u => is_blocked u) us) as Ad.
  cbv beta in A, B, U, Ad.
  rewrite (count_ext (fun u => true && String.eqb (role u) "admin")
             (fun u => String.eqb (role u) "admin") us) in A
    by reflexivity.
  rewrite (count_ext (fun u => true && negb (String.eqb (role u) "admin"))
             (fun u => String.eqb (role u) "user") us) in A
    by (intros u Hu; cbn [andb]; symmetry; apply R; exact Hu).
  rewrite (count_ext (fun u => is_blocked u && String.eqb (role u) "admin")
             (fun u => String.eqb (role u) "admin" && is_blocked u) us) in B
    by (intros; apply andb_comm).
  rewrite (count_ext
             (fun u => is_blocked u && negb (String.eqb (role u) "admin"))
             (fun u => String.eqb (role u) "user" && is_blocked u) us) in B
    by (intros u Hu; rewrite (R u Hu); apply andb_comm).
  pose proof (count_nonneg
                (fun u => String.eqb (role u) "user" && is_blocked u) us).
  pose proof (count_nonneg
                (fun u => String.eqb (role u) "user" && negb (is_blocked u))
                us).
  pose proof (count_nonneg
                (fun u => String.eqb (role u) "admin" && is_blocked u) us).
  pose proof (count_nonneg
                (fun u => String.eqb (role u) "admin" && negb (is_blocked u))
                us).
  assert (C : countActiveAdmins us
              = count (fun u => String.eqb (role u) "admin"
                                && negb (is_blocked u)) us) by reflexivity.
  lia.
Qed.

Lemma admin_stats_add_up_witness :
  Forall (fun u => isRole (role u) = true) (users blockedColleague) /\
  countActiveAdmins (users blockedColleague)
  = admins_total (getStats (users blockedColleague))
    - admins_blocked_total (getStats (users blockedColleague)).
Proof.
  assert (H : Forall (fun u => isRole (role u) = true)
                (users blockedColleague)) by (repeat constructor).
  split; [ exact H | ].
  apply (admin_stats_add_up (users blockedColleague) H).
Defined.

End AdminTableFacts.

(** ** Tariff routes over the whole table *)

Section TariffTableFacts.

Import JS Tariffs TariffProps TariffRoutes TableProps.

Lemma NoDup_map_filter (A : Type) (f : A -> Z) (p : A -> bool) (l : list A) :
  NoDup (map f l) -> NoDup (map f (filter p l)).
Proof.
  induction l as [ | h t IH]; cbn [map filter]; intros N; [ constructor | ].
  inversion N as [ | ? ? Hh Ht]; subst.
  destruct (p h); [ | apply IH; exact Ht ].
  cbn [map]. constructor; [ | apply IH; exact Ht ].
  intros Hin. apply Hh. apply in_map_iff in Hin.
  destruct Hin as (x & E & Hx). apply filter_In in Hx.
  apply in_map_iff. exists x. split; [ exact E | apply Hx ].
Qed.

Lemma NoDup_map_unique (A : Type) (f : A -> Z) (l : list A) (a b : A) :
  NoDup (map f l) -> In a l -> In b l -> f a = f b -> a = b.
Proof.
  induction l as [ | h t IH]; intros N Ha Hb E; [ destruct Ha | ].
  cbn [map] in N. inversion N as [ | ? ? Hh Ht]; subst.
  destruct Ha as [-> | Ha]; destruct Hb as [-> | Hb].
  - reflexivity.
  - exfalso. apply Hh. rewrite E. apply in_map. exact Hb.
  - exfalso. apply Hh. rewrite <- E. apply in_map. exact Ha.
  - apply IH; assumption.
Qed.

Lemma map_id_deactivateOthers u k rows :
  map id (deactivateOthers u k rows) = map id rows.
Proof.
  unfold deactivateOthers. rewrite map_map. apply map_ext.
  intros t. destruct ((user_id t =? u) && negb (id t =? k)); reflexivity.
Qed.

Lemma tariff_map_id_updateRow r rows : map id (updateRow r rows) = map id rows.
Proof.
  unfold updateRow. rewrite map_map. apply map_ext_in.
  intros t _. destruct (id t =? id r) eqn:E; [ | reflexivity ].
  apply Z.eqb_eq in E. congruence.
Qed.

Lemma post_keeps_key other rows req :
  NoDup (map id rows) -> NoDup (map id (snd (post other rows req))).
Proof.
  intros N.
  destruct (post_cases other rows req)
    as [[-> _] | (from & to & _ & _ & ->)]; [ exact N | ].
  cbn [snd].
  match goal with
  | |- context [(rows ++ [?r])%list] =>
      assert (F : NoDup (map id (rows ++ [r])))
  end.
  { rewrite map_app. cbn [map id]. apply NoDup_snoc; [ exact N | ].
    intros Hin. apply in_map_iff in Hin. destruct Hin as (t & E & Hin).
    pose proof (nextId_fresh rows t Hin). lia. }
  destruct (negb (isFalse (b_is_active req)));
    [ rewrite map_id_deactivateOthers | ]; exact F.
Qed.

Lemma patch_keeps_key other rows req :
  NoDup (map id rows) -> NoDup (map id (snd (patch other rows req))).
Proof.
  intros N.
  destruct (patch_cases other rows req)
    as [[-> _] | (row & updated & _ & _ & _ & _ & ->)]; [ exact N | ].
  cbn [snd]. rewrite tariff_map_id_updateRow.
  destruct (isTrue (b_is_active req));
    [ rewrite map_id_deactivateOthers | ]; exact N.
Qed.

Lemma activate_keeps_key rows req :
  NoDup (map id rows) -> NoDup (map id (snd (activate rows req))).
Proof.
  intros N. unfold activate.
  destruct (findOne rows (param_id req) (user req)) as [row | ];
    [ | exact N ].
  destruct (is_active row); [ exact N | ].
  match goal with
  | |- context [if ?c then (mkResponse 400 _, rows) else _] =>
      destruct c; [ exact N | ]
  end.
  cbn [snd]. rewrite tariff_map_id_updateRow, map_id_deactivateOthers.
  exact N.
Qed.

Lemma in_destroy row rows x :
  In x (destroy row rows) <-> In x rows /\ id x <> id row.
Proof.
  unfold destroy. rewrite filter_In. split; intros [H N]; split; try exact H.
  - apply negb_true_iff, Z.eqb_neq in N. exact N.
  - apply negb_true_iff, Z.eqb_neq. exact N.
Qed.

(** X18.  When tariff ids are distinct and no user has two active tariffs, the
    same holds after [POST /api/tariffs], [POST /api/tariffs/:id/activate]
    and [DELETE /api/tariffs/:id], and after a [PATCH] whose [is_active] is
    absent or a boolean. *)
Theorem tariff_routes_keep_one_active
  (other : Sequelize.Dateonly) (rows : list Tariff) (req : Request)
  (Hok : TariffsOk rows) :
  TariffsOk (snd (post other rows req)) /\
  TariffsOk (snd (activate rows req)) /\
  TariffsOk (snd (delete rows req)) /\
  (booleanPatch req -> TariffsOk (snd (patch other rows req))).
Proof.
  destruct Hok as [Key One]. unfold TariffsOk.
  split; [ | split; [ | split ] ].
  - split; [ apply post_keeps_key | apply post_keeps_one_active ]; assumption.
  - split; [ apply activate_keeps_key | apply activate_keeps_one_active ];
      assumption.
  - unfold delete.
    destruct (findOne rows (param_id req) (user req)) as [row | ];
      [ | now split ].
    cbn [snd]. split.
    + apply NoDup_map_filter. exact Key.
    + intros a b Ha Hb. apply in_destroy in Ha, Hb.
      apply One; [ apply Ha | apply Hb ].
  - intros B.
    split; [ apply patch_keeps_key
           | apply patch_boolean_keeps_one_active ]; assumption.
Qed.

Lemma twoTariffs_ok : TariffsOk twoTariffs.
Proof.
  split.
  - cbn. constructor; [ intros [H | []]; discriminate H | ].
    constructor; [ intros [] | constructor ].
  - intros a b [<- | [<- | []]] [<- | [<- | []]] _ A B;
      try reflexivity; discriminate.
Qed.

Lemma tariff_routes_keep_one_active_witness :
  TariffsOk twoTariffs /\
  TariffsOk (snd (post Sequelize.isoOnly twoTariffs postWeekend)) /\
  TariffsOk (snd (activate twoTariffs patchIsActiveOne)).
Proof.
  pose proof (tariff_routes_keep_one_active Sequelize.isoOnly twoTariffs
                postWeekend twoTariffs_ok) as (P & _).
  pose proof (tariff_routes_keep_one_active Sequelize.isoOnly twoTariffs
                patchIsActiveOne twoTariffs_ok) as (_ & A & _).
  split; [ exact twoTariffs_ok | split; assumption ].
Defined.

(** *** The rows of other users *)

Lemma others_deactivateOthers u k rows :
  othersTariffs u (deactivateOthers u k rows) = othersTariffs u rows.
Proof.
  unfold othersTariffs, deactivateOthers.
  induction rows as [ | h t IH]; [ reflexivity | ].
  cbn [map filter]. rewrite IH.
  destruct (user_id h =? u) eqn:E; cbn [andb].
  - destruct (negb (id h =? k)); cbn [user_id setActive]; rewrite ?E;
      reflexivity.
  - rewrite E. reflexivity.
Qed.

Lemma others_updateRow u r row rows :
  NoDup (map id rows) -> In row rows -> user_id row = u -> id r = id row ->
  user_id r = u ->
  othersTariffs u (updateRow r rows) = othersTariffs u rows.
Proof.
  intros N Hin Hu Ei Er. unfold othersTariffs, updateRow.
  assert (H : forall x, In x rows -> id x = id r -> user_id x = u).
  { intros x Hx E. assert (x = row)
      by (apply (NoDup_map_unique _ id rows); try assumption; congruence).
    subst x. exact Hu. }
  clear N Hin. induction rows as [ | h t IH]; [ reflexivity | ].
  cbn [map filter]. rewrite IH by (intros x Hx; apply H; now right).
  destruct (id h =? id r) eqn:E; [ | reflexivity ].
  apply Z.eqb_eq in E. rewrite Er, (H h (or_introl eq_refl) E).
  rewrite Z.eqb_refl. reflexivity.
Qed.

Lemma others_app u rows t :
  user_id t = u -> othersTariffs u (rows ++ [t]) = othersTariffs u rows.
Proof.
  intros E. unfold othersTariffs. rewrite filter_app. cbn [filter].
  rewrite E, Z.eqb_refl. cbn [negb]. apply app_nil_r.
Qed.

Lemma others_destroy u row rows :
  NoDup (map id rows) -> In row rows -> user_id row = u ->
  othersTariffs u (destroy row rows) = othersTariffs u rows.
Proof.
  intros N Hin Hu. unfold othersTariffs, destroy.
  assert (H : forall x, In x rows -> id x = id row -> user_id x = u).
  { intros x Hx E. assert (x = row)
      by (apply (NoDup_map_unique _ id rows); assumption).
    subst x. exact Hu. }
  clear N Hin. induction rows as [ | h t IH]; [ reflexivity | ].
  cbn [filter]. destruct (id h =? id row) eqn:E; cbn [negb].
  - rewrite IH by (intros x Hx; apply H; now right).
    apply Z.eqb_eq in E. rewrite (H h (or_introl eq_refl) E), Z.eqb_refl.
    reflexivity.
  - cbn [filter]. rewrite IH by (intros x Hx; apply H; now right).
    reflexivity.
Qed.

Lemma in_orderByIdDesc x l : In x (Consumption.orderByIdDesc l) <-> In x l.
Proof.
  assert (I : forall t m, In x (Consumption.insertDesc t m) <-> x = t \/ In x m).
  { intros t m. induction m as [ | h r IH]; cbn [Consumption.insertDesc].
    - cbn [In]. intuition auto.
    - destruct (id h <=? id t); cbn [In]; [ intuition auto | ].
      rewrite IH. intuition auto. }
  unfold Consumption.orderByIdDesc.
  induction l as [ | h r IH]; cbn [fold_right]; [ reflexivity | ].
  rewrite I, IH. cbn [In]. intuition auto.
Qed.

(** X19.  With distinct tariff ids, POST, PATCH, activate and DELETE of a tariff
    leave the rows of every user other than the caller exactly as they were,
    and [GET /api/tariffs] lists exactly the rows of the caller. *)
Theorem tariff_routes_leave_other_users_alone
  (other : Sequelize.Dateonly) (rows : list Tariff) (req : Request)
  (Hkey : NoDup (map id rows)) :
  let u := user req in
  othersTariffs u (snd (post other rows req)) = othersTariffs u rows /\
  othersTariffs u (snd (patch other rows req)) = othersTariffs u rows /\
  othersTariffs u (snd (activate rows req)) = othersTariffs u rows /\
  othersTariffs u (snd (delete rows req)) = othersTariffs u rows /\
  (forall t, In t (get rows u) <-> In t rows /\ user_id t = u).
Proof.
  cbv zeta. split; [ | split; [ | split; [ | split ] ] ].
  - destruct (post_cases other rows req)
      as [[-> _] | (from & to & _ & _ & ->)]; [ reflexivity | ].
    cbn [snd].
    destruct (negb (isFalse (b_is_active req)));
      [ rewrite others_deactivateOthers | ]; apply others_app; reflexivity.
  - destruct (patch_cases other rows req)
      as [[-> _] | (row & updated & F & Eid & Eur & _ & ->)];
      [ reflexivity | ].
    apply findOne_some in F. destruct F as (Hin & Hid & Hu).
    cbn [snd].
    destruct (isTrue (b_is_active req)).
    + rewrite (others_updateRow (user req) _ (if (user_id row =? user req)
                 && negb (id row =? id row) then setActive row false else row)).
      * apply others_deactivateOthers.
      * rewrite map_id_deactivateOthers. exact Hkey.
      * unfold deactivateOthers. apply in_map_iff. exists row. now split.
      * rewrite Z.eqb_refl, andb_false_r. exact Hu.
      * rewrite Z.eqb_refl, andb_false_r. exact Eid.
      * congruence.
    + apply (others_updateRow (user req) _ row); try assumption; congruence.
  - unfold activate.
    destruct (findOne rows (param_id req) (user req)) as [row | ] eqn:F;
      [ | reflexivity ].
    apply findOne_some in F. destruct F as (Hin & Hid & Hu).
    destruct (is_active row); [ reflexivity | ].
    match goal with
    | |- context [if ?c then (mkResponse 400 _, rows) else _] =>
        destruct c; [ reflexivity | ]
    end.
    cbn [snd].
    rewrite (others_updateRow (user req) _ (if (user_id row =? user req)
               && negb (id row =? id row) then setActive row false else row)).
    + apply others_deactivateOthers.
    + rewrite map_id_deactivateOthers. exact Hkey.
    + unfold deactivateOthers. apply in_map_iff. exists row. now split.
    + rewrite Z.eqb_refl, andb_false_r. exact Hu.
    + rewrite Z.eqb_refl, andb_false_r. reflexivity.
    + exact Hu.
  - unfold delete.
    destruct (findOne rows (param_id req) (user req)) as [row | ] eqn:F;
      [ | reflexivity ].
    apply findOne_some in F. destruct F as (Hin & Hid & Hu).
    cbn [snd]. apply others_destroy; assumption.
  - intros t. unfold get. rewrite in_orderByIdDesc, filter_In.
    rewrite Z.eqb_eq. reflexivity.
Qed.

Lemma tariff_routes_leave_other_users_alone_witness :
  NoDup (map id twoTariffs) /\
  othersTariffs 7 (snd (activate twoTariffs patchIsActiveOne))
  = othersTariffs 7 twoTariffs.
Proof.
  split; [ exact (proj1 twoTariffs_ok) | ].
  apply (tariff_routes_leave_other_users_alone Sequelize.isoOnly twoTariffs
           patchIsActiveOne (proj1 twoTariffs_ok)).
Defined.

End TariffTableFacts.

(** ** Consumption routes and the active tariff *)

Section ConsumptionTableFacts.

Import JS JSNumber Consumption ConsumptionProps ConsumptionRoutes TableProps.

Ltac step :=
  match goal with
  | |- context [if ?c then _ else _] => destruct c eqn:?
  | |- context [match ?c with
                | NO_ACTIVE => _
                | MANY_ACTIVE _ => _
                | ActiveTariff _ => _
                end] => destruct c eqn:?
  | |- context [match ?c with inl _ => _ | inr _ => _ end] => destruct c eqn:?
  | |- context [match ?c with Some _ => _ | None => _ end] => destruct c eqn:?
  | |- context [match ?c with
                | Keep => _
                | Chosen _ => _
                | ApplianceError _ => _
                | QueryFailed => _
                end] => destruct c eqn:?
  | |- context [match priced ?k ?p with pair _ _ => _ end] =>
      destruct (priced k p) as [ [ [? | ] [? | ] ] [? | ] ] eqn:?
  end.

(** With a key and at most one active tariff per user, the strict lookup
    never finds several. *)
Lemma never_many_active ts u ids :
  TariffsOk ts -> getActiveTariffStrict ts u <> MANY_ACTIVE ids.
Proof.
  intros [Key One] E.
  pose proof (getActiveTariffStrict_count ts u) as C. rewrite E in C.
  assert (N : NoDup (map Tariffs.id (Tariffs.activeOf u ts)))
    by (apply NoDup_map_filter; exact Key).
  destruct (Tariffs.activeOf u ts) as [ | a [ | b r]] eqn:A;
    cbn [List.length] in C; try lia.
  assert (Ha : In a (Tariffs.activeOf u ts)) by (rewrite A; now left).
  assert (Hb : In b (Tariffs.activeOf u ts)) by (rewrite A; right; now left).
  unfold Tariffs.activeOf in Ha, Hb. apply filter_In in Ha, Hb.
  destruct Ha as [Ia Pa]. destruct Hb as [Ib Pb].
  apply andb_prop in Pa, Pb. destruct Pa as [Ua Aa]. destruct Pb as [Ub Ab].
  apply Z.eqb_eq in Ua, Ub.
  assert (Tariffs.id a = Tariffs.id b)
    by (apply One; try assumption; congruence).
  cbn [map] in N. inversion N as [ | ? ? Hh _]; subst.
  apply Hh. left. congruence.
Qed.

Lemma post_409 db req :
  status (fst (post db req)) = 409 ->
  exists ids, getActiveTariffStrict (tariffs db) (user req) = MANY_ACTIVE ids.
Proof.
  unfold post. cbv zeta.
  destruct (negb (isNullish (b_consumption_kwh req))
            && negb (isNullish (b_usage_hours req))); [ discriminate | ].
  destruct (negb (Period.isValidISODate _)); [ discriminate | ].
  destruct (getActiveTariffStrict (tariffs db) (user req)) as [ | ids | t ];
    [ discriminate | intros _; now exists ids | ].
  match goal with
  | |- context [match ?l with inl _ => _ | inr _ => _ end] =>
      destruct l as [sent | appliance] eqn:L
  end.
  { apply lookup_inl in L. destruct L as [-> | ->]; discriminate. }
  repeat step; cbn [fst status]; intros E; discriminate E.
Qed.

Lemma patch_409 db req :
  status (fst (patch db req)) = 409 ->
  exists ids, getActiveTariffStrict (tariffs db) (user req) = MANY_ACTIVE ids.
Proof.
  unfold patch. cbv zeta.
  destruct (findOne (records db) (param_id req) (user req)) as [row | ];
    [ | discriminate ].
  destruct (negb (isNullish (b_consumption_kwh req))
            && negb (isNullish (b_usage_hours req))); [ discriminate | ].
  destruct (negb (Period.isValidISODate _)); [ discriminate | ].
  destruct (getActiveTariffStrict (tariffs db) (user req)) as [ | ids | t ];
    [ discriminate | intros _; now exists ids | ].
  repeat step; cbn [fst status]; intros E; try discriminate E.
  all: repeat match goal with
              | H : (if ?c then _ else _) = inl _ |- _ => destruct c
              | H : match ?c with inl _ => _ | inr _ => _ end = inl _ |- _ =>
                  destruct c
              | H : inl _ = inl _ |- _ => injection H as <-
              | H : inr _ = inl _ |- _ => discriminate H
              end; discriminate E.
Qed.

Lemma post_before_lookup db req :
  getActiveTariffStrict (tariffs db) (user req) = NO_ACTIVE ->
  status (fst (post db req)) = 400 /\ snd (post db req) = records db.
Proof.
  intros E. unfold post. cbv zeta.
  destruct (negb (isNullish (b_consumption_kwh req))
            && negb (isNullish (b_usage_hours req))); [ now split | ].
  destruct (negb (Period.isValidISODate _)); [ now split | ].
  rewrite E. now split.
Qed.

(** X20.  When no user has two active tariffs, POST and PATCH of a consumption
    record are never answered 409 (several active tariffs); and once the
    caller has deleted their active tariff, [POST /api/consumption] is
    answered 400 and writes no record. *)
Theorem consumption_never_sees_several_active_tariffs
  (db : Tables) (req : Request) (Hok : TariffsOk (tariffs db)) :
  status (fst (post db req)) <> 409 /\
  status (fst (patch db req)) <> 409 /\
  (forall treq row,
     Tariffs.findOne (tariffs db) (Tariffs.param_id treq) (Tariffs.user treq)
     = Some row ->
     Tariffs.is_active row = true -> Tariffs.user treq = user req ->
     let db' := mkTables (snd (TariffRoutes.delete (tariffs db) treq))
                  (appliances db) (records db) in
     status (fst (post db' req)) = 400 /\ snd (post db' req) = records db).
Proof.
  split; [ | split ].
  - intros S. destruct (post_409 db req S) as (ids & E).
    exact (never_many_active _ _ ids Hok E).
  - intros S. destruct (patch_409 db req S) as (ids & E).
    exact (never_many_active _ _ ids Hok E).
  - intros treq row F A U. cbv zeta.
    apply (post_before_lookup (mkTables _ _ _)). cbn [tariffs].
    apply no_active_tariff. unfold TariffRoutes.delete. rewrite F. cbn [snd].
    apply findOne_some in F. destruct F as (Hin & Hid & Hu).
    destruct (Tariffs.activeOf (user req) (TariffRoutes.destroy row (tariffs db)))
      as [ | x r] eqn:L; [ reflexivity | exfalso ].
    assert (Hx : In x (Tariffs.activeOf (user req)
                         (TariffRoutes.destroy row (tariffs db))))
      by (rewrite L; now left).
    unfold Tariffs.activeOf in Hx. apply filter_In in Hx.
    destruct Hx as [Hx P]. apply in_destroy in Hx. destruct Hx as [Hx N].
    apply andb_prop in P. destruct P as [Ux Ax]. apply Z.eqb_eq in Ux.
    apply N. destruct Hok as [_ One]. apply One; try assumption. congruence.
Qed.

Lemma oneTariff_ok : TariffsOk (tariffs oneTariff).
Proof.
  split.
  - cbn. constructor; [ intros [] | constructor ].
  - intros a b [<- | []] [<- | []] _ _ _. reflexivity.
Qed.

Lemma consumption_never_sees_several_active_tariffs_witness :
  TariffsOk (tariffs oneTariff) /\
  status (fst (post oneTariff postThreeAndHalf)) <> 409.
Proof.
  split; [ exact oneTariff_ok | ].
  apply (consumption_never_sees_several_active_tariffs oneTariff
           postThreeAndHalf oneTariff_ok).
Defined.

End ConsumptionTableFacts.

(** ** Consumption records: appliances and dates *)

Section RecordFacts.

Import JS JSNumber Consumption ConsumptionProps ConsumptionRoutes TableProps.

Ltac step :=
  match goal with
  | |- context [if ?c then _ else _] => destruct c eqn:?
  | |- context [match ?c with
                | NO_ACTIVE => _
                | MANY_ACTIVE _ => _
                | ActiveTariff _ => _
                end] => destruct c eqn:?
  | |- context [match ?c with inl _ => _ | inr _ => _ end] => destruct c eqn:?
  | |- context [match ?c with Some _ => _ | None => _ end] => destruct c eqn:?
  | |- context [match ?c with
                | Keep => _
                | Chosen _ => _
                | ApplianceError _ => _
                | QueryFailed => _
                end] => destruct c eqn:?
  | |- context [match priced ?k ?p with pair _ _ => _ end] =>
      destruct (priced k p) as [ [ [? | ] [? | ] ] [? | ] ] eqn:?
  end.

Lemma findAppliance_some aps n u ap :
  findAppliance aps n u = Some ap -> In ap aps /\ a_user_id ap = u.
Proof.
  unfold findAppliance. intros H. apply find_some in H.
  destruct H as [Hin H]. apply andb_prop in H. destruct H as [_ H].
  apply Z.eqb_eq in H. now split.
Qed.

Lemma queryAppliance_some aps n u ap :
  queryAppliance aps n u = Some (Some ap) -> In ap aps /\ a_user_id ap = u.
Proof.
  unfold queryAppliance. destruct (isFinite n); [ | discriminate ].
  intros E. injection E as E. exact (findAppliance_some _ _ _ _ E).
Qed.

Lemma record_findOne_some rows i u row :
  findOne rows i u = Some row -> In row rows /\ id row = i /\ user_id row = u.
Proof.
  unfold findOne. intros H. apply find_some in H. destruct H as [Hin H].
  apply andb_prop in H. destruct H as [H1 H2].
  apply Z.eqb_eq in H1, H2. auto.
Qed.

(** What [POST] writes. *)
Lemma post_writes db req :
  snd (post db req) = records db \/
  exists created,
    snd (post db req) = (records db ++ [created])%list /\
    id created = nextId (records db) /\ user_id created = user req /\
    Period.isValidISODate (record_date created) = true /\
    owned db (user req) (appliance_id created).
Proof.
  unfold post. cbv zeta.
  destruct (negb (isNullish (b_consumption_kwh req))
            && negb (isNullish (b_usage_hours req))); [ now left | ].
  destruct (Period.isValidISODate (ToString (or (b_record_date req) (JStr ""))))
    eqn:V; cbn [negb]; [ | now left ].
  destruct (getActiveTariffStrict (tariffs db) (user req)) as [ | ids | t ];
    [ now left | now left | ].
  destruct (negb (isNullish (b_appliance_id req))).
  - destruct (queryAppliance (appliances db) (ToNumber (b_appliance_id req))
                (user req)) as [ [ap | ] | ] eqn:Q;
      [ | now left | now left ].
    apply queryAppliance_some in Q. destruct Q as [Hin Hu].
    repeat step; cbn [snd]; try (left; reflexivity).
    right. eexists. split; [ reflexivity | ].
    cbn [id user_id record_date appliance_id].
    repeat split; try reflexivity; try exact V.
    intros x Ex. injection Ex as <-. exists ap. repeat split; assumption.
  - repeat step; cbn [snd]; try (left; reflexivity).
    right. eexists. split; [ reflexivity | ].
    cbn [id user_id record_date appliance_id].
    repeat split; try reflexivity; try exact V.
    intros x Ex. discriminate Ex.
Qed.

Lemma resolve_chosen aps u v a :
  resolveApplianceForUser aps u v = Chosen a ->
  forall ap, a = Some ap -> In ap aps /\ a_user_id ap = u.
Proof.
  unfold resolveApplianceForUser.
  destruct v; try discriminate;
    try (intros E; injection E as <-; intros ap Ea; discriminate Ea);
    (destruct (queryAppliance aps _ u) as [ [ap0 | ] | ] eqn:F;
     try discriminate;
     intros E; injection E as <-; intros ap Ea; injection Ea as <-;
     apply queryAppliance_some in F; exact F).
Qed.

(** What [PATCH] writes. *)
Lemma patch_writes db req :
  snd (patch db req) = records db \/
  exists row updated,
    findOne (records db) (param_id req) (user req) = Some row /\
    snd (patch db req) = updateRow updated (records db) /\
    id updated = id row /\ user_id updated = user_id row /\
    Period.isValidISODate (record_date updated) = true /\
    (appliance_id updated = appliance_id row \/
     owned db (user req) (appliance_id updated)).
Proof.
  unfold patch. cbv zeta.
  destruct (findOne (records db) (param_id req) (user req)) as [row | ] eqn:F;
    [ | now left ].
  destruct (negb (isNullish (b_consumption_kwh req))
            && negb (isNullish (b_usage_hours req))); [ now left | ].
  destruct (Period.isValidISODate
              (if isNullish (b_record_date req) then record_date row
               else ToString (b_record_date req))) eqn:V; cbn [negb];
    [ | now left ].
  destruct (getActiveTariffStrict (tariffs db) (user req)) as [ | ids | t ];
    [ now left | now left | ].
  destruct (resolveApplianceForUser (appliances db) (user req)
              (b_appliance_id req)) as [ | chosen | err | ] eqn:R;
    [ | | now left | now left ].
  - repeat step; cbn [snd]; try (left; reflexivity).
    all: right; exists row; eexists; split; [ reflexivity | ];
      split; [ reflexivity | ];
      cbn [id user_id record_date appliance_id];
      repeat split; try reflexivity; try exact V; left; reflexivity.
  - pose proof (resolve_chosen _ _ _ _ R) as O.
    repeat step; cbn [snd]; try (left; reflexivity).
    all: right; exists row; eexists; split; [ reflexivity | ];
      split; [ reflexivity | ];
      cbn [id user_id record_date appliance_id];
      repeat split; try reflexivity; try exact V; right.
    all: intros x Ex; try discriminate Ex;
      injection Ex as <-; destruct (O _ eq_refl) as [Hin Hu];
      eexists; repeat split; eassumption.
Qed.

Lemma record_in_updateRow r rows x :
  In x (updateRow r rows) -> x = r \/ (In x rows /\ id x <> id r).
Proof.
  unfold updateRow. intros H. apply in_map_iff in H.
  destruct H as (t & E & Hin).
  destruct (id t =? id r) eqn:Ei; subst x.
  - left. reflexivity.
  - right. apply Z.eqb_neq in Ei. auto.
Qed.

(** X21.  If every stored record has a valid date and names, if any, an
    appliance of its own user, the same holds after POST, PATCH and DELETE
    of a consumption record: a record is never attached to an appliance of
    another user nor dated with a text that is not a date. *)
Theorem consumption_routes_keep_records_sound
  (db : Tables) (req : Request) (Hok : RecordsOk db) :
  RecordsOk (withRecords db (snd (post db req))) /\
  RecordsOk (withRecords db (snd (patch db req))) /\
  RecordsOk (withRecords db (snd (delete (records db) req))).
Proof.
  destruct Hok as [Own Dated]. rewrite Forall_forall in Dated.
  assert (Same : RecordsOk (withRecords db (records db))).
  { split; [ exact Own | apply Forall_forall; exact Dated ]. }
  split; [ | split ].
  - destruct (post_writes db req) as [-> | (c & -> & _ & Uc & Dc & Oc)];
      [ exact Same | ].
    split.
    + intros r a Hr Ea. cbn [withRecords records appliances] in *.
      apply in_app_or in Hr. destruct Hr as [Hr | [<- | []]].
      * exact (Own r a Hr Ea).
      * rewrite Uc. exact (Oc a Ea).
    + apply Forall_forall. intros r Hr. cbn [withRecords records] in Hr.
      apply in_app_or in Hr. destruct Hr as [Hr | [<- | []]];
        [ apply Dated; exact Hr | exact Dc ].
  - destruct (patch_writes db req)
      as [-> | (row & u & F & -> & Iu & Uu & Du & Ou)]; [ exact Same | ].
    apply record_findOne_some in F. destruct F as (Hin & _ & Hu).
    split.
    + intros r a Hr Ea. cbn [withRecords records appliances] in *.
      apply record_in_updateRow in Hr. destruct Hr as [-> | [Hr _]].
      * destruct Ou as [Ou | Ou].
        -- rewrite Uu. apply (Own row a Hin). congruence.
        -- rewrite Uu, Hu. exact (Ou a Ea).
      * exact (Own r a Hr Ea).
    + apply Forall_forall. intros r Hr. cbn [withRecords records] in Hr.
      apply record_in_updateRow in Hr. destruct Hr as [-> | [Hr _]];
        [ exact Du | apply Dated; exact Hr ].
  - unfold delete.
    destruct (findOne (records db) (param_id req) (user req)) as [row | ];
      [ | exact Same ].
    cbn [snd]. split.
    + intros r a Hr Ea. cbn [withRecords records appliances] in *.
      unfold destroy in Hr. apply filter_In in Hr.
      exact (Own r a (proj1 Hr) Ea).
    + apply Forall_forall. intros r Hr. cbn [withRecords records] in Hr.
      unfold destroy in Hr. apply filter_In in Hr. apply Dated. apply Hr.
Qed.

Lemma repriced_ok : RecordsOk repriced.
Proof.
  split.
  - intros r a [<- | []] E. discriminate E.
  - constructor; [ vm_compute; reflexivity | constructor ].
Qed.

Lemma consumption_routes_keep_records_sound_witness :
  RecordsOk repriced /\
  RecordsOk (withRecords repriced (snd (patch repriced patchNotes))).
Proof.
  split; [ exact repriced_ok | ].
  apply (consumption_routes_keep_records_sound repriced patchNotes
           repriced_ok).
Defined.

End RecordFacts.

(** ** Consumption records: the listing and the other users *)

Section RecordListing.

Import JS JSNumber Period Consumption ConsumptionProps ConsumptionRoutes
       TableProps.

Lemma leb_ltb a b : String.leb a b = negb (String.ltb b a).
Proof.
  unfold String.leb, String.ltb. rewrite (String.compare_antisym a b).
  destruct (String.compare b a); reflexivity.
Qed.

(** On dates, [a <= b] as texts says that [a] is not after [b]. *)
Lemma le_notBefore a b :
  isValidISODate a = true -> isValidISODate b = true ->
  (JSString.le a b = true <-> notBefore b a).
Proof.
  intros Va Vb.
  destruct (isValidISODate_inv a Va) as (y & m & d & Ea & _).
  destruct (isValidISODate_inv b Vb) as (y' & m' & d' & Eb & _).
  destruct (valid_text a y m d Va Ea) as (_ & _ & _ & Pa & _).
  destruct (valid_text b y' m' d' Vb Eb) as (_ & _ & _ & Pb & _).
  destruct (iso_order a b _ _ Va Vb Pa Pb) as [O _].
  unfold JSString.le, notBefore. rewrite leb_ltb, Pa, Pb.
  unfold isAfter, JSString.gt in O. rewrite O.
  rewrite negb_true_iff, Z.ltb_ge. reflexivity.
Qed.

Lemma in_order x l : In x (order l) <-> In x l.
Proof.
  assert (I : forall t m, In x (insert t m) <-> x = t \/ In x m).
  { intros t m. induction m as [ | h r IH]; cbn [insert].
    - cbn [In]. intuition auto.
    - destruct (precedes t h); cbn [In]; [ intuition auto | ].
      rewrite IH. intuition auto. }
  unfold order.
  induction l as [ | h r IH]; cbn [fold_right]; [ reflexivity | ].
  rewrite I, IH. cbn [In]. intuition auto.
Qed.

Lemma valid_not_empty s : isValidISODate s = true -> String.eqb s "" = false.
Proof. destruct s; [ discriminate | reflexivity ]. Qed.

(** X22.  For valid [date_from] and [date_to] and stored records with valid
    dates, [GET /api/consumption] answers 400 when [date_from] is after
    [date_to] and otherwise lists exactly the records of the caller whose
    day is from [date_from] to [date_to], both included. *)
Theorem consumption_listing_is_the_period_of_the_caller
  (rows : list ConsumptionRecord) (u : Z) (f t : string)
  (Hdated : Forall (fun r => isValidISODate (record_date r) = true) rows)
  (Hf : isValidISODate f = true) (Ht : isValidISODate t = true) :
  (isAfter f t = true ->
   get rows u (Some f) (Some t)
   = Refused 400 "date_from cannot be after date_to") /\
  (isAfter f t = false ->
   exists out,
     get rows u (Some f) (Some t) = Rows out /\
     forall r, In r out <->
       In r rows /\ user_id r = u /\
       notBefore (record_date r) f /\ notBefore t (record_date r)).
Proof.
  unfold get. cbn [Query.textOrNull].
  rewrite (valid_not_empty f Hf), (valid_not_empty t Ht), Hf, Ht.
  cbn [negb]. split; intros A; rewrite A; [ reflexivity | ].
  eexists. split; [ reflexivity | ].
  intros r. rewrite in_order, filter_In. unfold selected.
  rewrite Forall_forall in Hdated.
  split.
  - intros (Hin & P). apply andb_prop in P. destruct P as [U P].
    apply andb_prop in P. destruct P as [G L].
    apply Z.eqb_eq in U. pose proof (Hdated r Hin) as Vr.
    repeat split; try assumption.
    + apply (le_notBefore f (record_date r) Hf Vr). exact G.
    + apply (le_notBefore (record_date r) t Vr Ht). exact L.
  - intros (Hin & U & G & L). pose proof (Hdated r Hin) as Vr.
    split; [ exact Hin | ].
    apply andb_true_intro. split; [ apply Z.eqb_eq; exact U | ].
    apply andb_true_intro. split.
    + apply (le_notBefore f (record_date r) Hf Vr). exact G.
    + apply (le_notBefore (record_date r) t Vr Ht). exact L.
Qed.

Lemma consumption_listing_witness :
  Forall (fun r => isValidISODate (record_date r) = true) [firstRecord] /\
  get [firstRecord] 7 (Some "2025-12-31") (Some "2025-12-01")
  = Refused 400 "date_from cannot be after date_to".
Proof.
  assert (H : Forall (fun r => isValidISODate (record_date r) = true)
                [firstRecord])
    by (constructor; [ vm_compute; reflexivity | constructor ]).
  split; [ exact H | ].
  apply (consumption_listing_is_the_period_of_the_caller [firstRecord] 7
           "2025-12-31" "2025-12-01" H);
    vm_compute; reflexivity.
Defined.

(** *** The records of other users *)

Lemma others_record_updateRow u r row rows :
  NoDup (map id rows) -> In row rows -> user_id row = u -> id r = id row ->
  user_id r = u ->
  othersRecords u (updateRow r rows) = othersRecords u rows.
Proof.
  intros N Hin Hu Ei Er. unfold othersRecords, updateRow.
  assert (H : forall x, In x rows -> id x = id r -> user_id x = u).
  { intros x Hx E. assert (x = row)
      by (apply (NoDup_map_unique _ id rows); try assumption; congruence).
    subst x. exact Hu. }
  clear N Hin. induction rows as [ | h t IH]; [ reflexivity | ].
  cbn [map filter]. rewrite IH by (intros x Hx; apply H; now right).
  destruct (id h =? id r) eqn:E; [ | reflexivity ].
  apply Z.eqb_eq in E. rewrite Er, (H h (or_introl eq_refl) E).
  rewrite Z.eqb_refl. reflexivity.
Qed.

Lemma others_record_destroy u row rows :
  NoDup (map id rows) -> In row rows -> user_id row = u ->
  othersRecords u (destroy row rows) = othersRecords u rows.
Proof.
  intros N Hin Hu. unfold othersRecords, destroy.
  assert (H : forall x, In x rows -> id x = id row -> user_id x = u).
  { intros x Hx E. assert (x = row)
      by (apply (NoDup_map_unique _ id rows); assumption).
    subst x. exact Hu. }
  clear N Hin. induction rows as [ | h t IH]; [ reflexivity | ].
  cbn [filter]. destruct (id h =? id row) eqn:E; cbn [negb].
  - rewrite IH by (intros x Hx; apply H; now right).
    apply Z.eqb_eq in E. rewrite (H h (or_introl eq_refl) E), Z.eqb_refl.
    reflexivity.
  - cbn [filter]. rewrite IH by (intros x Hx; apply H; now right).
    reflexivity.
Qed.

Lemma record_nextId_fresh rows r : In r rows -> id r < nextId rows.
Proof.
  unfold nextId. induction rows as [ | h t IH]; intros H; [ destruct H | ].
  cbn [map fold_right]. destruct H as [-> | H]; [ | specialize (IH H) ]; lia.
Qed.

Lemma record_map_id_updateRow r rows : map id (updateRow r rows) = map id rows.
Proof.
  unfold updateRow. rewrite map_map. apply map_ext_in.
  intros t _. destruct (id t =? id r) eqn:E; [ | reflexivity ].
  apply Z.eqb_eq in E. congruence.
Qed.

(** X23.  With distinct record ids, POST, PATCH and DELETE of a consumption
    record leave the records of every user other than the caller exactly as
    they were, and the ids stay distinct. *)
Theorem consumption_routes_leave_other_users_alone
  (db : Tables) (req : Request) (Hkey : NoDup (map id (records db))) :
  let u := user req in
  (othersRecords u (snd (post db req)) = othersRecords u (records db) /\
   NoDup (map id (snd (post db req)))) /\
  (othersRecords u (snd (patch db req)) = othersRecords u (records db) /\
   NoDup (map id (snd (patch db req)))) /\
  (othersRecords u (snd (delete (records db) req))
   = othersRecords u (records db) /\
   NoDup (map id (snd (delete (records db) req)))).
Proof.
  cbv zeta. split; [ | split ].
  - destruct (post_writes db req) as [-> | (c & -> & Ic & Uc & _)];
      [ now split | ].
    split.
    + unfold othersRecords. rewrite filter_app. cbn [filter].
      rewrite Uc, Z.eqb_refl. cbn [negb]. apply app_nil_r.
    + rewrite map_app. cbn [map]. apply NoDup_snoc; [ exact Hkey | ].
      intros Hin. apply in_map_iff in Hin. destruct Hin as (r & E & Hin).
      pose proof (record_nextId_fresh _ r Hin). lia.
  - destruct (patch_writes db req)
      as [-> | (row & up & F & -> & Iu & Uu & _)]; [ now split | ].
    apply record_findOne_some in F. destruct F as (Hin & _ & Hu).
    split.
    + apply (others_record_updateRow _ _ row); try assumption. congruence.
    + rewrite record_map_id_updateRow. exact Hkey.
  - unfold delete.
    destruct (findOne (records db) (param_id req) (user req)) as [row | ] eqn:F;
      [ | now split ].
    apply record_findOne_some in F. destruct F as (Hin & _ & Hu).
    cbn [snd]. split.
    + apply others_record_destroy; assumption.
    + apply NoDup_map_filter. exact Hkey.
Qed.

Lemma consumption_routes_leave_other_users_alone_witness :
  NoDup (map id (records repriced)) /\
  othersRecords 7 (snd (patch repriced patchNotes))
  = othersRecords 7 (records repriced).
Proof.
  assert (H : NoDup (map id (records repriced)))
    by (cbn; constructor; [ intros [] | constructor ]).
  split; [ exact H | ].
  apply (consumption_routes_leave_other_users_alone repriced patchNotes H).
Defined.

End RecordListing.

(** ** Limit routes: the listing and the deletion *)

Section LimitTableFacts.

Import JS JSNumber Period Limits LimitProps LimitRoutes TableProps PeriodProps.









End LimitTableFacts.

(** ** Limit routes: stored periods and the other users *)

Section LimitShapeFacts.

Import JS JSNumber Period Limits LimitProps LimitRoutes TableProps PeriodProps.

Ltac break_check :=
  match goal with
  | |- context [match ?x with _ => _ end] => destruct x; try discriminate
  end.

Lemma resolve_inr type start endFromBody endFromDb e :
  resolvePeriodEndOrFail type start endFromBody endFromDb = inr e ->
  (type = "custom" ->
   isValidISODate e = true /\ isAfter start e = false) /\
  (type <> "custom" -> calcAutoPeriodEnd type start = Some e).
Proof.
  unfold resolvePeriodEndOrFail.
  destruct (String.eqb type "custom") eqn:C.
  - apply String.eqb_eq in C.
    destruct (isValidISODate _) eqn:V; cbn [negb]; [ | discriminate ].
    destruct (isAfter start _) eqn:A; [ discriminate | ].
    intros E. injection E as <-. split; [ now split | ].
    intros N. contradiction.
  - apply String.eqb_neq in C.
    destruct (calcAutoPeriodEnd type start) as [autoEnd | ];
      [ | discriminate ].
    destruct (negb (isUndefined endFromBody)).
    + destruct (negb (isValidISODate _)); [ discriminate | ].
      destruct (negb (String.eqb _ autoEnd)); [ discriminate | ].
      intros E. injection E as <-. split; [ intros; contradiction | reflexivity ].
    + intros E. injection E as <-. split; [ intros; contradiction | reflexivity ].
Qed.

Lemma checkPost_inr req c :
  checkPost req = inr c ->
  isPeriodType (c_type c) = true /\ isValidISODate (c_start c) = true /\
  resolvePeriodEndOrFail (c_type c) (c_start c) (b_period_end req) JUndefined
  = inr (c_end c).
Proof.
  unfold checkPost.
  destruct (isPeriodType (ToString (or (b_period_type req) (JStr ""))))
    eqn:T; cbn [negb]; [ | discriminate ].
  destruct (isValidISODate (ToString (or (b_period_start req) (JStr ""))))
    eqn:S; cbn [negb]; [ | discriminate ].
  destruct (resolvePeriodEndOrFail _ _ _ _) as [s | e] eqn:R;
    [ discriminate | ].
  repeat break_check; intros E; inversion E; subst; cbn; auto.
Qed.

Lemma checkPatch_inr row req c :
  checkPatch row req = inr c ->
  isPeriodType (c_type c) = true /\ isValidISODate (c_start c) = true /\
  resolvePeriodEndOrFail (c_type c) (c_start c) (b_period_end req)
    (JStr (period_end row)) = inr (c_end c).
Proof.
  unfold checkPatch.
  match goal with
  | |- context [if negb (isPeriodType ?t) then _ else _] =>
      destruct (isPeriodType t) eqn:T; cbn [negb]; [ | discriminate ]
  end.
  match goal with
  | |- context [if negb (isValidISODate ?t) then _ else _] =>
      destruct (isValidISODate t) eqn:S; cbn [negb]; [ | discriminate ]
  end.
  destruct (resolvePeriodEndOrFail _ _ _ _) as [s | e] eqn:R;
    [ discriminate | ].
  repeat break_check; intros E; inversion E; subst; cbn; auto.
Qed.

Lemma candidate_shape other c i u ae th type start endFromBody endFromDb
  start' end' :
  isPeriodType (c_type c) = true -> isValidISODate (c_start c) = true ->
  type = c_type c -> start = c_start c ->
  resolvePeriodEndOrFail type start endFromBody endFromDb = inr (c_end c) ->
  Sequelize.dateText other (c_start c) = Some start' ->
  Sequelize.dateText other (c_end c) = Some end' ->
  LimitShape other (mkLimit i u (c_limit c) (c_type c) start' end' ae th).
Proof.
  intros T S -> -> R Ds De. apply resolve_inr in R. destruct R as [R1 R2].
  rewrite (dateText_valid other _ S) in Ds. injection Ds as <-.
  unfold LimitShape. cbn [period_start period_type period_end].
  split; [ exact S | split; [ exact T | split ] ].
  - intros C. destruct (R1 C) as [V A].
    rewrite (dateText_valid other _ V) in De. injection De as <-.
    split; assumption.
  - intros C. exists (c_end c). split; [ exact (R2 C) | exact De ].
Qed.

(** X26.  POST, PATCH and DELETE of a limit keep every stored limit well
    formed: a valid start, a known period type, and as end, for the type
    [custom], a valid date not before the start and, for the other types,
    what the [DATEONLY] attribute keeps of the computed end.  Hence a stored
    limit starting in the years 1000 to 9998 has as end the computed one,
    a valid date that is not before its start. *)
Theorem limit_routes_store_well_formed_periods
  (other : Sequelize.Dateonly) (rows : list Limit) (req : Request)
  (Hshape : Forall (LimitShape other) rows) :
  Forall (LimitShape other) (snd (post other rows req)) /\
  Forall (LimitShape other) (snd (patch other rows req)) /\
  Forall (LimitShape other) (snd (delete rows req)) /\
  (forall l y m d,
     In l rows ->
     splitYMD (period_start l) = Some (y, m, d) -> 1000 <= y <= 9998 ->
     (period_type l <> "custom" ->
      calcAutoPeriodEnd (period_type l) (period_start l)
      = Some (period_end l)) /\
     isValidISODate (period_end l) = true /\
     isAfter (period_start l) (period_end l) = false).
Proof.
  pose proof Hshape as Hall. rewrite Forall_forall in Hall.
  split; [ | split; [ | split ] ].
  - unfold post.
    destruct (checkPost req) as [sent | c] eqn:C; [ exact Hshape | ].
    destruct (Sequelize.dateText other (c_start c)) as [start | ] eqn:Ds;
      [ | exact Hshape ].
    destruct (Sequelize.dateText other (c_end c)) as [end_ | ] eqn:De;
      [ | exact Hshape ].
    destruct (findOverlappingLimit _ _ _ _ _ _); [ exact Hshape | ].
    cbn [snd]. apply Forall_app. split; [ exact Hshape | ].
    constructor; [ | constructor ].
    destruct (checkPost_inr req c C) as (T & S & R).
    eapply candidate_shape; try eassumption; reflexivity.
  - unfold patch.
    destruct (findOne rows (param_id req) (user req)) as [row | ];
      [ | exact Hshape ].
    destruct (checkPatch row req) as [sent | c] eqn:C; [ exact Hshape | ].
    destruct (Sequelize.dateText other (c_start c)) as [start | ] eqn:Ds;
      [ | exact Hshape ].
    destruct (Sequelize.dateText other (c_end c)) as [end_ | ] eqn:De;
      [ | exact Hshape ].
    destruct (findOverlappingLimit _ _ _ _ _ _); [ exact Hshape | ].
    cbn [snd]. apply Forall_forall. intros x Hx.
    apply limit_in_updateRow in Hx. destruct Hx as [-> | [Hx _]];
      [ | apply Hall; exact Hx ].
    destruct (checkPatch_inr row req c C) as (T & S & R).
    eapply candidate_shape; try eassumption; reflexivity.
  - unfold delete.
    destruct (findOne rows (param_id req) (user req)) as [row | ];
      [ | exact Hshape ].
    cbn [snd]. apply Forall_forall. intros x Hx. unfold destroy in Hx.
    apply filter_In in Hx. apply Hall. apply Hx.
  - intros l y m d Hin Es Hy.
    destruct (Hall l Hin) as (S & T & Cu & Au).
    destruct (String.eqb (period_type l) "custom") eqn:E.
    + apply String.eqb_eq in E. split; [ intros N; contradiction | ].
      apply Cu. exact E.
    + apply String.eqb_neq in E. destruct (Au E) as (ce & Ece & Dce).
      assert (Hc : computed (period_type l)).
      { unfold isPeriodType, PERIOD_TYPES in T. cbn [existsb] in T.
        unfold computed.
        destruct (String.eqb (period_type l) "week") eqn:W;
          [ apply String.eqb_eq in W; auto | ].
        destruct (String.eqb (period_type l) "month") eqn:M;
          [ apply String.eqb_eq in M; auto | ].
        destruct (String.eqb (period_type l) "year") eqn:Y;
          [ apply String.eqb_eq in Y; auto | ].
        cbn [orb] in T. rewrite orb_false_r in T.
        apply String.eqb_eq in T. contradiction. }
      destruct (auto_end_text _ _ y m d S Es Hy Hc)
        as (e & E' & C & Ve & Pe & Ps & L).
      rewrite Ece in C. injection C as <-.
      rewrite (dateText_valid other _ Ve) in Dce. injection Dce as Dce.
      rewrite <- Dce.
      split; [ intros _; exact Ece | ].
      split; [ exact Ve | ].
      rewrite (proj1 (iso_order _ _ _ _ S Ve Ps Pe)).
      apply lengthOf_positive in L. apply Z.ltb_ge. unfold msPerDay. lia.
Qed.

Lemma december_shape other :
  LimitShape other
    (mkLimit 1 7 "50.000" "month" "2025-12-01" "2025-12-31" true 80).
Proof.
  split; [ vm_compute; reflexivity | ].
  split; [ vm_compute; reflexivity | ].
  split; [ intros H; discriminate H | ].
  intros _. exists "2025-12-31". split; [ vm_compute; reflexivity | ].
  apply dateText_valid. vm_compute. reflexivity.
Qed.

Lemma limit_routes_store_well_formed_periods_witness :
  Forall (LimitShape Sequelize.isoOnly)
    [mkLimit 1 7 "50.000" "month" "2025-12-01" "2025-12-31" true 80] /\
  Forall (LimitShape Sequelize.isoOnly)
    (snd (post Sequelize.isoOnly
            [mkLimit 1 7 "50.000" "month" "2025-12-01" "2025-12-31" true 80]
            postWeek)).
Proof.
  assert (H : Forall (LimitShape Sequelize.isoOnly)
                [mkLimit 1 7 "50.000" "month" "2025-12-01" "2025-12-31"
                   true 80])
    by (constructor; [ exact (december_shape _) | constructor ]).
  split; [ exact H | ].
  apply (limit_routes_store_well_formed_periods _ _ postWeek H).
Defined.

(** *** The limits of other users *)

Lemma others_limit_updateRow u r row rows :
  NoDup (map id rows) -> In row rows -> user_id row = u -> id r = id row ->
  user_id r = u ->
  othersLimits u (updateRow r rows) = othersLimits u rows.
Proof.
  intros N Hin Hu Ei Er. unfold othersLimits, updateRow.
  assert (H : forall x, In x rows -> id x = id r -> user_id x = u).
  { intros x Hx E. assert (x = row)
      by (apply (NoDup_map_unique _ id rows); try assumption; congruence).
    subst x. exact Hu. }
  clear N Hin. induction rows as [ | h t IH]; [ reflexivity | ].
  cbn [map filter]. rewrite IH by (intros x Hx; apply H; now right).
  destruct (id h =? id r) eqn:E; [ | reflexivity ].
  apply Z.eqb_eq in E. rewrite Er, (H h (or_introl eq_refl) E).
  rewrite Z.eqb_refl. reflexivity.
Qed.

Lemma others_limit_destroy u row rows :
  NoDup (map id rows) -> In row rows -> user_id row = u ->
  othersLimits u (destroy row rows) = othersLimits u rows.
Proof.
  intros N Hin Hu. unfold othersLimits, destroy.
  assert (H : forall x, In x rows -> id x = id row -> user_id x = u).
  { intros x Hx E. assert (x = row)
      by (apply (NoDup_map_unique _ id rows); assumption).
    subst x. exact Hu. }
  clear N Hin. induction rows as [ | h t IH]; [ reflexivity | ].
  cbn [filter]. destruct (id h =? id row) eqn:E; cbn [negb].
  - rewrite IH by (intros x Hx; apply H; now right).
    apply Z.eqb_eq in E. rewrite (H h (or_introl eq_refl) E), Z.eqb_refl.
    reflexivity.
  - cbn [filter]. rewrite IH by (intros x Hx; apply H; now right).
    reflexivity.
Qed.

(** X27.  With distinct limit ids, POST, PATCH and DELETE of a limit leave the
    limits of every user other than the caller exactly as they were, and the
    progress of a limit of one user is answered 404 to every other user. *)
Theorem limit_routes_leave_other_users_alone
  (other : Sequelize.Dateonly) (rows : list Limit) (req : Request)
  (Hkey : NoDup (map id rows)) :
  let u := user req in
  othersLimits u (snd (post other rows req)) = othersLimits u rows /\
  othersLimits u (snd (patch other rows req)) = othersLimits u rows /\
  othersLimits u (snd (delete rows req)) = othersLimits u rows /\
  (forall sum stranger,
     user stranger <> u -> param_id stranger = param_id req ->
     findOne rows (param_id req) u <> None ->
     progress rows sum stranger = mkResponse 404 (Message "not found")).
Proof.
  cbv zeta. split; [ | split; [ | split ] ].
  - unfold post.
    destruct (checkPost req) as [sent | c]; [ reflexivity | ].
    destruct (Sequelize.dateText other (c_start c)); [ | reflexivity ].
    destruct (Sequelize.dateText other (c_end c)); [ | reflexivity ].
    destruct (findOverlappingLimit _ _ _ _ _ _); [ reflexivity | ].
    cbn [snd]. unfold othersLimits. rewrite filter_app. cbn [filter user_id].
    rewrite Z.eqb_refl. cbn [negb]. apply app_nil_r.
  - unfold patch.
    destruct (findOne rows (param_id req) (user req)) as [row | ] eqn:F;
      [ | reflexivity ].
    apply limit_findOne_some in F. destruct F as (Hin & Hid & Hu).
    destruct (checkPatch row req) as [sent | c]; [ reflexivity | ].
    destruct (Sequelize.dateText other (c_start c)); [ | reflexivity ].
    destruct (Sequelize.dateText other (c_end c)); [ | reflexivity ].
    destruct (findOverlappingLimit _ _ _ _ _ _); [ reflexivity | ].
    cbn [snd].
    apply (others_limit_updateRow _ _ row); try assumption; reflexivity.
  - unfold delete.
    destruct (findOne rows (param_id req) (user req)) as [row | ] eqn:F;
      [ | reflexivity ].
    apply limit_findOne_some in F. destruct F as (Hin & Hid & Hu).
    cbn [snd]. apply others_limit_destroy; assumption.
  - intros sum stranger Hu Hp Hf. unfold progress.
    destruct (findOne rows (param_id stranger) (user stranger)) as [x | ] eqn:F;
      [ exfalso | reflexivity ].
    destruct (findOne rows (param_id req) (user req)) as [row | ] eqn:G;
      [ | now apply Hf ].
    apply limit_findOne_some in F, G.
    destruct F as (Ix & Idx & Ux). destruct G as (Ir & Idr & Ur).
    assert (x = row)
      by (apply (NoDup_map_unique _ id rows); try assumption; congruence).
    subst x. congruence.
Qed.

Lemma limit_routes_leave_other_users_alone_witness :
  NoDup (map id [existingMonth]) /\
  othersLimits 7 (snd (post Sequelize.isoOnly [existingMonth] postWeek))
  = othersLimits 7 [existingMonth].
Proof.
  split; [ exact (proj1 (single_row_disjoint existingMonth)) | ].
  apply (limit_routes_leave_other_users_alone Sequelize.isoOnly
           [existingMonth] postWeek
           (proj1 (single_row_disjoint existingMonth))).
Defined.

End LimitShapeFacts.

(** ** Limit routes: the ranges of a user never intersect *)

Section LimitRanges.

Import JS JSNumber Period Limits LimitProps LimitRoutes TableProps PeriodProps.

Ltac break_check :=
  match goal with
  | |- context [match ?x with _ => _ end] => destruct x; try discriminate
  end.

(** On dates the overlap test of the query is the intersection of the
    ranges. *)
Lemma overlaps_meets l s e :
  Dated l -> isValidISODate s = true -> isValidISODate e = true ->
  (overlaps l s e = true <-> meets l s e).
Proof.
  intros [Vs Ve] Hs He. unfold overlaps, meets, JSString.ge.
  change (String.leb s (period_end l)) with (JSString.le s (period_end l)).
  rewrite andb_true_iff.
  rewrite (le_notBefore (period_start l) e Vs He).
  rewrite (le_notBefore s (period_end l) Hs Ve).
  reflexivity.
Qed.

Lemma dateText_keeps other s t :
  KeepsDates other -> Sequelize.dateText other s = Some t ->
  isValidISODate t = true.
Proof.
  intros K. unfold Sequelize.dateText.
  destruct (isValidISODate s) eqn:V.
  - intros E. injection E as <-. exact V.
  - intros E. exact (K _ _ E).
Qed.

Lemma apart_disjoint rows : Apart rows -> Disjoint rows.
Proof.
  intros (Hkey & Hd & Inv). rewrite Forall_forall in Hd.
  split; [ exact Hkey | ].
  intros a b Ha Hb Hne Hu Ht. unfold intersect.
  destruct (overlaps a (period_start b) (period_end b)) eqn:O;
    [ exfalso | reflexivity ].
  apply (Inv a b Ha Hb Hne Hu Ht).
  apply (overlaps_meets a _ _ (Hd a Ha)); [ apply Hd, Hb | apply Hd, Hb | ].
  exact O.
Qed.

Lemma disjoint_apart rows : Forall Dated rows -> Disjoint rows -> Apart rows.
Proof.
  intros Hd [Hkey Inv]. split; [ exact Hkey | split; [ exact Hd | ] ].
  rewrite Forall_forall in Hd.
  intros a b Ha Hb Hne Hu Ht M.
  apply (overlaps_meets a _ _ (Hd a Ha)) in M;
    [ | apply Hd, Hb | apply Hd, Hb ].
  pose proof (Inv a b Ha Hb Hne Hu Ht) as N. unfold intersect in N.
  congruence.
Qed.

Lemma post_keeps_dated other rows req :
  KeepsDates other -> Forall Dated rows ->
  Forall Dated (snd (post other rows req)).
Proof.
  intros K Hd.
  destruct (post_outcome other rows req)
    as [[-> _] | (c & start & end_ & C & S & E & _ & ->)]; [ exact Hd | ].
  cbn [snd]. apply Forall_app. split; [ exact Hd | ].
  constructor; [ | constructor ].
  split; cbn [period_start period_end]; eapply dateText_keeps; eassumption.
Qed.

Lemma patch_keeps_dated other rows req :
  KeepsDates other -> Forall Dated rows ->
  Forall Dated (snd (patch other rows req)).
Proof.
  intros K Hd.
  destruct (patch_outcome other rows req)
    as [[-> _] | (row & c & start & end_ & _ & C & S & E & _ & ->)];
    [ exact Hd | ].
  cbn [snd]. rewrite Forall_forall in Hd. apply Forall_forall.
  intros x Hx. apply limit_in_updateRow in Hx.
  destruct Hx as [-> | [Hx _]]; [ | exact (Hd x Hx) ].
  split; cbn [period_start period_end]; eapply dateText_keeps; eassumption.
Qed.

(** The overlap query on a table of dates: it finds a limit exactly when
    one intersects the range, and what it finds is such a limit. *)
Lemma query_finds rows u type s e ex :
  Forall Dated rows -> isValidISODate s = true -> isValidISODate e = true ->
  match findOverlappingLimit rows u type s e ex with
  | Some o => colliding rows u type s e ex o
  | None => forall l, ~ colliding rows u type s e ex l
  end.
Proof.
  intros Hd Hs He. rewrite Forall_forall in Hd.
  destruct (findOverlappingLimit rows u type s e ex) as [o | ] eqn:F.
  - apply findOverlapping_some in F.
    destruct F as (Hin & Hu & Ht & O & Hx).
    repeat split; try assumption;
      apply (overlaps_meets o s e (Hd o Hin) Hs He); exact O.
  - intros l (Hin & Hu & Ht & M & Hx).
    pose proof (findOverlapping_none rows u type s e ex l F Hin Hu Ht Hx)
      as N.
    apply (overlaps_meets l s e (Hd l Hin) Hs He) in M. congruence.
Qed.

Lemma keepsDates_padsYear : KeepsDates Sequelize.padsYear.
Proof.
  intros v t. unfold Sequelize.padsYear.
  destruct v as [ | | | | s]; try discriminate.
  destruct (splitYMD s) as [[[y m] d] | ]; [ | discriminate ].
  cbv zeta.
  destruct (isValidISODate _) eqn:V; [ | discriminate ].
  intros E. injection E as <-. exact V.
Qed.

Lemma single_row_apart l : Dated l -> Apart [l].
Proof.
  intros D. split; [ | split ].
  - constructor; [ intros [] | constructor ].
  - constructor; [ exact D | constructor ].
  - intros a b [<- | []] [<- | []] H. congruence.
Qed.

(** The candidate of a request that has passed the checks: the type and
    the start are those of the request (for a PATCH, of the stored limit
    where the request gives none), the start is a date, and the end is the
    computed one unless the type is [custom]. *)
Lemma checkPost_candidate req c :
  checkPost req = inr c ->
  c_type c = postType req /\ c_start c = postStart req /\
  isValidISODate (c_start c) = true /\
  (c_type c <> "custom" ->
   calcAutoPeriodEnd (c_type c) (c_start c) = Some (c_end c)).
Proof.
  intros C. destruct (checkPost_inr req c C) as (_ & S & R).
  apply resolve_inr in R. destruct R as [_ R].
  assert (F : c_type c = postType req /\ c_start c = postStart req).
  { revert C. unfold checkPost, postType, postStart.
    repeat break_check; intros E; inversion E; subst; cbn; auto. }
  destruct F as [Ft Fs]. repeat split; assumption.
Qed.

Lemma checkPatch_candidate row req c :
  checkPatch row req = inr c ->
  c_type c = patchType row req /\ c_start c = patchStart row req /\
  isValidISODate (c_start c) = true /\
  (c_type c <> "custom" ->
   calcAutoPeriodEnd (c_type c) (c_start c) = Some (c_end c)).
Proof.
  intros C. destruct (checkPatch_inr row req c C) as (_ & S & R).
  apply resolve_inr in R. destruct R as [_ R].
  assert (F : c_type c = patchType row req /\ c_start c = patchStart row req).
  { revert C. unfold checkPatch, patchType, patchStart.
    repeat break_check; intros E; inversion E; subst; cbn; auto. }
  destruct F as [Ft Fs]. repeat split; assumption.
Qed.

(** C2. On a table of limits that carry dates and of which no two of one
    user and period type have a day in common, and with a [DATEONLY]
    attribute that keeps nothing but dates, the same holds of the table
    after every POST and every PATCH of a limit.  The range a request asks
    for has the type and the start of the request, a start that is a date
    and, unless the type is [custom], the computed end.  A create or update
    that has passed the checks of its fields is answered 409 with the key of a
    stored limit of the caller and type that intersects the range asked
    for (the updated limit itself apart), nothing being written, as soon
    as there is such a limit; when there is none the limit is written and
    the answer is 201, respectively 200; no other answer comes with a
    write.  The intersection is the inclusive one, on the calendar.  The
    month from 2025-12-01 is refused next to a month limit from 2025-12-15
    to 2026-01-10, as is the move of a February limit to 2025-12-20, while
    a new amount for the month limit itself and a week limit next to it are
    accepted; when the attribute pads the year of a date, the week from
    0998-12-28 is stored with the end 0999-01-03 and the week after it is
    accepted. *)
Theorem limits_never_overlap
  (other : Sequelize.Dateonly) (rows : list Limit) (req : Request)
  (Hdates : KeepsDates other) (Hinv : Apart rows) :
  Apart (snd (post other rows req)) /\
  Apart (snd (patch other rows req)) /\
  (forall c e,
     checkPost req = inr c ->
     Sequelize.dateText other (c_end c) = Some e ->
     let hit := colliding rows (user req) (c_type c) (c_start c) e None in
     ((exists l, hit l) ->
      exists o,
        hit o /\
        post other rows req
        = (mkResponse 409 (Overlapping overlapMessage (id o)), rows)) /\
     ((forall l, ~ hit l) ->
      exists i,
        (forall l, In l rows -> id l <> i) /\
        post other rows req
        = (mkResponse 201 (Row (limitOf i (user req) c e)),
           (rows ++ [limitOf i (user req) c e])%list))) /\
  (forall row c e,
     findOne rows (param_id req) (user req) = Some row ->
     checkPatch row req = inr c ->
     Sequelize.dateText other (c_end c) = Some e ->
     let hit :=
       colliding rows (user req) (c_type c) (c_start c) e (Some (id row)) in
     ((exists l, hit l) ->
      exists o,
        hit o /\
        patch other rows req
        = (mkResponse 409 (Overlapping overlapMessage (id o)), rows)) /\
     ((forall l, ~ hit l) ->
      patch other rows req
      = (mkResponse 200 (Row (limitOf (id row) (user_id row) c e)),
         updateRow (limitOf (id row) (user_id row) c e) rows))) /\
  (forall c,
     checkPost req = inr c ->
     c_type c = postType req /\ c_start c = postStart req /\
     isValidISODate (c_start c) = true /\
     (c_type c <> "custom" ->
      calcAutoPeriodEnd (c_type c) (c_start c) = Some (c_end c))) /\
  (forall row c,
     checkPatch row req = inr c ->
     c_type c = patchType row req /\ c_start c = patchStart row req /\
     isValidISODate (c_start c) = true /\
     (c_type c <> "custom" ->
      calcAutoPeriodEnd (c_type c) (c_start c) = Some (c_end c))) /\
  (status (fst (post other rows req)) <> 201 ->
   snd (post other rows req) = rows) /\
  (status (fst (patch other rows req)) <> 200 ->
   snd (patch other rows req) = rows) /\
  post other [existingMonth] postDecember
  = (mkResponse 409 (Overlapping overlapMessage 1), [existingMonth]) /\
  patch other [existingMonth; february] patchToDecember
  = (mkResponse 409 (Overlapping overlapMessage 1),
     [existingMonth; february]) /\
  patch other [existingMonth; february] patchAmount
  = (mkResponse 200 (Row raisedMonth), [raisedMonth; february]) /\
  post other [existingMonth] postWeek
  = (mkResponse 201 (Row createdWeek), [existingMonth; createdWeek]) /\
  post Sequelize.padsYear [] postWeek998
  = (mkResponse 201 (Row week998), [week998]) /\
  post Sequelize.padsYear [week998] postWeek999
  = (mkResponse 201 (Row week999), [week998; week999]).
Proof.
  pose proof Hinv as (Hkey & Hd & Inv).
  repeat match goal with |- _ /\ _ => split end.
  - apply disjoint_apart.
    + apply post_keeps_dated; assumption.
    + apply post_keeps_disjoint, apart_disjoint, Hinv.
  - apply disjoint_apart.
    + apply patch_keeps_dated; assumption.
    + apply patch_keeps_disjoint, apart_disjoint, Hinv.
  - intros c e C E hit. subst hit.
    destruct (checkPost_inr req c C) as (_ & S & _).
    pose proof (dateText_keeps other _ _ Hdates E) as Ve.
    pose proof (query_finds rows (user req) (c_type c) (c_start c) e None
                  Hd S Ve) as Q.
    unfold post. rewrite C, (dateText_valid other _ S), E.
    destruct (findOverlappingLimit rows (user req) (c_type c) (c_start c) e
                None) as [o | ].
    + split.
      * intros _. exists o. split; [ exact Q | reflexivity ].
      * intros N. destruct (N o Q).
    + split.
      * intros [l Hl]. destruct (Q l Hl).
      * intros _. exists (nextId rows). split; [ | reflexivity ].
        intros l Hl El. pose proof (limit_nextId_fresh rows l Hl). lia.
  - intros row c e Fr C E hit. subst hit.
    destruct (checkPatch_inr row req c C) as (_ & S & _).
    pose proof (dateText_keeps other _ _ Hdates E) as Ve.
    pose proof (limit_findOne_some _ _ _ _ Fr) as (_ & Hid & _).
    pose proof (query_finds rows (user req) (c_type c) (c_start c) e
                  (Some (param_id req)) Hd S Ve) as Q.
    unfold patch. rewrite Fr, C, (dateText_valid other _ S), E.
    rewrite Hid.
    destruct (findOverlappingLimit rows (user req) (c_type c) (c_start c) e
                (Some (param_id req))) as [o | ].
    + split.
      * intros _. exists o. split; [ exact Q | reflexivity ].
      * intros N. destruct (N o Q).
    + split.
      * intros [l Hl]. destruct (Q l Hl).
      * intros _. reflexivity.
  - intros c C. exact (checkPost_candidate req c C).
  - intros row c C. exact (checkPatch_candidate row req c C).
  - intros S.
    destruct (post_outcome other rows req) as [[E _] | (c & s & e & H)];
      [ exact E | ].
    destruct H as (_ & _ & _ & _ & E). rewrite E in S. exfalso. apply S.
    reflexivity.
  - intros S.
    destruct (patch_outcome other rows req)
      as [[E _] | (row & c & s & e & H)]; [ exact E | ].
    destruct H as (_ & _ & _ & _ & _ & E). rewrite E in S. exfalso. apply S.
    reflexivity.
  - vm_compute. reflexivity.
  - vm_compute. reflexivity.
  - vm_compute. reflexivity.
  - vm_compute. reflexivity.
  - vm_compute. reflexivity.
  - vm_compute. reflexivity.
Qed.

Lemma week998_dated : Dated week998.
Proof. split; vm_compute; reflexivity. Qed.

Lemma limits_never_overlap_witness :
  KeepsDates Sequelize.padsYear /\
  Apart [week998] /\
  Apart (snd (post Sequelize.padsYear [week998] postWeek999)).
Proof.
  split; [ exact keepsDates_padsYear | ].
  split; [ exact (single_row_apart week998 week998_dated) | ].
  exact (proj1 (limits_never_overlap Sequelize.padsYear [week998]
                  postWeek999 keepsDates_padsYear
                  (single_row_apart week998 week998_dated))).
Defined.

End LimitRanges.

(** ** Tariff routes: what POST creates *)

Section TariffCreation.

Import JS JSNumber Period Tariffs TariffProps TariffRoutes TableProps.

Lemma digitsFuel_nonempty fuel n acc :
  acc <> EmptyString -> digitsFuel fuel n acc <> EmptyString.
Proof.
  revert n acc. induction fuel as [ | f IH]; intros n acc H; cbn [digitsFuel].
  - exact H.
  - destruct (n <? 10); [ discriminate | ]. apply IH. discriminate.
Qed.

Lemma digitsOf_nonempty n : digitsOf n <> EmptyString.
Proof.
  unfold digitsOf. cbn [digitsFuel].
  destruct (n <? 10); [ discriminate | ].
  apply digitsFuel_nonempty. discriminate.
Qed.

Lemma append_nonempty_r a b : b <> EmptyString -> (a ++ b)%string <> EmptyString.
Proof. destruct a; [ auto | discriminate ]. Qed.

Lemma append_nonempty_l a b : a <> EmptyString -> (a ++ b)%string <> EmptyString.
Proof. destruct a; [ contradiction | discriminate ]. Qed.

Lemma toStringPos_nonempty m e : toStringPos m e <> EmptyString.
Proof.
  unfold toStringPos.
  destruct (ratOf m e) as [num den].
  destruct (shortest 17 m e (decimalExponent num den) 1) as [[s k] n].
  destruct ((k <=? n) && (n <=? 21)).
  { apply append_nonempty_l, digitsOf_nonempty. }
  destruct ((0 <? n) && (n <=? 21)).
  { apply append_nonempty_r. discriminate. }
  destruct ((-6 <? n) && (n <=? 0)).
  { discriminate. }
  cbv zeta. destruct k as [ | [ k' | k' | ] | k' ];
    try (apply append_nonempty_r; discriminate).
Qed.

(** A value that counts as true has a text that is not empty. *)
Lemma truthy_text v : ToBoolean v = true -> ToString v <> "".
Proof.
  destruct v as [ | | b | n | s]; cbn [ToBoolean ToString];
    try discriminate.
  - destruct b; discriminate.
  - destruct n as [ z | [ | ] | | sg m e]; try discriminate.
    intros _. cbn [toString]. apply append_nonempty_r, toStringPos_nonempty.
  - intros H E. rewrite E in H. discriminate H.
Qed.

Lemma isFalse_iff v : isFalse v = true <-> v = JBool false.
Proof.
  destruct v as [ | | [ | ] | n | s]; cbn [isFalse];
    split; intros H; try discriminate H; reflexivity.
Qed.

Lemma complete_iff req :
  negb (ToBoolean (b_tariff_name req)) || isNullish (b_price_per_kwh req)
  || negb (ToBoolean (b_valid_from req)) = false <-> Complete req.
Proof.
  unfold Complete.
  rewrite !orb_false_iff, !negb_false_iff.
  destruct (b_price_per_kwh req); cbn [isNullish];
    intuition (try discriminate; congruence).
Qed.

Lemma ordered_iff req :
  ToBoolean (b_valid_to req)
  && isAfter (b_valid_from req) (b_valid_to req) = false <-> Ordered req.
Proof.
  unfold Ordered, textLe, isAfter, JSString.gt. rewrite leb_ltb.
  destruct (ToBoolean (b_valid_to req)); cbn [andb].
  - rewrite negb_true_iff. intuition.
  - intuition discriminate.
Qed.

Lemma ltb_empty d : String.ltb d "" = false.
Proof. destruct d; reflexivity. Qed.

Lemma within_iff req :
  ToBoolean (b_valid_from req) = true ->
  (ok (assertCanBeActiveNow (today req) (b_valid_from req)
         (or (b_valid_to req) JNull)) = true <-> Within req).
Proof.
  intros Tf.
  unfold assertCanBeActiveNow, isDateInRange, Within, textLe, JSString.lt,
    JSString.gt, or.
  rewrite !leb_ltb, Tf.
  pose proof (truthy_text _ Tf) as Nf. apply String.eqb_neq in Nf.
  rewrite Nf. cbn [negb andb].
  destruct (String.ltb (today req) (ToString (b_valid_from req)));
    cbn [negb ok].
  { split; [ discriminate | intros [H _]; discriminate H ]. }
  destruct (ToBoolean (b_valid_to req)) eqn:T.
  - rewrite T. pose proof (truthy_text _ T) as N.
    apply String.eqb_neq in N. rewrite N. cbn [negb andb].
    destruct (String.ltb (ToString (b_valid_to req)) (today req));
      cbn [negb ok]; intuition discriminate.
  - cbn [ToBoolean negb ok]. intuition discriminate.
Qed.

Lemma accepted_iff req :
  Accepted req <->
  negb (ToBoolean (b_tariff_name req)) || isNullish (b_price_per_kwh req)
  || negb (ToBoolean (b_valid_from req)) = false /\
  ToBoolean (b_valid_to req)
  && isAfter (b_valid_from req) (b_valid_to req) = false /\
  negb (isFalse (b_is_active req))
  && negb (ok (assertCanBeActiveNow (today req) (b_valid_from req)
                 (or (b_valid_to req) JNull))) = false.
Proof.
  unfold Accepted. rewrite complete_iff, ordered_iff.
  split.
  - intros (Hc & Ho & Hw). split; [ exact Hc | split; [ exact Ho | ] ].
    destruct (isFalse (b_is_active req)) eqn:F; [ reflexivity | ].
    cbn [negb andb]. apply negb_false_iff.
    apply (within_iff req (proj2 (proj2 (proj2 Hc)))). apply Hw.
    intros E. apply isFalse_iff in E. congruence.
  - intros (Hc & Ho & Hw). split; [ exact Hc | split; [ exact Ho | ] ].
    intros N. apply (within_iff req (proj2 (proj2 (proj2 Hc)))).
    destruct (isFalse (b_is_active req)) eqn:F.
    + apply isFalse_iff in F. contradiction.
    + cbn [negb andb] in Hw. apply negb_false_iff in Hw. exact Hw.
Qed.

(** Deactivating all tariffs of a user but the one just added. *)
Lemma deactivateOthers_created u rows t :
  id t = nextId rows ->
  deactivateOthers u (nextId rows) (rows ++ [t])
  = (map (retire u) rows ++ [t])%list.
Proof.
  intros E. unfold deactivateOthers. rewrite map_app. cbn [map].
  rewrite E, Z.eqb_refl, andb_false_r. f_equal.
  apply map_ext_in. intros x Hx. unfold retire.
  pose proof (nextId_fresh rows x Hx) as L.
  assert (N : (id x =? nextId rows) = false) by (apply Z.eqb_neq; lia).
  rewrite N, andb_true_r. reflexivity.
Qed.

Lemma retired u rows x :
  In x (map (retire u) rows) -> user_id x = u -> is_active x = false.
Proof.
  intros H Hu. apply in_map_iff in H. destruct H as (y & E & _).
  unfold retire in E. destruct (user_id y =? u) eqn:Eu.
  - subst x. reflexivity.
  - subst x. apply Z.eqb_neq in Eu. contradiction.
Qed.

(** What [POST /api/tariffs] does with a request that passes its checks,
    and with one that does not. *)
Lemma post_accepted other rows req :
  Accepted req ->
  post other rows req
  = match Sequelize.dateValue other false (b_valid_from req),
          Sequelize.dateValue other true (or (b_valid_to req) JNull) with
    | Some from, Some to =>
        let t := mkTariff (nextId rows) (user req) (b_tariff_name req)
                   (b_price_per_kwh req) from to
                   (negb (isFalse (b_is_active req))) in
        (mkResponse 201 (Row t),
         ((if negb (isFalse (b_is_active req))
           then map (retire (user req)) rows else rows) ++ [t])%list)
    | _, _ => (mkResponse 500 InternalError, rows)
    end.
Proof.
  intros H. apply accepted_iff in H. destruct H as (A & B & C).
  unfold post. rewrite A, B. cbv zeta. rewrite C.
  destruct (Sequelize.dateValue other false (b_valid_from req)) as [from | ];
    [ | reflexivity ].
  destruct (Sequelize.dateValue other true (or (b_valid_to req) JNull))
    as [to | ]; [ | reflexivity ].
  destruct (negb (isFalse (b_is_active req))); [ | reflexivity ].
  cbn [id]. rewrite deactivateOthers_created by reflexivity. reflexivity.
Qed.

Lemma post_refused other rows req :
  ~ Accepted req ->
  status (fst (post other rows req)) = 400 /\
  snd (post other rows req) = rows.
Proof.
  intros H. rewrite accepted_iff in H. unfold post.
  destruct (negb (ToBoolean (b_tariff_name req))
            || isNullish (b_price_per_kwh req)
            || negb (ToBoolean (b_valid_from req)));
    [ split; reflexivity | ].
  destruct (ToBoolean (b_valid_to req)
            && isAfter (b_valid_from req) (b_valid_to req));
    [ split; reflexivity | ].
  cbv zeta.
  destruct (negb (isFalse (b_is_active req)) &&
            negb (ok (assertCanBeActiveNow (today req) (b_valid_from req)
                        (or (b_valid_to req) JNull))));
    [ split; reflexivity | ].
  exfalso. apply H. repeat split.
Qed.

Lemma accepted_dec req : Accepted req \/ ~ Accepted req.
Proof.
  rewrite accepted_iff.
  destruct (negb (ToBoolean (b_tariff_name req))
            || isNullish (b_price_per_kwh req)
            || negb (ToBoolean (b_valid_from req)));
    [ right; intros (H & _); discriminate H | ].
  destruct (ToBoolean (b_valid_to req)
            && isAfter (b_valid_from req) (b_valid_to req));
    [ right; intros (_ & H & _); discriminate H | ].
  destruct (negb (isFalse (b_is_active req)) &&
            negb (ok (assertCanBeActiveNow (today req) (b_valid_from req)
                        (or (b_valid_to req) JNull))));
    [ right; intros (_ & _ & H); discriminate H | ].
  left. repeat split.
Qed.

Lemma valid_nonempty s : isValidISODate s = true -> s <> "".
Proof. intros V E. subst s. vm_compute in V. discriminate V. Qed.

(** For a plain request the checks read on the calendar, and the dates are
    kept as they are. *)
Lemma plain_accepted req : Plain req -> (Accepted req <-> Fits req).
Proof.
  intros (Hn & Hp & Vd & (f & Ef & Vf) & Ht).
  destruct Hn as (n & En & Nn & _). destruct Hp as (p & Ep & _).
  assert (Hc : Complete req).
  { unfold Complete. rewrite En, Ep, Ef. cbn [ToBoolean].
    apply String.eqb_neq in Nn. rewrite Nn.
    pose proof (valid_nonempty f Vf) as Nf. apply String.eqb_neq in Nf.
    rewrite Nf. repeat split; discriminate. }
  assert (Ho : Ordered req <-> upTo f (b_valid_to req)).
  { unfold Ordered, textLe. rewrite Ef.
    destruct (b_valid_to req) as [ | | b | x | t]; try contradiction;
      cbn [ToBoolean ToString upTo]; try (intuition discriminate).
    pose proof (valid_nonempty t Ht) as N. apply String.eqb_neq in N.
    rewrite N. cbn [negb].
    pose proof (le_notBefore f t Vf Ht) as L. unfold JSString.le in L.
    intuition. }
  assert (Hw : Within req <->
               notBefore (today req) f /\ upTo (today req) (b_valid_to req)).
  { unfold Within, textLe. rewrite Ef. cbn [ToString].
    pose proof (le_notBefore f (today req) Vf Vd) as L1.
    unfold JSString.le in L1. rewrite L1.
    destruct (b_valid_to req) as [ | | b | x | t]; try contradiction;
      cbn [ToBoolean ToString upTo]; try (intuition discriminate).
    pose proof (valid_nonempty t Ht) as N. apply String.eqb_neq in N.
    rewrite N. cbn [negb].
    pose proof (le_notBefore (today req) t Vd Ht) as L2.
    unfold JSString.le in L2. intuition. }
  unfold Accepted, Fits. split.
  - intros (_ & O & W). exists f. split; [ exact Ef | ].
    split; [ apply Ho, O | ]. intros N. apply Hw, W, N.
  - intros (f' & Ef' & O & W).
    assert (f' = f) by congruence. subst f'.
    split; [ exact Hc | ]. split; [ apply Ho, O | ].
    intros N. apply Hw, W, N.
Qed.

Lemma plain_kept other req :
  Plain req ->
  Sequelize.dateValue other false (b_valid_from req)
  = Some (b_valid_from req) /\
  Sequelize.dateValue other true (or (b_valid_to req) JNull)
  = Some (or (b_valid_to req) JNull).
Proof.
  intros (_ & _ & _ & (f & Ef & Vf) & Ht). rewrite Ef. split.
  - cbn [Sequelize.dateValue]. unfold Sequelize.dateText. rewrite Vf.
    reflexivity.
  - destruct (b_valid_to req) as [ | | b | x | t]; try contradiction;
      try reflexivity.
    unfold or. cbn [ToBoolean].
    pose proof (valid_nonempty t Ht) as N. apply String.eqb_neq in N.
    rewrite N. cbn [negb Sequelize.dateValue]. unfold Sequelize.dateText.
    rewrite Ht. reflexivity.
Qed.

(** C9. [POST /api/tariffs] answers 400 exactly when the request fails one
    of its checks: the name, the price and [valid_from] are given,
    [valid_from] is not after a given [valid_to], and, unless [is_active] is
    the boolean [false], today lies between [valid_from] and [valid_to]
    (with no upper bound when [valid_to] is not given).  Nothing is written
    unless the answer is 201.  A request that passes the checks is answered
    201, or 500 when a date is not taken by its column.  With 201 the
    created tariff belongs to the caller, has a key of its own and the values of
    the request; it is inactive exactly when [is_active] is the boolean
    [false], and when it is active every other tariff of the caller is
    inactive afterwards, the tariffs of other users being untouched.  For a
    request with a name, a price and valid ISO dates the answer is 201
    exactly when, on the calendar, [valid_from] is not after [valid_to] and,
    unless [is_active] is the boolean [false], today is in that range, and
    the dates are stored as given.  Next to an active and an inactive
    tariff of user 7, a request without [is_active] creates an active
    tariff 3 and leaves 1 and 2 inactive; on 2025-06-01 a tariff valid from
    2026-01-01 is created inactive with [is_active] the boolean [false]
    and refused with [is_active] the number 0; when the attribute reads a
    date written 2026-9-1, the tariff is stored with 2026-09-01. *)
Theorem post_creates_active_unless_explicit_false
  (other : Sequelize.Dateonly) (rows : list Tariff) (req : Request) :
  let out := post other rows req in
  (status (fst out) = 400 <-> ~ Accepted req) /\
  (status (fst out) <> 201 -> snd out = rows) /\
  (Accepted req ->
   status (fst out) = 201 \/ out = (mkResponse 500 InternalError, rows)) /\
  (status (fst out) = 201 ->
   exists t,
     fst out = mkResponse 201 (Row t) /\
     (forall x, In x rows -> id x <> id t) /\ user_id t = user req /\
     tariff_name t = b_tariff_name req /\
     price_per_kwh t = b_price_per_kwh req /\
     Sequelize.dateValue other false (b_valid_from req)
     = Some (valid_from t) /\
     Sequelize.dateValue other true (or (b_valid_to req) JNull)
     = Some (valid_to t) /\
     (is_active t = false <-> b_is_active req = JBool false) /\
     snd out
     = ((if is_active t then map (retire (user req)) rows else rows)
        ++ [t])%list /\
     (is_active t = true ->
      forall x, In x (snd out) -> user_id x = user req ->
                x = t \/ is_active x = false)) /\
  (Plain req ->
   (status (fst out) = 201 <-> Fits req) /\
   (forall t, fst out = mkResponse 201 (Row t) ->
              valid_from t = b_valid_from req /\
              valid_to t = or (b_valid_to req) JNull)) /\
  post other twoTariffs postWeekend
  = (mkResponse 201 (Row weekend),
     [mkTariff 1 7 (JStr "day") (JStr "4.3200") (JStr "2025-01-01") JNull
        false;
      mkTariff 2 7 (JStr "night") (JStr "2.1000") (JStr "2025-01-01") JNull
        false;
      weekend]) /\
  post other twoTariffs postNextYearOff
  = (mkResponse 201 (Row nextYear), (twoTariffs ++ [nextYear])%list) /\
  post other twoTariffs postNextYearZero
  = (mkResponse 400
       (Message
          "Tariff cannot be active now. Today (2025-06-01) is outside the tariff validity range."),
     twoTariffs) /\
  post Sequelize.padsYear [] postUnpadded
  = (mkResponse 201 (Row autumn), [autumn]).
Proof.
  cbv zeta.
  assert (Created :
    Accepted req ->
    status (fst (post other rows req)) = 201 ->
    exists t,
      post other rows req
      = (mkResponse 201 (Row t),
         ((if is_active t then map (retire (user req)) rows else rows)
          ++ [t])%list) /\
      id t = nextId rows /\ user_id t = user req /\
      tariff_name t = b_tariff_name req /\
      price_per_kwh t = b_price_per_kwh req /\
      Sequelize.dateValue other false (b_valid_from req)
      = Some (valid_from t) /\
      Sequelize.dateValue other true (or (b_valid_to req) JNull)
      = Some (valid_to t) /\
      is_active t = negb (isFalse (b_is_active req))).
  { intros Ha. rewrite (post_accepted other rows req Ha).
    destruct (Sequelize.dateValue other false (b_valid_from req))
      as [from | ]; [ | discriminate ].
    destruct (Sequelize.dateValue other true (or (b_valid_to req) JNull))
      as [to | ]; [ | discriminate ].
    intros _.
    exists (mkTariff (nextId rows) (user req) (b_tariff_name req)
              (b_price_per_kwh req) from to
              (negb (isFalse (b_is_active req)))).
    repeat split. }
  assert (Is201 : status (fst (post other rows req)) = 201 -> Accepted req).
  { intros S. destruct (accepted_dec req) as [Ha | Hn]; [ exact Ha | ].
    destruct (post_refused other rows req Hn) as [E _]. congruence. }
  split; [ | split; [ | split; [ | split; [ | split; [ | split; [ | split;
    [ | split ] ] ] ] ] ] ].
  - split.
    + intros S Ha. rewrite (post_accepted other rows req Ha) in S.
      destruct (Sequelize.dateValue other false (b_valid_from req));
        [ | discriminate S ].
      destruct (Sequelize.dateValue other true (or (b_valid_to req) JNull));
        discriminate S.
    + intros Hn. apply (post_refused other rows req Hn).
  - intros S. destruct (accepted_dec req) as [Ha | Hn].
    + rewrite (post_accepted other rows req Ha) in S |- *.
      destruct (Sequelize.dateValue other false (b_valid_from req));
        [ | reflexivity ].
      destruct (Sequelize.dateValue other true (or (b_valid_to req) JNull));
        [ | reflexivity ].
      exfalso. apply S. reflexivity.
    + apply (post_refused other rows req Hn).
  - intros Ha. rewrite (post_accepted other rows req Ha).
    destruct (Sequelize.dateValue other false (b_valid_from req));
      [ | right; reflexivity ].
    destruct (Sequelize.dateValue other true (or (b_valid_to req) JNull));
      [ left; reflexivity | right; reflexivity ].
  - intros S. destruct (Created (Is201 S) S)
      as (t & E & Hi & Hu & Hn & Hp & Hf & Ht & Hact).
    exists t. rewrite E. cbn [fst snd].
    repeat split; try assumption.
    + intros x Hx Ex. pose proof (nextId_fresh rows x Hx). lia.
    + intros F. rewrite Hact in F. apply negb_false_iff in F.
      apply isFalse_iff. exact F.
    + intros F. rewrite Hact. apply negb_false_iff. apply isFalse_iff.
      exact F.
    + intros Act x Hx Hux. rewrite Act in Hx. apply in_app_or in Hx.
      destruct Hx as [Hx | [<- | []]]; [ right | left; reflexivity ].
      exact (retired _ _ _ Hx Hux).
  - intros Hp. split.
    + rewrite <- (plain_accepted req Hp). split; [ exact Is201 | ].
      intros Ha. rewrite (post_accepted other rows req Ha).
      destruct (plain_kept other req Hp) as [-> ->]. reflexivity.
    + intros t E.
      assert (S : status (fst (post other rows req)) = 201)
        by (rewrite E; reflexivity).
      destruct (Created (Is201 S) S) as (t' & E' & _ & _ & _ & _ & Hf & Ht & _).
      rewrite E' in E. cbn [fst] in E. injection E as <-.
      destruct (plain_kept other req Hp) as [Kf Kt].
      rewrite Kf in Hf. rewrite Kt in Ht.
      injection Hf as <-. injection Ht as <-. split; reflexivity.
  - vm_compute. reflexivity.
  - vm_compute. reflexivity.
  - vm_compute. reflexivity.
  - vm_compute. reflexivity.
Qed.

End TariffCreation.
